(** * represent-boundaries: the overlap report, the map tile view and
      the list and detail views

    A shallow embedding of

    - [boundaries/management/commands/compute_intersections.py]
      ([Command.handle]), and
    - [boundaries/views.py] ([boundaries_map_tiles] and the views
      around it),

    together with the properties the specification states about them.

    Python floats are IEEE binary64 numbers and are modelled by Rocq's
    primitive floats, so [a / b], [a < b] and the literal [.001] mean
    here exactly what they mean in the source.  The spatial database
    (GEOS/GDAL through the Django ORM), the cairo font engine and the
    built-in functions [int] and [eval] are outside the repository:
    they are taken as interfaces ([Geos], [Gis], [Cairo], [Builtins],
    [PyEval]) whose operations may raise. *)

From Stdlib Require Import ZArith List String Ascii Floats.
From stdpp Require Import gmap strings list sorting.

Set Warnings "-inexact-float".
Open Scope string_scope.
Open Scope list_scope.

(** ** The Python runtime the two files rely on *)

Module Py.

(** The exceptions that can leave the modelled code. *)
Inductive exn : Type :=
| DoesNotExist (model : string)
| MultipleObjectsReturned (model : string)
| ZeroDivisionError
| OverflowError
| TypeError
| KeyError (key : string)
| IndexError
| SyntaxError
| GEOSException (msg : string)
| GDALException (msg : string)
| Http404 (msg : string).

Inductive result (A : Type) : Type :=
| Ok (a : A)
| Raise (e : exn).
Arguments Ok {A} a.
Arguments Raise {A} e.

Definition rbind {A B} (r : result A) (k : A -> result B) : result B :=
  match r with
  | Ok a => k a
  | Raise e => Raise e
  end.

(** [x / y] on two floats: Python raises on a zero divisor (of either
    sign) where IEEE arithmetic would give an infinity or a NaN. *)
Definition py_div (x y : float) : result float :=
  if PrimFloat.eqb y 0%float then Raise ZeroDivisionError
  else Ok (x / y)%float.

(** [float(n)] for an integer [n]: rounding to nearest, and
    [OverflowError] when the integer is too large. *)
Definition nearest_float (n : Z) : float :=
  SF2Prim (binary_normalize prec emax n 0 false).

Definition float_of_int (n : Z) : result float :=
  let f := nearest_float n in
  if PrimFloat.eqb (PrimFloat.abs f) infinity then Raise OverflowError
  else Ok f.

(** [math.pow(2.0, n)] for an integer [n]. *)
Definition math_pow_2 (n : Z) : result float :=
  rbind (float_of_int n) (fun _ =>
  if (1024 <=? n)%Z then Raise OverflowError
  else Ok (Z.ldexp 1%float n)).

(** [xrange(0, stop, step)] for a positive step. *)
Definition xrange (stop step : Z) : list Z :=
  List.map (fun i => (step * Z.of_nat i)%Z)
           (List.seq 0 (Z.to_nat ((stop + step - 1) / step))).

(** *** [int(s)] on a string

    Which strings [int] turns into a number is the interpreter's
    business, and it has changed with the versions of Python and of
    the Unicode tables they carry: the digits of other scripts,
    the white space that is skipped, an underscore between digits,
    a limit on the number of digits.  The views are modelled over
    any [int]; [None] stands for [ValueError], the one exception
    [int] raises on a string.  [CPython.int_of_str] below is the
    [int] of one interpreter. *)
Class Builtins : Type := { int : string -> option Z }.

End Py.

Export Py.

(** ** [int] as CPython 3 has it

    An instance of [Builtins] to run the view on: [int] on a [str]
    as CPython 3.11 defines it, with the tables of Unicode 14.0 and
    the default limit of 4300 digits.  A [str] is held as its UTF-8
    encoding, which is how the query string carries it. *)

Module CPython.

Definition replacement_character : N := 65533.

Definition continuation (b : N) : bool := ((128 <=? b) && (b <? 192))%N.

Definition two_bytes (b0 b1 : N) : option N :=
  if ((194 <=? b0) && (b0 <? 224))%N && continuation b1
  then Some ((b0 - 192) * 64 + (b1 - 128))%N
  else None.

Definition three_bytes (b0 b1 b2 : N) : option N :=
  let c := ((b0 - 224) * 4096 + (b1 - 128) * 64 + (b2 - 128))%N in
  if ((224 <=? b0) && (b0 <? 240))%N && continuation b1 && continuation b2
     && (2048 <=? c)%N && ((c <? 55296) || (57343 <? c))%N
  then Some c
  else None.

Definition four_bytes (b0 b1 b2 b3 : N) : option N :=
  let c := ((b0 - 240) * 262144 + (b1 - 128) * 4096 + (b2 - 128) * 64 + (b3 - 128))%N in
  if ((240 <=? b0) && (b0 <? 245))%N && continuation b1 && continuation b2
     && continuation b3 && (65536 <=? c)%N && (c <=? 1114111)%N
  then Some c
  else None.

(** The code points of a UTF-8 byte sequence.  A byte that starts no
    well-formed sequence gives U+FFFD, as it does when Django decodes
    the query string. *)
Fixpoint decode (bytes : list N) : list N :=
  match bytes with
  | [] => []
  | b0 :: r0 =>
      if (b0 <? 128)%N then b0 :: decode r0
      else
        match r0 with
        | [] => [replacement_character]
        | b1 :: r1 =>
            match two_bytes b0 b1 with
            | Some c => c :: decode r1
            | None =>
                match r1 with
                | [] => replacement_character :: decode r0
                | b2 :: r2 =>
                    match three_bytes b0 b1 b2 with
                    | Some c => c :: decode r2
                    | None =>
                        match r2 with
                        | [] => replacement_character :: decode r0
                        | b3 :: r3 =>
                            match four_bytes b0 b1 b2 b3 with
                            | Some c => c :: decode r3
                            | None => replacement_character :: decode r0
                            end
                        end
                    end
                end
            end
        end
  end.

Definition code_points (s : string) : list N :=
  decode (List.map N_of_ascii (list_ascii_of_string s)).

(** The digit zero of every decimal number system (general category
    Nd); the digits one to nine follow each of them. *)
Definition zeros : list N :=
  [ 48; 1632; 1776; 1984; 2406; 2534; 2662; 2790; 2918; 3046;
    3174; 3302; 3430; 3558; 3664; 3792; 3872; 4160; 4240; 6112;
    6160; 6470; 6608; 6784; 6800; 6992; 7088; 7232; 7248; 42528;
    43216; 43264; 43472; 43504; 43600; 44016; 65296; 66720; 68912; 69734;
    69872; 69942; 70096; 70384; 70736; 70864; 71248; 71360; 71472; 71904;
    72016; 72784; 73040; 73120; 92768; 92864; 93008; 120782; 120792; 120802;
    120812; 120822; 123200; 123632; 125264; 130032 ]%N.

(** [Py_UNICODE_TODECIMAL] *)
Definition decimal (c : N) : option Z :=
  match List.find (fun z => ((z <=? c) && (c <? z + 10))%N) zeros with
  | Some z => Some (Z.of_N (c - z))
  | None => None
  end.

(** What [int] skips around a number: the white space of ASCII
    (without the four separators U+001C to U+001F, which [str.isspace]
    counts in but [int] does not skip) and of the rest of Unicode. *)
Definition spaces : list N :=
  [ 9; 10; 11; 12; 13; 32; 133; 160; 5760; 8192;
    8193; 8194; 8195; 8196; 8197; 8198; 8199; 8200; 8201; 8202;
    8232; 8233; 8239; 8287; 12288 ]%N.

Definition is_space (c : N) : bool := existsb (N.eqb c) spaces.

Fixpoint skip_spaces (l : list N) : list N :=
  match l with
  | c :: l' => if is_space c then skip_spaces l' else l
  | [] => []
  end.

(** The digits after the first one, where an underscore may stand
    between two digits; the value, the number of digits and what is
    left over, or [None] after a misplaced underscore. *)
Fixpoint more_digits (acc count : Z) (l : list N) : option (Z * Z * list N) :=
  match l with
  | [] => Some (acc, count, [])
  | c :: l' =>
      match decimal c with
      | Some d => more_digits (10 * acc + d) (count + 1) l'
      | None =>
          if (c =? 95)%N then
            match l' with
            | c' :: l'' =>
                match decimal c' with
                | Some d => more_digits (10 * acc + d) (count + 1) l''
                | None => None
                end
            | [] => None
            end
          else Some (acc, count, l)
      end
  end.

(** [sys.get_int_max_str_digits()] *)
Definition max_str_digits : Z := 4300.

Definition unsigned_int (l : list N) : option Z :=
  match l with
  | c :: l' =>
      match decimal c with
      | Some d =>
          match more_digits d 1 l' with
          | Some (n, count, rest) =>
              match skip_spaces rest with
              | [] => if (max_str_digits <? count)%Z then None else Some n
              | _ :: _ => None
              end
          | None => None
          end
      | None => None
      end
  | [] => None
  end.

(** [int(s)]: white space, an optional sign, decimal digits of any
    script with single underscores between them, white space. *)
Definition int_of_str (s : string) : option Z :=
  match skip_spaces (code_points s) with
  | 45%N :: l => option_map Z.opp (unsigned_int l)
  | 43%N :: l => unsigned_int l
  | l => unsigned_int l
  end.

#[export] Instance builtins : Builtins := { int := int_of_str }.

End CPython.

(** ** The spatial back end and the stored entities *)

Definition Point : Type := float * float.

(** An extent is [(xmin, ymin, xmax, ymax)]. *)
Definition Extent : Type := float * float * float * float.

(** What the code asks of the geometry library.  An operation that can
    raise returns the exception's message on the left. *)
Class Geos (Geom : Type) : Type := {
  area : Geom -> float;
  empty : Geom -> bool;
  intersection : Geom -> Geom -> string + Geom;
  (** the database predicate behind [shape__intersects] *)
  intersects : Geom -> Geom -> bool;
}.

(** What the tile view asks in addition: projections between spatial
    reference systems (named by their SRID), simplification, extents
    and label anchors. *)
Class Gis (Geom : Type) : Type := {
  gis_geos :: Geos Geom;
  (** [Polygon(((x1,y1),(x2,y1),(x2,y2),(x1,y2),(x1,y1)), srid=srid)],
      which GEOS refuses when the five points are no closed ring *)
  polygon_box : Point -> Point -> Z -> string + Geom;
  (** [g.extent] *)
  geom_extent : Geom -> Extent;
  (** [Point(p, srid=from); p.transform(to)], which fails when GDAL
      cannot project the point *)
  transform_point : Z -> Z -> Point -> string + Point;
  (** [g.transform(to)], likewise *)
  transform : Z -> Geom -> string + Geom;
  (** [g.simplify(tolerance, preserve_topology=True)] *)
  simplify : float -> Geom -> Geom;
  (** [MultiPolygon(..., srid=srid)] around a polygon or the parts of
      a multipolygon *)
  multipolygon : Z -> Geom -> Geom;
  (** the coordinates of every linear ring of every polygon *)
  ring_coords : Geom -> list (list Point);
  (** [g.point_on_surface] *)
  point_on_surface : Geom -> string + Point;
  (** [g.centroid] *)
  geom_centroid : Geom -> Point;
  (** [g.contains(Point(p))] *)
  contains : Geom -> Point -> bool;
}.

Module Models.
Section Models.
Context {Geom : Type}.

Record BoundarySet : Type := {
  bs_slug : string;
  bs_name : string;
}.

Record Boundary : Type := {
  set_id : string;
  slug : string;
  external_id : string;
  name : string;
  metadata : string;
  shape : Geom;
  simple_shape : Geom;
  centroid : Point;
  extent : Extent;
  label_point : option Point;
  color : string;
}.

Record Database : Type := {
  boundary_sets : list BoundarySet;
  all_boundaries : list Boundary;
  (** the SRIDs that have a row in the back end's [spatial_ref_sys] *)
  spatial_ref_sys : list Z;
}.

(** [Model.objects.get(...)] over the rows that match. *)
Definition get_one {A} (model : string) (rows : list A) : result A :=
  match rows with
  | [] => Raise (DoesNotExist model)
  | [x] => Ok x
  | _ => Raise (MultipleObjectsReturned model)
  end.

(** [BoundarySet.objects.get(slug=s)] *)
Definition BoundarySet_get (db : Database) (s : string) : result BoundarySet :=
  get_one "BoundarySet"
    (List.filter (fun bs => String.eqb (bs_slug bs) s) (boundary_sets db)).

(** [bset.boundaries]: the related manager. *)
Definition boundaries (db : Database) (bset : BoundarySet) : list Boundary :=
  List.filter (fun b => String.eqb (set_id b) (bs_slug bset)) (all_boundaries db).

(** [qs.get(slug=s)] *)
Definition boundaries_get (qs : list Boundary) (s : string) : result Boundary :=
  get_one "Boundary" (List.filter (fun b => String.eqb (slug b) s) qs).

(** [SpatialRefSys.objects.get(srid=n).srs], a reference system being
    named by its SRID *)
Definition SpatialRefSys_get (db : Database) (n : Z) : result Z :=
  get_one "SpatialRefSys" (List.filter (Z.eqb n) (spatial_ref_sys db)).

(** [qs.order_by("slug").values_list('slug', flat=True)] *)
Fixpoint insert_slug (s : string) (l : list string) : list string :=
  match l with
  | [] => [s]
  | t :: l' => if String.leb s t then s :: l else t :: insert_slug s l'
  end.

Definition slugs_in_order (qs : list Boundary) : list string :=
  List.fold_right insert_slug [] (List.map slug qs).

End Models.
Arguments BoundarySet : clear implicits.
Arguments Boundary : clear implicits.
Arguments Database : clear implicits.
End Models.

Export Models.

(** ** [compute_intersections.py]: the overlap report *)

Module Intersections.

(** The parsed command line options. *)
Record Options : Type := {
  format : string;
  include_metadata : bool;
}.

(** The per-boundary dictionary of a JSON record; its keys are the
    literals ["id"], ["name"], ["slug"], ["centroid"], ["extent"],
    ["area"], ["ratio"] and, with [--metadata], ["metadata"]. *)
Record Side : Type := {
  side_id : string;
  side_name : string;
  side_slug : string;
  side_centroid : Point;
  side_extent : Extent;
  side_area : float;
  side_ratio : float;
  side_metadata : option string;
}.

(** A value stored in a JSON record, whose keys are computed at run
    time: ["area"] and the slugs of the two boundary sets. *)
Inductive JVal : Type :=
| JNumber (x : float)
| JObject (s : Side).

(** What a [print] statement writes to standard output. *)
Inductive Line : Type :=
| Text (s : string)
| CsvHeader (set_1 set_2 : string)
| CsvRow (a_slug : string) (a_area : float) (b_slug : string)
         (b_area int_area pct_of_1 pct_of_2 : float)
| JsonDump (records : list (gmap string JVal)).

(** The two streams and the local variable [output]. *)
Record State : Type := {
  stdout : list Line;
  stderr : list string;
  output : list (gmap string JVal);
}.

Definition initial : State := {| stdout := []; stderr := []; output := [] |}.

(** Statements: they change the state and finish normally or raise. *)
Definition M (A : Type) : Type := State -> result A * State.

Definition ret {A} (a : A) : M A := fun s => (Ok a, s).
Definition bind {A B} (m : M A) (k : A -> M B) : M B :=
  fun s => match m s with
           | (Ok a, s') => k a s'
           | (Raise e, s') => (Raise e, s')
           end.
Definition lift {A} (r : result A) : M A := fun s => (r, s).

Notation "x <- c ;; k" := (bind c (fun x => k))
  (at level 100, c at next level, right associativity).
Notation "c ;;; k" := (bind c (fun _ => k))
  (at level 100, right associativity).

Definition print (l : Line) : M unit :=
  fun s => (Ok tt, {| stdout := stdout s ++ [l]; stderr := stderr s; output := output s |}).

Definition stderr_write (msg : string) : M unit :=
  fun s => (Ok tt, {| stdout := stdout s; stderr := stderr s ++ [msg]; output := output s |}).

Definition output_append (r : gmap string JVal) : M unit :=
  fun s => (Ok tt, {| stdout := stdout s; stderr := stderr s; output := output s ++ [r] |}).

Definition with_metadata (md : string) (x : Side) : Side :=
  {| side_id := side_id x; side_name := side_name x; side_slug := side_slug x;
     side_centroid := side_centroid x; side_extent := side_extent x;
     side_area := side_area x; side_ratio := side_ratio x;
     side_metadata := Some md |}.

(** [r[key]["metadata"] = md] *)
Definition set_metadata (key md : string) (r : gmap string JVal)
  : result (gmap string JVal) :=
  match r !! key with
  | Some (JObject x) => Ok (<[key := JObject (with_metadata md x)]> r)
  | Some (JNumber _) => Raise TypeError
  | None => Raise (KeyError key)
  end.

(** [output[-1][key]["metadata"] = md] *)
Definition output_last_set_metadata (key md : string) : M unit :=
  fun s => match rev (output s) with
           | [] => (Raise IndexError, s)
           | r :: earlier =>
               match set_metadata key md r with
               | Ok r' => (Ok tt, {| stdout := stdout s; stderr := stderr s;
                                      output := rev (r' :: earlier) |})
               | Raise e => (Raise e, s)
               end
           end.

(** A [for] loop whose body may [continue] (finish early) or raise. *)
Fixpoint for_each {A} (l : list A) (body : A -> M unit) : M unit :=
  match l with
  | [] => ret tt
  | x :: l' => body x ;;; for_each l' body
  end.

Definition newline : string := String (ascii_of_nat 10) EmptyString.

Section Command.
Context {Geom : Type} `{Geos Geom}.
Variable db : Database Geom.

(** The body of the inner loop (lines 44 to 86). *)
Definition report_pair (options : Options) (bset_a bset_b : BoundarySet)
    (a_slug : string) (a_bdry : Boundary Geom) (a_area : float)
    (b_bdry : Boundary Geom) : M unit :=
  match intersection (shape a_bdry) (shape b_bdry) with
  | inl e =>
      stderr_write (a_slug +:+ "/" +:+ slug b_bdry +:+ ": " +:+ e +:+ newline)
  | inr geometry =>
      let int_area := area geometry in
      if empty geometry then ret tt else
      let b_area := area (shape b_bdry) in
      pct_a <- lift (py_div int_area a_area) ;;
      if (pct_a <? 0.001)%float then ret tt else
      pct_b <- lift (py_div int_area b_area) ;;
      if (pct_b <? 0.001)%float then ret tt else
      if String.eqb (format options) "csv" then
        pct_of_1 <- lift (py_div int_area a_area) ;;
        pct_of_2 <- lift (py_div int_area b_area) ;;
        print (CsvRow a_slug a_area (slug b_bdry) b_area int_area pct_of_1 pct_of_2)
      else if String.eqb (format options) "json" then
        ratio_a <- lift (py_div int_area a_area) ;;
        ratio_b <- lift (py_div int_area b_area) ;;
        output_append
          (<[bs_slug bset_b := JObject
               {| side_id := external_id b_bdry; side_name := name b_bdry;
                  side_slug := slug b_bdry; side_centroid := centroid b_bdry;
                  side_extent := extent b_bdry; side_area := b_area;
                  side_ratio := ratio_b; side_metadata := None |}]>
           (<[bs_slug bset_a := JObject
               {| side_id := external_id a_bdry; side_name := name a_bdry;
                  side_slug := a_slug; side_centroid := centroid a_bdry;
                  side_extent := extent a_bdry; side_area := a_area;
                  side_ratio := ratio_a; side_metadata := None |}]>
           (<["area" := JNumber int_area]> ∅))) ;;;
        if include_metadata options then
          output_last_set_metadata (bs_slug bset_a) (metadata a_bdry) ;;;
          output_last_set_metadata (bs_slug bset_b) (metadata b_bdry)
        else ret tt
      else ret tt
  end.

(** The boundaries of the second set the database returns for
    [filter(shape__intersects=a_bdry.shape)]. *)
Definition intersecting (bset_b : BoundarySet) (a_bdry : Boundary Geom)
  : list (Boundary Geom) :=
  List.filter (fun b => intersects (shape b) (shape a_bdry)) (boundaries db bset_b).

(** The body of the outer loop (lines 37 to 86). *)
Definition report_boundary (options : Options) (bset_a bset_b : BoundarySet)
    (a_slug : string) : M unit :=
  a_bdry <- lift (boundaries_get (boundaries db bset_a) a_slug) ;;
  let a_area := area (shape a_bdry) in
  for_each (intersecting bset_b a_bdry)
           (report_pair options bset_a bset_b a_slug a_bdry a_area).

(** [Command.handle], on the positional arguments and the options *)
Definition handle (args : list string) (options : Options) : M unit :=
  match args with
  | slug_1 :: slug_2 :: _ =>
      bset_a <- lift (BoundarySet_get db slug_1) ;;
      bset_b <- lift (BoundarySet_get db slug_2) ;;
      (if String.eqb (format options) "csv"
       then print (CsvHeader (bs_slug bset_a) (bs_slug bset_b))
       else ret tt) ;;;
      for_each (slugs_in_order (boundaries db bset_a))
               (report_boundary options bset_a bset_b) ;;;
      if String.eqb (format options) "json"
      then fun s => print (JsonDump (output s)) s
      else ret tt
  | _ => print (Text "Specify two boundaryset slugs.")
  end.

(** A whole run of the command, from empty streams. *)
Definition run (args : list string) (options : Options) : result unit * State :=
  handle args options initial.

End Command.

End Intersections.

(** ** [views.py]: the map tile view *)

Module Tiles.

(** The settings and module-level facts the view reads. *)
Record Settings : Type := {
  (** whether [import cairo] succeeded *)
  has_imaging_library : bool;
  SIMPLE_SHAPE_TOLERANCE : float;
  MAP_LABEL_FONT : string;
  (** [geometry_field.srid], the SRID of the [shape] column *)
  shape_srid : Z;
}.

Inductive Source : Type :=
| Rgba (r g b a : float)
| LinearGradient (x0 y0 x1 y1 : float) (stops : list (float * float * float * float * float)).

(** The calls that put ink on the surface, with the context state
    (source, path, line width, font size) each one is made in. *)
Inductive DrawOp : Type :=
| Fill (src : Source) (path : list Point)
| Stroke (src : Source) (line_width : float) (path : list Point)
| ShowText (src : Source) (font_size : float) (origin : Point) (txt : string).

Record Surface : Type := {
  width : Z;
  height : Z;
  ops : list DrawOp;
}.

(** [cairo.ImageSurface(cairo.FORMAT_ARGB32, w, h)]: every pixel is
    transparent until something is drawn. *)
Definition ImageSurface (w h : Z) : Surface :=
  {| width := w; height := h; ops := [] |}.

(** The font engine and the PNG encoder. *)
Class Cairo : Type := {
  (** [ctx.text_extents(txt)[:4]] for a font face and size:
      [(x_bearing, y_bearing, width, height)] *)
  text_extents : string -> float -> string -> float * float * float * float;
  (** the bytes [im.write_to_png(buf)] leaves in [buf] *)
  write_to_png : Surface -> list Byte.byte;
}.

(** The rectangle the glyphs of a text cover when it is shown at
    [origin], by the definition of the bearings:
    [(left, top, right, bottom)]. *)
Definition text_ink_box (origin : Point) (te : float * float * float * float)
  : float * float * float * float :=
  let '(x_bearing, y_bearing, tw, th) := te in
  (fst origin + x_bearing, snd origin + y_bearing,
   fst origin + x_bearing + tw, snd origin + y_bearing + th)%float.

Record HttpResponse : Type := {
  status_code : Z;
  content_type : string;
  content : list Byte.byte;
  content_length : nat;
}.

(** The status the client sees: [Http404] becomes a 404 response and
    any other exception that leaves the view a server error. *)
Definition http_status (r : result HttpResponse) : Z :=
  match r with
  | Ok resp => status_code resp
  | Raise (Http404 _) => 404
  | Raise _ => 500
  end.

(** One row of [.values("name", "label_point", "color", shape_field)] *)
Record Row (Geom : Type) : Type := {
  row_name : string;
  row_label_point : option Point;
  row_color : string;
  row_shape : Geom;
}.
Arguments row_name {Geom} _.
Arguments row_label_point {Geom} _.
Arguments row_color {Geom} _.
Arguments row_shape {Geom} _.

(** What the text of a colour can evaluate to.  The view tells
    lists, tuples and dictionaries from everything else, iterates
    over what it finds in them and divides the items by [255.0].
    [VObject] is an object of any other type: it is no number, and
    [items] is what iterating over it yields, if it can be iterated
    over at all.  The items of a dictionary are its keys with their
    values, in the order of iteration. *)
#[warnings="-register-all"]
Inductive Value : Type :=
| VNone
| VBool (b : bool)
| VInt (n : Z)
| VFloat (f : float)
| VStr (s : string)
| VList (items : list Value)
| VTuple (items : list Value)
| VDict (items : list (Value * Value))
| VObject (items : option (list Value)).

(** [eval(text)] in the scope of the module: the value of the
    expression, or whatever exception evaluating it raises. *)
Class PyEval : Type := { eval : string -> result Value }.

Notation "x <- c ;; k" := (rbind c (fun x => k))
  (at level 100, c at next level, right associativity).

(** The exception a failed call into GEOS or GDAL leaves the view
    with. *)
Definition geos {A} (r : string + A) : result A :=
  match r with
  | inr a => Ok a
  | inl msg => Raise (GEOSException msg)
  end.

Definition gdal {A} (r : string + A) : result A :=
  match r with
  | inr a => Ok a
  | inl msg => Raise (GDALException msg)
  end.

(** [max(x, y)] *)
Definition py_max (x y : float) : float := if (x <? y)%float then y else x.

(** [max_extent(shape)] *)
Definition max_extent (e : Extent) : float :=
  let '(a, b, c, d) := e in py_max (c - a)%float (d - b)%float.

(** [f/255.0] on floats *)
Definition channel (f : float) : float := (f / 255)%float.

(** [f/255.0] on an item of a colour, as an argument for cairo: a
    number is converted to a float first, anything else is a
    [TypeError]. *)
Definition div_255 (v : Value) : result float :=
  match v with
  | VInt n => f <- float_of_int n ;; Ok (channel f)
  | VBool b => Ok (channel (if b then 1 else 0))
  | VFloat f => Ok (channel f)
  | _ => Raise TypeError
  end.

(** [[f/255.0 for f in items]] *)
Fixpoint channels (items : list Value) : result (list float) :=
  match items with
  | [] => Ok []
  | v :: items' =>
      c <- div_255 v ;;
      cs <- channels items' ;;
      Ok (c :: cs)
  end.

(** What [for f in v] runs through. *)
Definition iterate (v : Value) : result (list Value) :=
  match v with
  | VList items | VTuple items => Ok items
  | VDict items => Ok (List.map fst items)
  | VStr s => Ok (List.map (fun c => VStr (String c EmptyString)) (list_ascii_of_string s))
  | VObject (Some items) => Ok items
  | _ => Raise TypeError
  end.

(** [d[key]] on the items of a dictionary, for a string key. *)
Fixpoint subscript (items : list (Value * Value)) (key : string) : result Value :=
  match items with
  | [] => Raise (KeyError key)
  | (VStr k, v) :: items' => if String.eqb k key then Ok v else subscript items' key
  | _ :: items' => subscript items' key
  end.

Section View.
Context {Geom : Type} {gis : Gis Geom} {cairo : Cairo} {builtins : Builtins}
        {evaluator : PyEval}.
Variable settings : Settings.
Variable db : Database Geom.

(** [request.GET.get(key, default)] *)
Definition GET_get (GET : gmap string string) (key default : string) : string :=
  match GET !! key with
  | Some v => v
  | None => default
  end.

(** [int(s)] inside [try: ... except ValueError: raise Http404(...)] *)
Definition int_or_404 (s : string) : result Z :=
  match Py.int s with
  | Some n => Ok n
  | None => Raise (Http404 "Invalid parameter.")
  end.

(** Lines 134 to 140: [size] and [srs]. *)
Definition load_basic_parameters (GET : gmap string string) : result (Z * Z) :=
  size <- int_or_404 (GET_get GET "size" "256") ;;
  if negb (Z.eqb size 256 || Z.eqb size 512 || Z.eqb size 1024)
  then Raise (Http404 "Invalid parameter.")
  else
    srs <- int_or_404 (GET_get GET "srs" "3857") ;;
    Ok (size, srs).

(** Lines 173 to 178: the tile coordinates. *)
Definition load_tile_parameters (GET : gmap string string) : result (Z * Z * Z) :=
  tile_x <- int_or_404 (GET_get GET "tile_x" "0") ;;
  tile_y <- int_or_404 (GET_get GET "tile_y" "0") ;;
  tile_zoom <- int_or_404 (GET_get GET "tile_zoom" "0") ;;
  Ok (tile_x, tile_y, tile_zoom).

(** The local variables the rest of the view works with. *)
Record Tile : Type := {
  size : Z;
  fsize : float;
  out_srs : Z;
  db_srs : Z;
  bbox : Geom;
  blon1 : float;
  blat1 : float;
  bx : float;
  by_ : float;
  db_bbox : Geom;
  pixel_width : float;
  shape_field : string;
}.

(** Lines 209 to 212. *)
Definition choose_shape_field (pixel_width : float) : string :=
  if (SIMPLE_SHAPE_TOLERANCE settings <? pixel_width)%float
  then "simple_shape" else "shape".

(** Lines 131 to 212: from the request to the bounding box, the
    pixel width and the geometry column to load. *)
Definition tile_of_request (GET : gmap string string) : result Tile :=
  if negb (has_imaging_library settings)
  then Raise (Http404 "Cairo is not available.")
  else
    basic <- load_basic_parameters GET ;;
    let '(size, srs) := basic in
    out_srs <- SpatialRefSys_get db srs ;;
    db_srs <- (if Z.eqb srs 3857 then SpatialRefSys_get db 4055
               else SpatialRefSys_get db (shape_srid settings)) ;;
    coords <- load_tile_parameters GET ;;
    let '(tile_x, tile_y, tile_zoom) := coords in
    p <- gdal (transform_point db_srs out_srs (180, 0)%float) ;;
    let world_left := (- fst p)%float in
    let world_top := (- world_left)%float in
    let world_size := (fst p * 2)%float in
    zoom_scale <- math_pow_2 tile_zoom ;;
    tile_world_size <- py_div world_size zoom_scale ;;
    x <- float_of_int tile_x ;;
    y <- float_of_int tile_y ;;
    x' <- float_of_int (tile_x + 1) ;;
    y' <- float_of_int (tile_y + 1) ;;
    let p1 := (world_left + tile_world_size * x, world_top - tile_world_size * y)%float in
    let p2 := (world_left + tile_world_size * x', world_top - tile_world_size * y')%float in
    bbox <- geos (polygon_box p1 p2 out_srs) ;;
    let '(blon1, blat1, blon2, blat2) := geom_extent bbox in
    fsize <- float_of_int size ;;
    bx <- py_div fsize (blon2 - blon1) ;;
    by_ <- py_div fsize (blat2 - blat1) ;;
    db_bbox <- gdal (transform db_srs bbox) ;;
    let '(dlon1, _, dlon2, _) := geom_extent db_bbox in
    let pixel_width := ((dlon2 - dlon1) / fsize / 2)%float in
    Ok {| size := size; fsize := fsize; out_srs := out_srs; db_srs := db_srs;
          bbox := bbox; blon1 := blon1; blat1 := blat1; bx := bx; by_ := by_;
          db_bbox := db_bbox; pixel_width := pixel_width;
          shape_field := choose_shape_field pixel_width |}.

(** [viewport(coord)]: world coordinates of the output projection
    to pixel coordinates. *)
Definition viewport (t : Tile) (coord : Point) : Point :=
  ((fst coord - blon1 t) * bx t, (fsize t - 1) - (snd coord - blat1 t) * by_ t)%float.

(** [.values(..., shape_field)] on one boundary. *)
Definition values (field : string) (b : Boundary Geom) : Row Geom :=
  {| row_name := name b;
     row_label_point := label_point b;
     row_color := color b;
     row_shape := if String.eqb field "simple_shape" then simple_shape b else shape b |}.

(** Lines 216 to 218: the boundaries of the set that intersect the
    bounding box, narrowed to one boundary when a slug is given. *)
Definition query (t : Tile) (set_slug boundary_slug : string) : list (Row Geom) :=
  List.map (values (shape_field t))
    (List.filter
       (fun b => String.eqb (set_id b) set_slug
                 && intersects (shape b) (db_bbox t)
                 && (String.eqb boundary_slug "" || String.eqb (slug b) boundary_slug))
       (all_boundaries db)).

(** The shape of a row as it is measured: simplified to the pixel
    width and wrapped as a multipolygon (lines 247 to 260). *)
Definition simplified (t : Tile) (bdry : Row Geom) : Geom :=
  multipolygon (db_srs t) (simplify (pixel_width t) (row_shape bdry)).

(** Lines 245 to 270: the list the three passes draw from.  A shape
    that is too small is skipped before it is projected. *)
Fixpoint draw_shapes (t : Tile) (boundaries : list (Row Geom))
  : result (list (Row Geom * Geom * float)) :=
  match boundaries with
  | [] => Ok []
  | bdry :: rest =>
      let shape := simplified t bdry in
      let ext_dim := max_extent (geom_extent shape) in
      if (ext_dim <? pixel_width t)%float then draw_shapes t rest
      else
        shape' <- gdal (transform (out_srs t) shape) ;;
        later <- draw_shapes t rest ;;
        Ok ((bdry, shape', ext_dim) :: later)
  end.

(** The path of [new_path()] and a [line_to] at the viewport image
    of every coordinate of the ring. *)
Definition ring_path (t : Tile) (ring : list Point) : list Point :=
  List.map (viewport t) ring.

(** [[f/255.0 for f in color[key]]] *)
Definition color_channels (color : list (Value * Value)) (key : string)
  : result (list float) :=
  c <- subscript color key ;;
  items <- iterate c ;;
  channels items.

(** One call of [pat.add_color_stop_rgba] (lines 299 to 302), which
    takes exactly an offset, three channels and an alpha. *)
Definition color_stop (color : list (Value * Value)) (key : string)
    (offset alpha : float) : result (float * float * float * float * float) :=
  cs <- color_channels color key ;;
  match cs with
  | [r; g; b] => Ok (offset, r, g, b, alpha)
  | _ => Raise TypeError
  end.

(** The four stops one stripe of the gradient adds. *)
Definition stripe_stops (t : Tile) (color : list (Value * Value)) (x : Z)
  : result (list (float * float * float * float * float)) :=
  s1 <- color_stop color "color1" (nearest_float x / fsize t)%float 0.3%float ;;
  s2 <- color_stop color "color1" (nearest_float (x + 28) / fsize t)%float 0.3%float ;;
  s3 <- color_stop color "color2" (nearest_float (x + 28) / fsize t)%float 0.4%float ;;
  s4 <- color_stop color "color2" (nearest_float (x + 32) / fsize t)%float 0.4%float ;;
  Ok [s1; s2; s3; s4].

Fixpoint gradient_stops (t : Tile) (color : list (Value * Value)) (xs : list Z)
  : result (list (float * float * float * float * float)) :=
  match xs with
  | [] => Ok []
  | x :: xs' =>
      here <- stripe_stops t color x ;;
      later <- gradient_stops t color xs' ;;
      Ok (here ++ later)
  end.

(** [ctx.set_source_rgba] on the four channels of a solid colour. *)
Definition solid (items : list Value) : result (option Source) :=
  cs <- channels items ;;
  match cs with
  | [r; g; b; a] => Ok (Some (Rgba r g b a))
  | _ => Raise TypeError
  end.

(** Lines 280 to 305: the source a colour selects; [None] is the
    [continue] of an unusable one.  A list of three gets the default
    alpha appended; for a tuple of three, [color + [60]] is a
    [TypeError]. *)
Definition fill_source (t : Tile) (color : Value) : result (option Source) :=
  match color with
  | VList items =>
      if Nat.eqb (length items) 3 then solid (items ++ [VInt 60])
      else if Nat.eqb (length items) 4 then solid items
      else Ok None
  | VTuple items =>
      if Nat.eqb (length items) 3 then Raise TypeError
      else if Nat.eqb (length items) 4 then solid items
      else Ok None
  | VDict items =>
      stops <- gradient_stops t items (xrange (size t) 32) ;;
      Ok (Some (LinearGradient 0 0 (fsize t) (fsize t) stops))
  | _ => Ok None
  end.

(** Lines 276 to 309: the colour is evaluated anew for every ring. *)
Fixpoint fill_rings (t : Tile) (c : string) (rings : list (list Point))
  : result (list DrawOp) :=
  match rings with
  | [] => Ok []
  | ring :: rings' =>
      color <- eval c ;;
      src <- fill_source t color ;;
      later <- fill_rings t c rings' ;;
      match src with
      | Some src => Ok (Fill src (ring_path t ring) :: later)
      | None => Ok later
      end
  end.

(** Lines 273 to 309, for one entry of [draw_shapes]. *)
Definition shade (t : Tile) (entry : Row Geom * Geom * float) : result (list DrawOp) :=
  let '(bdry, shape, ext_dim) := entry in
  if String.eqb (row_color bdry) "" then Ok []
  else fill_rings t (row_color bdry) (ring_coords shape).

(** Lines 312 to 324, for one entry of [draw_shapes]. *)
Definition outline (t : Tile) (entry : Row Geom * Geom * float) : list DrawOp :=
  let '(bdry, shape, ext_dim) := entry in
  if (ext_dim <? pixel_width t * 3)%float then []
  else
    List.map
      (fun ring =>
         Stroke (Rgba 0.3 0.3 0.3 0.75)
                (if (ext_dim <? pixel_width t * 60)%float then 1%float else 2.5%float)
                (ring_path t ring))
      (ring_coords shape).

(** Lines 332 to 346: the stored label point, projected, or a point
    on the part of the shape that is on the tile; [None] is a
    [continue]. *)
Definition first_anchor (t : Tile) (bdry : Row Geom) (shape : Geom)
  : result (option Point) :=
  match row_label_point bdry with
  | Some lp =>
      pt <- gdal (transform_point (db_srs t) (out_srs t) lp) ;;
      Ok (Some pt)
  | None =>
      match
        match intersection (bbox t) shape with
        | inr inters => point_on_surface inters
        | inl e => inl e
        end
      with
      | inr pt => Ok (Some pt)
      | inl _ =>
          let pt := geom_centroid (bbox t) in
          if contains shape pt then Ok (Some pt) else Ok None
      end
  end.

(** Lines 332 to 357: where the label goes, in world coordinates. *)
Definition label_anchor (t : Tile) (bdry : Row Geom) (shape : Geom)
  : result (option Point) :=
  first_choice <- first_anchor t bdry shape ;;
  match first_choice with
  | None => Ok None
  | Some pt =>
      if contains (bbox t) pt then Ok (Some pt)
      else
        match intersection (bbox t) shape with
        | inl _ => Ok None
        | inr inters =>
            if (area inters <? area (bbox t) / 3)%float then Ok None
            else
              match point_on_surface inters with
              | inr pt' => Ok (Some pt')
              | inl _ => Ok None
              end
        end
  end.

(** [ctx.rel_line_to(dx, dy)] from the current point. *)
Definition rel_line_to (p : Point) (dx dy : float) : Point :=
  (fst p + dx, snd p + dy)%float.

(** The path of the four calls [line_to; rel_line_to (w, 0);
    rel_line_to (0, h); rel_line_to (-w, 0)], where the source writes
    the last offset as [-tw-9] or [-tw-11]. *)
Definition plate_path (corner : Point) (w h back : float) : list Point :=
  let p1 := rel_line_to corner w 0 in
  let p2 := rel_line_to p1 0 h in
  let p3 := rel_line_to p2 back 0 in
  [corner; p1; p2; p3].

(** Lines 368 and 369: the test that guards the three drawing calls
    of a label. *)
Definition label_fits (t : Tile) (limit : float) (pt : Point)
    (te : float * float * float * float) : bool :=
  let '(x_off, y_off, tw, th) := te in
  ((tw <? limit) && (th <? limit)
   && (0 <? fst pt - x_off - tw / 2 - 4) && (0 <? snd pt - th - 4)
   && (fst pt - x_off + tw / 2 + 7 <? fsize t) && (snd pt + 6 <? fsize t))%float.

(** Lines 371 to 391: plate, drop shadow and text. *)
Definition label_drawing (font_size : float) (pt : Point)
    (te : float * float * float * float) (txt : string) : list DrawOp :=
  let '(x_off, y_off, tw, th) := te in
  let corner := (fst pt - x_off - tw / 2 - 4, snd pt - th - 4)%float in
  [ Fill (Rgba 0 0 0 0.55) (plate_path corner (tw + 9) (th + 8) (- tw - 9))%float;
    Fill (Rgba 0 0 0 0.3) (plate_path corner (tw + 11) (th + 10) (- tw - 11))%float;
    ShowText (Rgba 1 1 1 1) font_size (fst pt - x_off - tw / 2, snd pt)%float txt ].

(** Lines 327 to 391, for one entry of [draw_shapes]. *)
Definition label (t : Tile) (entry : Row Geom * Geom * float) : result (list DrawOp) :=
  let '(bdry, shape, ext_dim) := entry in
  if (ext_dim <? pixel_width t * 20)%float then Ok []
  else
    anchor <- label_anchor t bdry shape ;;
    match anchor with
    | None => Ok []
    | Some world_pt =>
        let pt := viewport t world_pt in
        let txt := row_name bdry in
        let font_size :=
          if (fsize t * pixel_width t <? ext_dim)%float then 18%float else 12%float in
        let te := text_extents (MAP_LABEL_FONT settings) font_size txt in
        shown <- py_div ext_dim (pixel_width t) ;;
        if label_fits t (shown / 5)%float pt te
        then Ok (label_drawing font_size pt te txt)
        else Ok []
    end.

(** A pass over [draw_shapes] whose body may raise. *)
Fixpoint pass (f : Row Geom * Geom * float -> result (list DrawOp))
    (entries : list (Row Geom * Geom * float)) : result (list DrawOp) :=
  match entries with
  | [] => Ok []
  | e :: entries' =>
      here <- f e ;;
      later <- pass f entries' ;;
      Ok (here ++ later)
  end.

(** Lines 236 to 391: the surface after the three passes. *)
Definition render (t : Tile) (boundaries : list (Row Geom)) : result Surface :=
  shapes <- draw_shapes t boundaries ;;
  shading <- pass (shade t) shapes ;;
  outlines <- pass (fun e => Ok (outline t e)) shapes ;;
  labels <- pass (label t) shapes ;;
  Ok {| width := size t; height := size t;
        ops := shading ++ outlines ++ labels |}.

(** Lines 228 to 233 and 395 to 403. *)
Definition png_response (im : Surface) : HttpResponse :=
  let v := write_to_png im in
  {| status_code := 200; content_type := "image/png";
     content := v; content_length := length v |}.

(** The surface the view encodes. *)
Definition tile_surface (t : Tile) (set_slug boundary_slug : string) : result Surface :=
  let boundaries := query t set_slug boundary_slug in
  if Nat.eqb (length boundaries) 0 then Ok (ImageSurface 1 1)
  else render t boundaries.

(** [boundaries_map_tiles(request, set_slug, boundary_slug)] *)
Definition boundaries_map_tiles (GET : gmap string string)
    (set_slug boundary_slug : string) : result HttpResponse :=
  t <- tile_of_request GET ;;
  im <- tile_surface t set_slug boundary_slug ;;
  Ok (png_response im).

End View.

End Tiles.

(** ** A small concrete world: axis-parallel rectangles

    An instance of the interfaces on which the report and the view can
    be run: rectangles with sides parallel to the axes, projections
    that change nothing (and fail where there is nothing to project),
    and a fixed-pitch font. *)

Module Flatland.

Inductive Shape : Type :=
| Rect (x1 y1 x2 y2 : float)
(** a geometry so malformed that intersecting it raises *)
| Broken.

Definition fmin (x y : float) : float := if (y <? x)%float then y else x.
Definition fmax (x y : float) : float := if (x <? y)%float then y else x.

Definition rect_area (g : Shape) : float :=
  match g with
  | Rect x1 y1 x2 y2 => ((x2 - x1) * (y2 - y1))%float
  | Broken => 1%float
  end.

Definition rect_empty (g : Shape) : bool :=
  match g with
  | Rect x1 y1 x2 y2 => ((x2 <? x1) || (y2 <? y1))%float
  | Broken => false
  end.

Definition rect_intersection (g h : Shape) : string + Shape :=
  match g, h with
  | Rect a b c d, Rect a' b' c' d' =>
      inr (Rect (fmax a a') (fmax b b') (fmin c c') (fmin d d'))
  | _, _ => inl "TopologyException: side location conflict"
  end.

Definition rect_intersects (g h : Shape) : bool :=
  match g, h with
  | Rect a b c d, Rect a' b' c' d' =>
      ((fmax a a' <=? fmin c c') && (fmax b b' <=? fmin d d'))%float
  | _, _ => true
  end.

#[export] Instance flat_geos : Geos Shape := {
  area := rect_area;
  empty := rect_empty;
  intersection := rect_intersection;
  intersects := rect_intersects;
}.

Definition rect_extent (g : Shape) : Extent :=
  match g with
  | Rect x1 y1 x2 y2 => (x1, y1, x2, y2)
  | Broken => (0, 0, 0, 0)%float
  end.

Definition rect_center (g : Shape) : Point :=
  let '(a, b, c, d) := rect_extent g in (((a + c) / 2)%float, ((b + d) / 2)%float).

Definition is_nan (x : float) : bool := negb (PrimFloat.eqb x x).

(** The box with two opposite corners.  A corner with a coordinate
    that is not a number equals no point, itself included, so the
    ring through it is not closed. *)
Definition rect_box (p q : Point) : string + Shape :=
  if is_nan (fst p) || is_nan (snd p) || is_nan (fst q) || is_nan (snd q)
  then inl "Points of LinearRing do not form a closed linestring"
  else inr (Rect (fmin (fst p) (fst q)) (fmin (snd p) (snd q))
                 (fmax (fst p) (fst q)) (fmax (snd p) (snd q))).

Definition is_finite (x : float) : bool := (PrimFloat.abs x <? infinity)%float.

(** Projections that change nothing, and fail on a coordinate that
    is no finite number. *)
Definition project_point (p : Point) : string + Point :=
  if is_finite (fst p) && is_finite (snd p) then inr p else inl "OGR failure.".

Definition project (g : Shape) : string + Shape :=
  match g with
  | Rect x1 y1 x2 y2 =>
      if is_finite x1 && is_finite y1 && is_finite x2 && is_finite y2
      then inr g else inl "OGR failure."
  | Broken => inr g
  end.

#[export] Instance flat_gis : Gis Shape := {
  gis_geos := flat_geos;
  polygon_box p q _ := rect_box p q;
  geom_extent := rect_extent;
  transform_point _ _ p := project_point p;
  transform _ g := project g;
  simplify _ g := g;
  multipolygon _ g := g;
  ring_coords g :=
    match g with
    | Rect x1 y1 x2 y2 => [[(x1, y1); (x2, y1); (x2, y2); (x1, y2); (x1, y1)]]
    | Broken => []
    end;
  point_on_surface g :=
    match g with
    | Rect _ _ _ _ => inr (rect_center g)
    | Broken => inl "GEOSException"
    end;
  geom_centroid := rect_center;
  contains g p :=
    match g with
    | Rect x1 y1 x2 y2 =>
        ((x1 <? fst p) && (fst p <? x2) && (y1 <? snd p) && (snd p <? y2))%float
    | Broken => false
    end;
}.

(** A fixed-pitch font: every character advances by half the font
    size, a blank leaves no ink, and the ink of a line stands on the
    base line, three quarters of the font size high. *)
Fixpoint leading_blanks (s : string) : nat :=
  match s with
  | String " " s' => S (leading_blanks s')
  | _ => 0
  end.

Definition ink_length (s : string) : nat :=
  String.length s - leading_blanks s
  - leading_blanks (String.rev s).

Definition mono_extents (font_size : float) (txt : string)
  : float * float * float * float :=
  let advance := (font_size / 2)%float in
  ((advance * nearest_float (Z.of_nat (leading_blanks txt)))%float,
   (- (font_size * 0.75))%float,
   (advance * nearest_float (Z.of_nat (ink_length txt)))%float,
   (font_size * 0.75)%float).

#[export] Instance mono_cairo : Tiles.Cairo := {
  Tiles.text_extents _ font_size txt := mono_extents font_size txt;
  (* the PNG signature, then one byte per drawing call *)
  Tiles.write_to_png im :=
    [Byte.x89; Byte.x50; Byte.x4e; Byte.x47]
      ++ List.map (fun _ => Byte.x01) (Tiles.ops im);
}.

(** An [eval] that knows the colours of the examples: a list, a
    tuple, a dictionary with two colours and one that lacks the
    second, and a call of [get_object_or_404], which [views.py]
    imports, for a set that does not exist.  Any other text is taken
    to be no expression at all. *)
Definition eval_color (c : string) : result Tiles.Value :=
  if String.eqb c "[255, 0, 0]"
  then Ok (Tiles.VList [Tiles.VInt 255; Tiles.VInt 0; Tiles.VInt 0])
  else if String.eqb c "(255, 0, 0)"
  then Ok (Tiles.VTuple [Tiles.VInt 255; Tiles.VInt 0; Tiles.VInt 0])
  else if String.eqb c "{'color1': (255, 255, 0), 'color2': (0, 0, 255)}"
  then Ok (Tiles.VDict
             [(Tiles.VStr "color1",
               Tiles.VTuple [Tiles.VInt 255; Tiles.VInt 255; Tiles.VInt 0]);
              (Tiles.VStr "color2",
               Tiles.VTuple [Tiles.VInt 0; Tiles.VInt 0; Tiles.VInt 255])])
  else if String.eqb c "{'color1': (255, 255, 0)}"
  then Ok (Tiles.VDict
             [(Tiles.VStr "color1",
               Tiles.VTuple [Tiles.VInt 255; Tiles.VInt 255; Tiles.VInt 0])])
  else if String.eqb c "get_object_or_404(BoundarySet, slug='nowhere')"
  then Raise (Http404 "No BoundarySet matches the given query.")
  else Raise SyntaxError.

#[export] Instance flat_eval : Tiles.PyEval := { Tiles.eval := eval_color }.

Definition boundary (set_ slug_ name_ : string) (g : Shape) : Boundary Shape :=
  {| set_id := set_; slug := slug_; external_id := slug_; name := name_;
     metadata := "{}"; shape := g; simple_shape := g;
     centroid := rect_center g; extent := rect_extent g;
     label_point := None; color := "" |}.

End Flatland.

(** * Properties of the overlap report *)

Module IntersectionsSpec.
Import Intersections.

Section Report.
Context {Geom : Type} `{Geos Geom}.
Variable db : Database Geom.

(** ** What happens to one candidate pair, whatever the format *)

Inductive Verdict : Type :=
| Logged (msg : string)
| Skipped
| Failed (e : exn)
| Emitted (int_area pct_a pct_b : float).

Definition error_message (a_slug : string) (b_bdry : Boundary Geom) (e : string) : string :=
  a_slug +:+ "/" +:+ slug b_bdry +:+ ": " +:+ e +:+ newline.

Definition verdict (a_slug : string) (a_bdry : Boundary Geom) (a_area : float)
    (b_bdry : Boundary Geom) : Verdict :=
  match intersection (shape a_bdry) (shape b_bdry) with
  | inl e => Logged (error_message a_slug b_bdry e)
  | inr geometry =>
      if empty geometry then Skipped else
      match py_div (area geometry) a_area with
      | Raise e => Failed e
      | Ok pct_a =>
          if (pct_a <? 0.001)%float then Skipped else
          match py_div (area geometry) (area (shape b_bdry)) with
          | Raise e => Failed e
          | Ok pct_b =>
              if (pct_b <? 0.001)%float then Skipped
              else Emitted (area geometry) pct_a pct_b
          end
      end
  end.

(** The dictionary of one side as it ends up in a record. *)
Definition side_of (b : Boundary Geom) (slug_ : string) (area_ ratio : float)
    (with_md : bool) : Side :=
  {| side_id := external_id b; side_name := name b; side_slug := slug_;
     side_centroid := centroid b; side_extent := extent b;
     side_area := area_; side_ratio := ratio;
     side_metadata := if with_md then Some (metadata b) else None |}.

(** The record of an emitted pair: the three keys are inserted in
    the order of the dictionary display, a later equal key
    replacing an earlier one. *)
Definition json_record (set_a set_b : string) (with_md : bool)
    (a_slug : string) (a_bdry : Boundary Geom) (a_area : float)
    (b_bdry : Boundary Geom) (int_area pct_a pct_b : float) : gmap string JVal :=
  <[set_b := JObject (side_of b_bdry (slug b_bdry) (area (shape b_bdry)) pct_b with_md)]>
    (<[set_a := JObject (side_of a_bdry a_slug a_area pct_a with_md)]>
       (<["area" := JNumber int_area]> ∅)).

Definition csv_row (a_slug : string) (a_area : float) (b_bdry : Boundary Geom)
    (int_area pct_a pct_b : float) : Line :=
  CsvRow a_slug a_area (slug b_bdry) (area (shape b_bdry)) int_area pct_a pct_b.

Definition add_line (l : Line) (s : State) : State :=
  {| stdout := stdout s ++ [l]; stderr := stderr s; output := output s |}.
Definition add_error (msg : string) (s : State) : State :=
  {| stdout := stdout s; stderr := stderr s ++ [msg]; output := output s |}.
Definition add_record (r : gmap string JVal) (s : State) : State :=
  {| stdout := stdout s; stderr := stderr s; output := output s ++ [r] |}.

(** The state after an emitted pair, by format. *)
Definition emit (options : Options) (set_a set_b a_slug : string)
    (a_bdry : Boundary Geom) (a_area : float) (b_bdry : Boundary Geom)
    (int_area pct_a pct_b : float) (s : State) : State :=
  if String.eqb (format options) "csv"
  then add_line (csv_row a_slug a_area b_bdry int_area pct_a pct_b) s
  else if String.eqb (format options) "json"
  then add_record (json_record set_a set_b (include_metadata options)
                     a_slug a_bdry a_area b_bdry int_area pct_a pct_b) s
  else s.

(** ** The record after the two [metadata] assignments *)

Lemma set_metadata_both (set_a set_b a_slug : string) (a_bdry b_bdry : Boundary Geom)
    (a_area int_area pct_a pct_b : float) :
  rbind (set_metadata set_a (metadata a_bdry)
           (json_record set_a set_b false a_slug a_bdry a_area b_bdry int_area pct_a pct_b))
        (set_metadata set_b (metadata b_bdry))
  = Ok (json_record set_a set_b true a_slug a_bdry a_area b_bdry int_area pct_a pct_b).
Proof.
  unfold json_record, set_metadata.
  destruct (decide (set_a = set_b)) as [->|Hne].
  - rewrite lookup_insert_eq. simpl. rewrite lookup_insert_eq. simpl.
    f_equal. rewrite !insert_insert_eq. reflexivity.
  - rewrite lookup_insert_ne by congruence. rewrite lookup_insert_eq. simpl.
    rewrite lookup_insert_ne by congruence. rewrite lookup_insert_eq. simpl.
    f_equal. apply map_eq. intros k.
    destruct (decide (set_b = k)) as [->|Hb].
    + rewrite !lookup_insert_eq. reflexivity.
    + rewrite (lookup_insert_ne _ set_b k) by assumption.
      rewrite (lookup_insert_ne _ set_b k) by assumption.
      destruct (decide (set_a = k)) as [->|Ha].
      * rewrite !lookup_insert_eq. reflexivity.
      * repeat first [ rewrite (lookup_insert_ne _ set_a k) by assumption
                     | rewrite (lookup_insert_ne _ set_b k) by assumption ].
        reflexivity.
Qed.

Lemma set_last_metadata_both (set_a set_b a_slug : string) (a_bdry b_bdry : Boundary Geom)
    (a_area int_area pct_a pct_b : float) (s : State) :
  (output_last_set_metadata set_a (metadata a_bdry) ;;;
   output_last_set_metadata set_b (metadata b_bdry))
    (add_record (json_record set_a set_b false a_slug a_bdry a_area
                   b_bdry int_area pct_a pct_b) s)
  = (Ok tt, add_record (json_record set_a set_b true a_slug a_bdry a_area
                          b_bdry int_area pct_a pct_b) s).
Proof.
  pose proof (set_metadata_both set_a set_b a_slug a_bdry b_bdry
                a_area int_area pct_a pct_b) as Hboth.
  unfold bind, output_last_set_metadata, add_record. simpl.
  rewrite rev_app_distr. simpl.
  destruct (set_metadata set_a (metadata a_bdry) _) as [r1|e] eqn:E1;
    simpl in Hboth; [|discriminate].
  simpl. rewrite rev_involutive.
  rewrite rev_app_distr. simpl.
  rewrite Hboth. simpl. rewrite rev_involutive. reflexivity.
Qed.

(** ** The inner loop body, case by case *)

Lemma report_pair_verdict (options : Options) (bset_a bset_b : BoundarySet)
    (a_slug : string) (a_bdry : Boundary Geom) (a_area : float)
    (b_bdry : Boundary Geom) (s : State) :
  report_pair options bset_a bset_b a_slug a_bdry a_area b_bdry s =
  match verdict a_slug a_bdry a_area b_bdry with
  | Logged msg => (Ok tt, add_error msg s)
  | Skipped => (Ok tt, s)
  | Failed e => (Raise e, s)
  | Emitted int_area pct_a pct_b =>
      (Ok tt, emit options (bs_slug bset_a) (bs_slug bset_b) a_slug a_bdry a_area
                   b_bdry int_area pct_a pct_b s)
  end.
Proof.
  unfold report_pair, verdict, emit.
  destruct (intersection (shape a_bdry) (shape b_bdry)) as [e|geometry]; [reflexivity|].
  destruct (empty geometry); [reflexivity|].
  unfold bind at 1, lift at 1.
  destruct (py_div (area geometry) a_area) as [pct_a|e] eqn:Ea; [|reflexivity].
  destruct (pct_a <? 0.001)%float; [reflexivity|].
  unfold bind at 1, lift at 1.
  destruct (py_div (area geometry) (area (shape b_bdry))) as [pct_b|e] eqn:Eb; [|reflexivity].
  destruct (pct_b <? 0.001)%float; [reflexivity|].
  destruct (String.eqb (format options) "csv").
  { reflexivity. }
  destruct (String.eqb (format options) "json"); [|reflexivity].
  unfold bind at 1, lift at 1.
  unfold bind at 1, lift at 1.
  unfold bind at 1, output_append.
  destruct (include_metadata options).
  - apply (set_last_metadata_both (bs_slug bset_a) (bs_slug bset_b) a_slug
             a_bdry b_bdry a_area (area geometry) pct_a pct_b s).
  - reflexivity.
Qed.

(** ** The run as a sequence of events

    What the two loops do does not depend on the format: they
    visit the candidate pairs in a fixed order, and each pair is
    emitted, logged or skipped, until an exception nobody catches
    ends the run.  The format only decides how an emitted pair is
    written. *)

Inductive Event : Type :=
| Overlap (a_slug : string) (a_bdry : Boundary Geom) (a_area : float)
          (b_bdry : Boundary Geom) (int_area pct_a pct_b : float)
| Failure (msg : string).

Definition status (crash : option exn) : result unit :=
  match crash with
  | None => Ok tt
  | Some e => Raise e
  end.

Fixpoint pair_events (a_slug : string) (a_bdry : Boundary Geom) (a_area : float)
    (bs : list (Boundary Geom)) : list Event * option exn :=
  match bs with
  | [] => ([], None)
  | b_bdry :: bs' =>
      let rest := pair_events a_slug a_bdry a_area bs' in
      match verdict a_slug a_bdry a_area b_bdry with
      | Logged msg => (Failure msg :: fst rest, snd rest)
      | Skipped => rest
      | Failed e => ([], Some e)
      | Emitted int_area pct_a pct_b =>
          (Overlap a_slug a_bdry a_area b_bdry int_area pct_a pct_b :: fst rest,
           snd rest)
      end
  end.

Definition boundary_events (bset_a bset_b : BoundarySet) (a_slug : string)
  : list Event * option exn :=
  match boundaries_get (boundaries db bset_a) a_slug with
  | Raise e => ([], Some e)
  | Ok a_bdry =>
      pair_events a_slug a_bdry (area (shape a_bdry)) (intersecting db bset_b a_bdry)
  end.

Fixpoint report_events (bset_a bset_b : BoundarySet) (slugs : list string)
  : list Event * option exn :=
  match slugs with
  | [] => ([], None)
  | a_slug :: slugs' =>
      match boundary_events bset_a bset_b a_slug with
      | (evs, Some e) => (evs, Some e)
      | (evs, None) =>
          let rest := report_events bset_a bset_b slugs' in
          (evs ++ fst rest, snd rest)
      end
  end.

Definition apply_event (options : Options) (set_a set_b : string)
    (s : State) (ev : Event) : State :=
  match ev with
  | Overlap a_slug a_bdry a_area b_bdry int_area pct_a pct_b =>
      emit options set_a set_b a_slug a_bdry a_area b_bdry int_area pct_a pct_b s
  | Failure msg => add_error msg s
  end.

Definition apply_events (options : Options) (set_a set_b : string)
    (evs : list Event) (s : State) : State :=
  fold_left (apply_event options set_a set_b) evs s.

Lemma inner_loop_events (options : Options) (bset_a bset_b : BoundarySet)
    (a_slug : string) (a_bdry : Boundary Geom) (a_area : float)
    (bs : list (Boundary Geom)) (s : State) :
  for_each bs (report_pair options bset_a bset_b a_slug a_bdry a_area) s =
  (status (snd (pair_events a_slug a_bdry a_area bs)),
   apply_events options (bs_slug bset_a) (bs_slug bset_b)
     (fst (pair_events a_slug a_bdry a_area bs)) s).
Proof.
  revert s. induction bs as [|b_bdry bs IH]; intros s; [reflexivity|].
  simpl. unfold bind at 1. rewrite report_pair_verdict.
  destruct (verdict a_slug a_bdry a_area b_bdry); simpl; try rewrite IH; reflexivity.
Qed.

Lemma outer_body_events (options : Options) (bset_a bset_b : BoundarySet)
    (a_slug : string) (s : State) :
  report_boundary db options bset_a bset_b a_slug s =
  (status (snd (boundary_events bset_a bset_b a_slug)),
   apply_events options (bs_slug bset_a) (bs_slug bset_b)
     (fst (boundary_events bset_a bset_b a_slug)) s).
Proof.
  unfold report_boundary, boundary_events, bind, lift.
  destruct (boundaries_get (boundaries db bset_a) a_slug) as [a_bdry|e]; [|reflexivity].
  apply inner_loop_events.
Qed.

Lemma outer_loop_events (options : Options) (bset_a bset_b : BoundarySet)
    (slugs : list string) (s : State) :
  for_each slugs (report_boundary db options bset_a bset_b) s =
  (status (snd (report_events bset_a bset_b slugs)),
   apply_events options (bs_slug bset_a) (bs_slug bset_b)
     (fst (report_events bset_a bset_b slugs)) s).
Proof.
  revert s. induction slugs as [|a_slug slugs IH]; intros s; [reflexivity|].
  simpl. unfold bind at 1. rewrite outer_body_events.
  destruct (boundary_events bset_a bset_b a_slug) as [evs [e|]]; simpl; [reflexivity|].
  rewrite IH. unfold apply_events. rewrite fold_left_app. reflexivity.
Qed.

(** ** What the events leave on the streams *)

Definition rows (evs : list Event) : list Line :=
  flat_map (fun ev => match ev with
                      | Overlap a_slug _ a_area b_bdry int_area pct_a pct_b =>
                          [csv_row a_slug a_area b_bdry int_area pct_a pct_b]
                      | Failure _ => []
                      end) evs.

Definition records (set_a set_b : string) (with_md : bool) (evs : list Event)
  : list (gmap string JVal) :=
  flat_map (fun ev => match ev with
                      | Overlap a_slug a_bdry a_area b_bdry int_area pct_a pct_b =>
                          [json_record set_a set_b with_md a_slug a_bdry a_area
                             b_bdry int_area pct_a pct_b]
                      | Failure _ => []
                      end) evs.

Definition failures (evs : list Event) : list string :=
  flat_map (fun ev => match ev with
                      | Overlap _ _ _ _ _ _ _ => []
                      | Failure msg => [msg]
                      end) evs.

Lemma apply_events_stdout (options : Options) (set_a set_b : string)
    (evs : list Event) (s : State) :
  stdout (apply_events options set_a set_b evs s) =
  stdout s ++ (if String.eqb (format options) "csv" then rows evs else []).
Proof.
  unfold apply_events. revert s.
  induction evs as [|ev evs IH]; intros s; simpl.
  - destruct (String.eqb (format options) "csv"); rewrite app_nil_r; reflexivity.
  - rewrite IH. destruct ev; simpl; unfold emit.
    + destruct (String.eqb (format options) "csv"); simpl.
      * rewrite <- app_assoc. reflexivity.
      * destruct (String.eqb (format options) "json"); reflexivity.
    + destruct (String.eqb (format options) "csv"); reflexivity.
Qed.

Lemma apply_events_output (options : Options) (set_a set_b : string)
    (evs : list Event) (s : State) :
  output (apply_events options set_a set_b evs s) =
  output s ++ (if String.eqb (format options) "csv" then []
               else if String.eqb (format options) "json"
                    then records set_a set_b (include_metadata options) evs
                    else []).
Proof.
  unfold apply_events. revert s.
  induction evs as [|ev evs IH]; intros s; simpl.
  - destruct (String.eqb (format options) "csv"), (String.eqb (format options) "json");
      rewrite app_nil_r; reflexivity.
  - rewrite IH. destruct ev; simpl; unfold emit.
    + destruct (String.eqb (format options) "csv"); simpl; [reflexivity|].
      destruct (String.eqb (format options) "json"); simpl; [|reflexivity].
      rewrite <- app_assoc. reflexivity.
    + reflexivity.
Qed.

Lemma apply_events_stderr (options : Options) (set_a set_b : string)
    (evs : list Event) (s : State) :
  stderr (apply_events options set_a set_b evs s) = stderr s ++ failures evs.
Proof.
  unfold apply_events. revert s.
  induction evs as [|ev evs IH]; intros s; simpl.
  - rewrite app_nil_r; reflexivity.
  - rewrite IH. destruct ev; simpl; unfold emit.
    + destruct (String.eqb (format options) "csv"); simpl; [reflexivity|].
      destruct (String.eqb (format options) "json"); reflexivity.
    + rewrite <- app_assoc. reflexivity.
Qed.

Lemma state_eq (s t : State) :
  stdout s = stdout t -> stderr s = stderr t -> output s = output t -> s = t.
Proof. destruct s, t; simpl; intros; subst; reflexivity. Qed.

(** The streams at the end of a run whose two sets exist. *)
Definition report_state (options : Options) (bset_a bset_b : BoundarySet)
    (evs : list Event) (crash : option exn) : State :=
  let recs := records (bs_slug bset_a) (bs_slug bset_b) (include_metadata options) evs in
  {| stdout :=
       if String.eqb (format options) "csv"
       then CsvHeader (bs_slug bset_a) (bs_slug bset_b) :: rows evs
       else if String.eqb (format options) "json"
            then match crash with
                 | None => [JsonDump recs]
                 | Some _ => []
                 end
            else [];
     stderr := failures evs;
     output :=
       if String.eqb (format options) "csv" then []
       else if String.eqb (format options) "json" then recs else [] |}.

Lemma run_events (options : Options) (slug_1 slug_2 : string) (more : list string)
    (bset_a bset_b : BoundarySet) :
  BoundarySet_get db slug_1 = Ok bset_a ->
  BoundarySet_get db slug_2 = Ok bset_b ->
  let trace := report_events bset_a bset_b (slugs_in_order (boundaries db bset_a)) in
  run db (slug_1 :: slug_2 :: more) options =
  (status (snd trace), report_state options bset_a bset_b (fst trace) (snd trace)).
Proof.
  intros Ha Hb trace. unfold run, handle.
  unfold bind at 1, lift at 1. rewrite Ha.
  unfold bind at 1, lift at 1. rewrite Hb.
  unfold bind at 1.
  set (s1 := if String.eqb (format options) "csv"
             then add_line (CsvHeader (bs_slug bset_a) (bs_slug bset_b)) initial
             else initial).
  assert (Hs1 : (if String.eqb (format options) "csv"
                 then print (CsvHeader (bs_slug bset_a) (bs_slug bset_b))
                 else ret tt) initial = (Ok tt, s1)).
  { unfold s1. destruct (String.eqb (format options) "csv"); reflexivity. }
  rewrite Hs1. unfold bind at 1. rewrite outer_loop_events. fold trace.
  destruct (snd trace) as [e|] eqn:Ec; simpl.
  - f_equal. apply state_eq; simpl.
    + rewrite apply_events_stdout. unfold s1.
      destruct (String.eqb (format options) "csv") eqn:Ecsv; simpl; [reflexivity|].
      destruct (String.eqb (format options) "json"); reflexivity.
    + rewrite apply_events_stderr. unfold s1.
      destruct (String.eqb (format options) "csv"); reflexivity.
    + rewrite apply_events_output. unfold s1.
      destruct (String.eqb (format options) "csv"); reflexivity.
  - destruct (String.eqb (format options) "json") eqn:Ejson.
    + assert (Ecsv : String.eqb (format options) "csv" = false).
      { apply String.eqb_eq in Ejson. rewrite Ejson. reflexivity. }
      unfold print. f_equal. apply state_eq; simpl.
      * rewrite apply_events_stdout, apply_events_output. unfold s1.
        rewrite Ecsv, Ejson. reflexivity.
      * rewrite apply_events_stderr. unfold s1. rewrite Ecsv. reflexivity.
      * rewrite apply_events_output. unfold s1. rewrite Ecsv, Ejson. reflexivity.
    + unfold ret. f_equal. apply state_eq; simpl.
      * rewrite apply_events_stdout. unfold s1.
        destruct (String.eqb (format options) "csv"); rewrite ?Ejson; reflexivity.
      * rewrite apply_events_stderr. unfold s1.
        destruct (String.eqb (format options) "csv"); reflexivity.
      * rewrite apply_events_output. unfold s1.
        destruct (String.eqb (format options) "csv"); rewrite ?Ejson; reflexivity.
Qed.

(** ** Every emitted pair went through the filter *)

Lemma py_div_ok (x y q : float) : py_div x y = Ok q -> q = (x / y)%float.
Proof. unfold py_div. destruct (PrimFloat.eqb y 0); congruence. Qed.

(** The pair [(a_bdry, b_bdry)] has a non-empty intersection of area
    [int_area] and neither of the two quotients is below 0.001. *)
Definition passes_filter (a_bdry b_bdry : Boundary Geom)
    (int_area pct_a pct_b : float) : Prop :=
  exists geometry,
    intersection (shape a_bdry) (shape b_bdry) = inr geometry
    /\ empty geometry = false
    /\ int_area = area geometry
    /\ pct_a = (int_area / area (shape a_bdry))%float
    /\ pct_b = (int_area / area (shape b_bdry))%float
    /\ (pct_a <? 0.001)%float = false
    /\ (pct_b <? 0.001)%float = false.

(** The two boundaries are rows of the two sets, the second one
    among those the database reports as intersecting the first. *)
Definition candidates (set_a set_b : string) (a_bdry b_bdry : Boundary Geom) : Prop :=
  In a_bdry (all_boundaries db) /\ set_id a_bdry = set_a
  /\ In b_bdry (all_boundaries db) /\ set_id b_bdry = set_b
  /\ intersects (shape b_bdry) (shape a_bdry) = true.

Definition genuine (set_a set_b : string) (ev : Event) : Prop :=
  match ev with
  | Overlap a_slug a_bdry a_area b_bdry int_area pct_a pct_b =>
      slug a_bdry = a_slug /\ a_area = area (shape a_bdry)
      /\ candidates set_a set_b a_bdry b_bdry
      /\ passes_filter a_bdry b_bdry int_area pct_a pct_b
  | Failure _ => True
  end.

Lemma verdict_emitted (a_slug : string) (a_bdry b_bdry : Boundary Geom)
    (int_area pct_a pct_b : float) :
  verdict a_slug a_bdry (area (shape a_bdry)) b_bdry = Emitted int_area pct_a pct_b ->
  passes_filter a_bdry b_bdry int_area pct_a pct_b.
Proof.
  unfold verdict, passes_filter.
  destruct (intersection (shape a_bdry) (shape b_bdry)) as [e|geometry]; [discriminate|].
  destruct (empty geometry) eqn:Eempty; [discriminate|].
  destruct (py_div (area geometry) (area (shape a_bdry))) as [qa|e] eqn:Ea; [|discriminate].
  destruct (qa <? 0.001)%float eqn:Eqa; [discriminate|].
  destruct (py_div (area geometry) (area (shape b_bdry))) as [qb|e] eqn:Eb; [|discriminate].
  destruct (qb <? 0.001)%float eqn:Eqb; [discriminate|].
  intros [= <- <- <-]. exists geometry.
  apply py_div_ok in Ea, Eb. subst qa qb. auto 10.
Qed.

Lemma pair_events_genuine (set_a set_b : string) (a_bdry : Boundary Geom)
    (bs : list (Boundary Geom)) :
  In a_bdry (all_boundaries db) -> set_id a_bdry = set_a ->
  Forall (fun b => candidates set_a set_b a_bdry b) bs ->
  Forall (genuine set_a set_b)
         (fst (pair_events (slug a_bdry) a_bdry (area (shape a_bdry)) bs)).
Proof.
  intros Hin Hset. induction 1 as [|b_bdry bs Hb Hbs IH]; simpl; [constructor|].
  destruct (verdict (slug a_bdry) a_bdry (area (shape a_bdry)) b_bdry) eqn:Ev; simpl.
  - constructor; [exact I | exact IH].
  - exact IH.
  - constructor.
  - constructor; [|exact IH].
    simpl. split; [reflexivity|]. split; [reflexivity|]. split; [exact Hb|].
    exact (verdict_emitted (slug a_bdry) a_bdry b_bdry _ _ _ Ev).
Qed.

Lemma get_one_ok {A} (model : string) (l : list A) (x : A) :
  get_one model l = Ok x -> l = [x].
Proof. destruct l as [|y [|z l]]; simpl; congruence. Qed.

Lemma boundaries_get_ok (bset_a : BoundarySet) (a_slug : string) (a_bdry : Boundary Geom) :
  boundaries_get (boundaries db bset_a) a_slug = Ok a_bdry ->
  In a_bdry (all_boundaries db) /\ set_id a_bdry = bs_slug bset_a /\ slug a_bdry = a_slug.
Proof.
  unfold boundaries_get, boundaries. intros Hget. apply get_one_ok in Hget.
  assert (Hin : In a_bdry (List.filter (fun b => String.eqb (slug b) a_slug)
                 (List.filter (fun b => String.eqb (set_id b) (bs_slug bset_a))
                              (all_boundaries db)))).
  { rewrite Hget. left. reflexivity. }
  apply filter_In in Hin as [Hin Hslug]. apply filter_In in Hin as [Hin Hset].
  apply String.eqb_eq in Hslug, Hset. auto.
Qed.

Lemma BoundarySet_get_ok (s : string) (bset : BoundarySet) :
  BoundarySet_get db s = Ok bset -> bs_slug bset = s.
Proof.
  unfold BoundarySet_get. intros Hget. apply get_one_ok in Hget.
  assert (Hin : In bset (List.filter (fun bs => String.eqb (bs_slug bs) s)
                                     (boundary_sets db))).
  { rewrite Hget. left. reflexivity. }
  apply filter_In in Hin as [_ Hs]. now apply String.eqb_eq in Hs.
Qed.

Lemma boundary_events_genuine (bset_a bset_b : BoundarySet) (a_slug : string) :
  Forall (genuine (bs_slug bset_a) (bs_slug bset_b))
         (fst (boundary_events bset_a bset_b a_slug)).
Proof.
  unfold boundary_events.
  destruct (boundaries_get (boundaries db bset_a) a_slug) as [a_bdry|e] eqn:Hget;
    [|constructor].
  apply boundaries_get_ok in Hget as (Hin & Hset & <-).
  apply pair_events_genuine; [assumption|assumption|].
  apply List.Forall_forall. intros b Hb. unfold intersecting, boundaries in Hb.
  apply filter_In in Hb as [Hb Hint]. apply filter_In in Hb as [Hb Hbset].
  apply String.eqb_eq in Hbset. unfold candidates. auto.
Qed.

Lemma report_events_genuine (bset_a bset_b : BoundarySet) (slugs : list string) :
  Forall (genuine (bs_slug bset_a) (bs_slug bset_b))
         (fst (report_events bset_a bset_b slugs)).
Proof.
  induction slugs as [|a_slug slugs IH]; simpl; [constructor|].
  pose proof (boundary_events_genuine bset_a bset_b a_slug) as Hhere.
  destruct (boundary_events bset_a bset_b a_slug) as [evs [e|]]; simpl in *.
  - exact Hhere.
  - apply Forall_app. split; assumption.
Qed.

(** ** C1 *)

(** A record of the JSON array, or the fields of a CSV row, written
    for two boundaries of the two sets that passed the filter. *)
Definition sound_record (set_a set_b : string) (with_md : bool)
    (r : gmap string JVal) : Prop :=
  exists a_bdry b_bdry int_area,
    candidates set_a set_b a_bdry b_bdry
    /\ passes_filter a_bdry b_bdry int_area
         (int_area / area (shape a_bdry))%float (int_area / area (shape b_bdry))%float
    /\ r = json_record set_a set_b with_md (slug a_bdry) a_bdry (area (shape a_bdry))
             b_bdry int_area
             (int_area / area (shape a_bdry))%float
             (int_area / area (shape b_bdry))%float.

Definition sound_line (set_a set_b : string) (with_md : bool) (l : Line) : Prop :=
  match l with
  | CsvRow a_slug a_area b_slug b_area int_area pct_of_1 pct_of_2 =>
      exists a_bdry b_bdry,
        candidates set_a set_b a_bdry b_bdry
        /\ a_slug = slug a_bdry /\ b_slug = slug b_bdry
        /\ a_area = area (shape a_bdry) /\ b_area = area (shape b_bdry)
        /\ pct_of_1 = (int_area / a_area)%float
        /\ pct_of_2 = (int_area / b_area)%float
        /\ (pct_of_1 <? 0.001)%float = false
        /\ (pct_of_2 <? 0.001)%float = false
        /\ passes_filter a_bdry b_bdry int_area pct_of_1 pct_of_2
  | JsonDump recs => Forall (sound_record set_a set_b with_md) recs
  | Text _ | CsvHeader _ _ => True
  end.

Lemma rows_sound (set_a set_b : string) (with_md : bool) (evs : list Event) :
  Forall (genuine set_a set_b) evs ->
  Forall (sound_line set_a set_b with_md) (rows evs).
Proof.
  induction 1 as [|ev evs Hev _ IH]; simpl; [constructor|].
  destruct ev as [a_slug a_bdry a_area b_bdry int_area pct_a pct_b|msg]; simpl; [|exact IH].
  constructor; [|exact IH].
  destruct Hev as (Hslug & Harea & Hcand & Hpass).
  simpl. exists a_bdry, b_bdry.
  pose proof Hpass as (g & _ & _ & _ & Hpa & Hpb & Hna & Hnb).
  subst a_slug a_area.
  split; [exact Hcand|]. split; [reflexivity|]. split; [reflexivity|].
  split; [reflexivity|]. split; [reflexivity|]. split; [exact Hpa|].
  split; [exact Hpb|]. split; [exact Hna|]. split; [exact Hnb|]. exact Hpass.
Qed.

Lemma records_sound (set_a set_b : string) (with_md : bool) (evs : list Event) :
  Forall (genuine set_a set_b) evs ->
  Forall (sound_record set_a set_b with_md) (records set_a set_b with_md evs).
Proof.
  induction 1 as [|ev evs Hev _ IH]; simpl; [constructor|].
  destruct ev as [a_slug a_bdry a_area b_bdry int_area pct_a pct_b|msg]; simpl; [|exact IH].
  constructor; [|exact IH].
  destruct Hev as (Hslug & Harea & Hcand & Hpass).
  exists a_bdry, b_bdry, int_area.
  pose proof Hpass as (g & _ & _ & _ & Hpa & Hpb & _).
  subst a_slug a_area pct_a pct_b. auto.
Qed.

(** The four shapes standard output can have at the end of a run. *)
Lemma stdout_shape (args : list string) (options : Options) :
  exists evs,
    Forall (genuine (nth 0 args "") (nth 1 args "")) evs
    /\ let out := stdout (snd (run db args options)) in
       out = []
       \/ out = [Text "Specify two boundaryset slugs."]
       \/ out = CsvHeader (nth 0 args "") (nth 1 args "") :: rows evs
       \/ out = [JsonDump (records (nth 0 args "") (nth 1 args "")
                            (include_metadata options) evs)].
Proof.
  destruct args as [|slug_1 [|slug_2 more]];
    try (exists []; split; [constructor|]; right; left; reflexivity).
  destruct (BoundarySet_get db slug_1) as [bset_a|e] eqn:Ha.
  2:{ exists []. split; [constructor|]. left.
      unfold run, handle, bind at 1, lift at 1. rewrite Ha. reflexivity. }
  destruct (BoundarySet_get db slug_2) as [bset_b|e] eqn:Hb.
  2:{ exists []. split; [constructor|]. left.
      unfold run, handle. unfold bind at 1, lift at 1. rewrite Ha.
      unfold bind at 1, lift at 1. rewrite Hb. reflexivity. }
  rewrite (run_events options slug_1 slug_2 more bset_a bset_b Ha Hb).
  apply BoundarySet_get_ok in Ha, Hb. simpl nth. subst slug_1 slug_2.
  exists (fst (report_events bset_a bset_b (slugs_in_order (boundaries db bset_a)))).
  split; [apply report_events_genuine|].
  simpl. destruct (String.eqb (format options) "csv"); [auto|].
  destruct (String.eqb (format options) "json"); [|auto].
  destruct (snd (report_events _ _ _)); auto.
Qed.

(** C1, as the code has it.  Whatever the database, the arguments and
    the options, every CSV row and every record of the JSON array
    was written for a boundary of the first set and a boundary of
    the second whose intersection is not empty; its two ratio
    fields are [int_area / area_A] and [int_area / area_B]; and
    neither ratio is below 0.001 (a ratio equal to 0.001 is kept).
    So a pair with an empty intersection, or with a ratio below
    0.001, is never written. *)
Theorem emitted_pairs_pass_filter (args : list string) (options : Options) :
  Forall (sound_line (nth 0 args "") (nth 1 args "") (include_metadata options))
         (stdout (snd (run db args options))).
Proof.
  destruct (stdout_shape args options) as (evs & Hgen & Hout).
  cbv zeta in Hout. destruct Hout as [-> | [-> | [-> | ->]]].
  - constructor.
  - repeat constructor.
  - constructor; [exact I|]. now apply rows_sound.
  - constructor; [|constructor]. simpl. now apply records_sound.
Qed.

(** ** The two formats *)

Definition csv_options (with_md : bool) : Options :=
  {| format := "csv"; include_metadata := with_md |}.
Definition json_options (with_md : bool) : Options :=
  {| format := "json"; include_metadata := with_md |}.

(** ** C10 *)

(** What is left of the pair of a CSV row in a record whose two
    sub-records went under one key: the intersection area and the
    dictionary of the second boundary, the one of the third column.
    No key holds another dictionary. *)
Definition keeps_second_side (set_slug : string) (with_md : bool)
    (row : Line) (r : gmap string JVal) : Prop :=
  match row with
  | CsvRow a_slug a_area b_slug b_area int_area pct_of_1 pct_of_2 =>
      exists b_bdry,
        In b_bdry (all_boundaries db) /\ set_id b_bdry = set_slug
        /\ slug b_bdry = b_slug /\ area (shape b_bdry) = b_area
        /\ let side_b := side_of b_bdry b_slug b_area pct_of_2 with_md in
           r = <[set_slug := JObject side_b]> (<["area" := JNumber int_area]> ∅)
           /\ r !! set_slug = Some (JObject side_b)
           /\ forall key x, r !! key = Some (JObject x) -> x = side_b
  | _ => False
  end.

Lemma same_set_record (set_slug : string) (with_md : bool) (evs : list Event) :
  Forall (genuine set_slug set_slug) evs ->
  Forall2 (keeps_second_side set_slug with_md)
          (rows evs) (records set_slug set_slug with_md evs).
Proof.
  induction 1 as [|ev evs Hev _ IH]; simpl; [constructor|].
  destruct ev as [a_slug a_bdry a_area b_bdry int_area pct_a pct_b|msg]; simpl; [|exact IH].
  constructor; [|exact IH].
  destruct Hev as (_ & _ & (_ & _ & Hb & Hbset & _) & _).
  simpl. exists b_bdry. split; [exact Hb|]. split; [exact Hbset|].
  split; [reflexivity|]. split; [reflexivity|]. unfold json_record. cbv zeta.
  rewrite insert_insert_eq. split; [reflexivity|]. split.
  - apply lookup_insert_eq.
  - intros key x. destruct (decide (set_slug = key)) as [<-|Hkey].
    + rewrite lookup_insert_eq. congruence.
    + rewrite lookup_insert_ne by assumption.
      destruct (decide ("area" = key)) as [<-|Harea].
      * rewrite lookup_insert_eq. discriminate.
      * rewrite lookup_insert_ne by assumption. rewrite lookup_empty. discriminate.
Qed.

(** C10.  When both arguments name the same boundary set and the
    JSON run ends normally, the records of its array are those of the
    rows of the CSV run, in the same order, and the record of the row
    [(a, b)] holds, next to the intersection area, one dictionary
    under the set's slug: the one of [b], with its id, name, slug,
    centroid, extent, area and ratio (and metadata).  The dictionary
    of [a], written under the same key first, is gone. *)
Theorem same_set_keeps_second_side (set_slug : string) (more : list string)
    (with_md md_csv : bool) :
  fst (run db (set_slug :: set_slug :: more) (json_options with_md)) = Ok tt ->
  exists rows recs,
    stdout (snd (run db (set_slug :: set_slug :: more) (csv_options md_csv)))
    = CsvHeader set_slug set_slug :: rows
    /\ stdout (snd (run db (set_slug :: set_slug :: more) (json_options with_md)))
       = [JsonDump recs]
    /\ Forall2 (keeps_second_side set_slug with_md) rows recs.
Proof.
  intros Hdone.
  destruct (BoundarySet_get db set_slug) as [bset|e] eqn:Hget.
  2:{ unfold run, handle, bind at 1, lift at 1 in Hdone. rewrite Hget in Hdone.
      discriminate. }
  rewrite (run_events (json_options with_md) set_slug set_slug more bset bset Hget Hget)
    in Hdone |- *.
  rewrite (run_events (csv_options md_csv) set_slug set_slug more bset bset Hget Hget).
  apply BoundarySet_get_ok in Hget. subst set_slug. simpl in Hdone |- *.
  pose proof (report_events_genuine bset bset (slugs_in_order (boundaries db bset)))
    as Hgenuine.
  destruct (report_events bset bset (slugs_in_order (boundaries db bset)))
    as [evs [e|]]; simpl in *; [discriminate|].
  exists (rows evs), (records (bs_slug bset) (bs_slug bset) with_md evs).
  split; [reflexivity|]. split; [reflexivity|].
  now apply same_set_record.
Qed.

(** ** C2 *)

(** The pairs a reader finds in the CSV rows: the first and the
    third column. *)
Definition csv_pairs (out : list Line) : list (string * string) :=
  flat_map (fun l => match l with
                     | CsvRow a_slug _ b_slug _ _ _ _ => [(a_slug, b_slug)]
                     | _ => []
                     end) out.

(** The pair a reader finds in a record: the ["slug"] entries of
    the dictionaries stored under the two set slugs. *)
Definition record_pair (set_a set_b : string) (r : gmap string JVal)
  : option (string * string) :=
  match r !! set_a, r !! set_b with
  | Some (JObject x), Some (JObject y) => Some (side_slug x, side_slug y)
  | _, _ => None
  end.

Definition json_pairs (set_a set_b : string) (out : list Line)
  : list (string * string) :=
  flat_map (fun l => match l with
                     | JsonDump recs => omap (record_pair set_a set_b) recs
                     | _ => []
                     end) out.

Definition event_pairs (evs : list Event) : list (string * string) :=
  flat_map (fun ev => match ev with
                      | Overlap a_slug _ _ b_bdry _ _ _ => [(a_slug, slug b_bdry)]
                      | Failure _ => []
                      end) evs.

Lemma csv_pairs_rows (evs : list Event) : csv_pairs (rows evs) = event_pairs evs.
Proof.
  induction evs as [|ev evs IH]; [reflexivity|].
  destruct ev; simpl; [f_equal|]; exact IH.
Qed.

Lemma record_pair_json_record (set_a set_b : string) (with_md : bool)
    (a_slug : string) (a_bdry : Boundary Geom) (a_area : float)
    (b_bdry : Boundary Geom) (int_area pct_a pct_b : float) :
  set_a <> set_b ->
  record_pair set_a set_b
    (json_record set_a set_b with_md a_slug a_bdry a_area b_bdry int_area pct_a pct_b)
  = Some (a_slug, slug b_bdry).
Proof.
  intros Hne. unfold record_pair, json_record.
  rewrite (lookup_insert_ne _ set_b set_a) by congruence.
  rewrite !lookup_insert_eq. reflexivity.
Qed.

Lemma json_pairs_records (set_a set_b : string) (with_md : bool) (evs : list Event) :
  set_a <> set_b ->
  omap (record_pair set_a set_b) (records set_a set_b with_md evs) = event_pairs evs.
Proof.
  intros Hne. induction evs as [|ev evs IH]; [reflexivity|].
  destruct ev; simpl; [|exact IH].
  rewrite record_pair_json_record by assumption. simpl. f_equal. exact IH.
Qed.

(** C2, as the code has it.  For two sets with different slugs, a
    CSV run that ends without an uncaught exception and the JSON
    run over the same database write the same pairs, in the same
    order; the JSON run ends normally too. *)
Theorem same_pairs_in_both_formats (slug_1 slug_2 : string) (more : list string)
    (md_csv md_json : bool) :
  slug_1 <> slug_2 ->
  fst (run db (slug_1 :: slug_2 :: more) (csv_options md_csv)) = Ok tt ->
  fst (run db (slug_1 :: slug_2 :: more) (json_options md_json)) = Ok tt
  /\ csv_pairs (stdout (snd (run db (slug_1 :: slug_2 :: more) (csv_options md_csv))))
     = json_pairs slug_1 slug_2
         (stdout (snd (run db (slug_1 :: slug_2 :: more) (json_options md_json)))).
Proof.
  intros Hne Hdone.
  destruct (BoundarySet_get db slug_1) as [bset_a|e] eqn:Ha.
  2:{ unfold run, handle, bind at 1, lift at 1 in Hdone. rewrite Ha in Hdone.
      discriminate. }
  destruct (BoundarySet_get db slug_2) as [bset_b|e] eqn:Hb.
  2:{ unfold run, handle in Hdone. unfold bind at 1, lift at 1 in Hdone.
      rewrite Ha in Hdone. unfold bind at 1, lift at 1 in Hdone.
      rewrite Hb in Hdone. discriminate. }
  rewrite (run_events (csv_options md_csv) slug_1 slug_2 more bset_a bset_b Ha Hb)
    in Hdone |- *.
  rewrite (run_events (json_options md_json) slug_1 slug_2 more bset_a bset_b Ha Hb).
  apply BoundarySet_get_ok in Ha, Hb. subst slug_1 slug_2.
  simpl in Hdone |- *.
  destruct (snd (report_events bset_a bset_b (slugs_in_order (boundaries db bset_a))))
    as [e|]; [discriminate|].
  split; [reflexivity|]. simpl.
  rewrite csv_pairs_rows, app_nil_r. symmetry.
  now apply json_pairs_records.
Qed.

(** ** C3 *)

Lemma for_each_app {A} (l1 l2 : list A) (body : A -> M unit) (s : State) :
  for_each (l1 ++ l2) body s =
  match for_each l1 body s with
  | (Ok _, s') => for_each l2 body s'
  | (Raise e, s') => (Raise e, s')
  end.
Proof.
  revert s. induction l1 as [|x l1 IH]; intros s; [reflexivity|].
  simpl. unfold bind. destruct (body x s) as [[[]|e] s']; [apply IH | reflexivity].
Qed.

Lemma in_insert_slug (x s : string) (l : list string) :
  In x (insert_slug s l) <-> x = s \/ In x l.
Proof.
  induction l as [|t l IH]; simpl; [intuition|].
  destruct (String.leb s t); simpl; [intuition|]. rewrite IH. intuition.
Qed.

Lemma in_slugs_in_order (x : string) (qs : list (Boundary Geom)) :
  In x (slugs_in_order qs) <-> In x (List.map slug qs).
Proof.
  unfold slugs_in_order. induction qs as [|b qs IH]; simpl; [tauto|].
  rewrite in_insert_slug, IH. intuition.
Qed.

Lemma pair_events_logged (a_slug : string) (a_bdry : Boundary Geom) (a_area : float)
    (bs : list (Boundary Geom)) (b_bdry : Boundary Geom) (msg : string) :
  snd (pair_events a_slug a_bdry a_area bs) = None ->
  In b_bdry bs ->
  intersection (shape a_bdry) (shape b_bdry) = inl msg ->
  In (Failure (error_message a_slug b_bdry msg))
     (fst (pair_events a_slug a_bdry a_area bs)).
Proof.
  intros Hdone Hin Hraise. induction bs as [|b bs IH]; [destruct Hin|].
  simpl in Hdone |- *. destruct Hin as [->|Hin].
  - unfold verdict. rewrite Hraise. left. reflexivity.
  - destruct (verdict a_slug a_bdry a_area b); simpl in *;
      try discriminate; auto.
Qed.

Lemma report_events_done (bset_a bset_b : BoundarySet) (slugs : list string)
    (a_slug : string) :
  snd (report_events bset_a bset_b slugs) = None ->
  In a_slug slugs ->
  snd (boundary_events bset_a bset_b a_slug) = None
  /\ incl (fst (boundary_events bset_a bset_b a_slug))
          (fst (report_events bset_a bset_b slugs)).
Proof.
  intros Hdone Hin. induction slugs as [|t slugs IH]; [destruct Hin|].
  simpl in Hdone |- *.
  destruct (boundary_events bset_a bset_b t) as [evs [e|]] eqn:Et;
    simpl in *; [discriminate|].
  destruct Hin as [->|Hin].
  - rewrite Et. simpl. split; [reflexivity|]. apply incl_appl, incl_refl.
  - destruct (IH Hdone Hin) as [Hnone Hincl]. split; [exact Hnone|].
    apply incl_appr, Hincl.
Qed.

Lemma in_failures (msg : string) (evs : list Event) :
  In (Failure msg) evs -> In msg (failures evs).
Proof.
  intros Hin. unfold failures. apply in_flat_map.
  exists (Failure msg). split; [exact Hin | left; reflexivity].
Qed.

Lemma raising_pair_is_logged (options : Options) (slug_1 slug_2 : string)
    (more : list string) (a_bdry b_bdry : Boundary Geom) (msg : string) :
  fst (run db (slug_1 :: slug_2 :: more) options) = Ok tt ->
  candidates slug_1 slug_2 a_bdry b_bdry ->
  intersection (shape a_bdry) (shape b_bdry) = inl msg ->
  In (error_message (slug a_bdry) b_bdry msg)
     (stderr (snd (run db (slug_1 :: slug_2 :: more) options))).
Proof.
  intros Hdone (Ha_in & Ha_set & Hb_in & Hb_set & Hint) Hraise.
  destruct (BoundarySet_get db slug_1) as [bset_a|e] eqn:Ha.
  2:{ unfold run, handle, bind at 1, lift at 1 in Hdone. rewrite Ha in Hdone.
      discriminate. }
  destruct (BoundarySet_get db slug_2) as [bset_b|e] eqn:Hb.
  2:{ unfold run, handle in Hdone. unfold bind at 1, lift at 1 in Hdone.
      rewrite Ha in Hdone. unfold bind at 1, lift at 1 in Hdone.
      rewrite Hb in Hdone. discriminate. }
  rewrite (run_events options slug_1 slug_2 more bset_a bset_b Ha Hb) in Hdone |- *.
  apply BoundarySet_get_ok in Ha, Hb.
  rewrite <- Ha in Ha_set. rewrite <- Hb in Hb_set.
  simpl in Hdone |- *.
  set (slugs := slugs_in_order (boundaries db bset_a)) in *.
  assert (Hcrash : snd (report_events bset_a bset_b slugs) = None).
  { destruct (snd (report_events bset_a bset_b slugs)); [discriminate|reflexivity]. }
  assert (Ha_qs : In a_bdry (boundaries db bset_a)).
  { unfold boundaries. apply filter_In. split; [exact Ha_in|].
    apply String.eqb_eq. exact Ha_set. }
  assert (Hslug : In (slug a_bdry) slugs).
  { apply in_slugs_in_order, in_map, Ha_qs. }
  destruct (report_events_done bset_a bset_b slugs (slug a_bdry) Hcrash Hslug)
    as [Hnone Hincl].
  apply in_failures, Hincl.
  unfold boundary_events in Hnone |- *.
  destruct (boundaries_get (boundaries db bset_a) (slug a_bdry)) as [a'|e] eqn:Hget;
    [|discriminate].
  assert (a' = a_bdry) as ->.
  { unfold boundaries_get in Hget. apply get_one_ok in Hget.
    assert (Hin : In a_bdry (List.filter (fun b => String.eqb (slug b) (slug a_bdry))
                                         (boundaries db bset_a))).
    { apply filter_In. split; [exact Ha_qs | apply String.eqb_refl]. }
    rewrite Hget in Hin. destruct Hin as [Heq|[]]. exact Heq. }
  apply pair_events_logged; [exact Hnone| |exact Hraise].
  unfold intersecting, boundaries. apply filter_In. split; [|exact Hint].
  apply filter_In. split; [exact Hb_in|]. apply String.eqb_eq. exact Hb_set.
Qed.

(** C3.  When intersecting two boundaries raises, the body of the
    inner loop ends normally: it writes one line naming the pair
    to the error stream and nothing to standard output or to the
    JSON records.  The loop then goes on with the pairs that follow,
    from the state the pairs before it left.  And in every run that
    ends normally the line of every such candidate pair is on the
    error stream. *)
Theorem intersection_error_is_skipped (options : Options)
    (a_bdry b_bdry : Boundary Geom) (msg : string) :
  intersection (shape a_bdry) (shape b_bdry) = inl msg ->
  (forall bset_a bset_b a_slug a_area s,
      report_pair options bset_a bset_b a_slug a_bdry a_area b_bdry s
      = (Ok tt, {| stdout := stdout s;
                   stderr := stderr s ++ [a_slug +:+ "/" +:+ slug b_bdry +:+ ": "
                                            +:+ msg +:+ newline];
                   output := output s |}))
  /\ (forall bset_a bset_b a_slug a_area before after s,
         let body := report_pair options bset_a bset_b a_slug a_bdry a_area in
         for_each (before ++ b_bdry :: after) body s =
         match for_each before body s with
         | (Ok _, s') =>
             for_each after body
               {| stdout := stdout s';
                  stderr := stderr s' ++ [a_slug +:+ "/" +:+ slug b_bdry +:+ ": "
                                            +:+ msg +:+ newline];
                  output := output s' |}
         | (Raise e, s') => (Raise e, s')
         end)
  /\ (forall slug_1 slug_2 more,
         candidates slug_1 slug_2 a_bdry b_bdry ->
         fst (run db (slug_1 :: slug_2 :: more) options) = Ok tt ->
         In (slug a_bdry +:+ "/" +:+ slug b_bdry +:+ ": " +:+ msg +:+ newline)
            (stderr (snd (run db (slug_1 :: slug_2 :: more) options)))).
Proof.
  intros Hraise.
  assert (Hbody : forall bset_a bset_b a_slug a_area s,
             report_pair options bset_a bset_b a_slug a_bdry a_area b_bdry s
             = (Ok tt, add_error (error_message a_slug b_bdry msg) s)).
  { intros. rewrite report_pair_verdict. unfold verdict. rewrite Hraise. reflexivity. }
  split; [exact Hbody|]. split.
  - intros bset_a bset_b a_slug a_area before after s body.
    rewrite for_each_app.
    destruct (for_each before body s) as [[[]|e] s']; [|reflexivity].
    simpl. unfold bind, body at 1. rewrite Hbody. reflexivity.
  - intros slug_1 slug_2 more Hcand Hdone.
    exact (raising_pair_is_logged options slug_1 slug_2 more a_bdry b_bdry msg
             Hdone Hcand Hraise).
Qed.

(** ** C4 *)

Definition names_no_set (s : string) : Prop :=
  Forall (fun bs => bs_slug bs <> s) (boundary_sets db).

Lemma BoundarySet_get_missing (s : string) :
  names_no_set s -> BoundarySet_get db s = Raise (DoesNotExist "BoundarySet").
Proof.
  unfold names_no_set, BoundarySet_get. intros Hno.
  assert (Hnil : List.filter (fun bs => String.eqb (bs_slug bs) s) (boundary_sets db) = []).
  { induction Hno as [|bs l Hbs _ IH]; [reflexivity|]. simpl.
    apply String.eqb_neq in Hbs. rewrite Hbs. exact IH. }
  rewrite Hnil. reflexivity.
Qed.

(** C4, as the code has it.  The command has one message of its
    own, printed when fewer than two slugs are given; it then
    returns normally.  A slug that names no boundary set makes
    [BoundarySet.objects.get] raise [DoesNotExist], which [handle]
    does not catch: the exception leaves the command before
    anything has been written to either stream. *)
Theorem missing_set_is_not_caught (slug_1 slug_2 : string) (more : list string)
    (options : Options) :
  names_no_set slug_1
  \/ ((exists bset_a, BoundarySet_get db slug_1 = Ok bset_a) /\ names_no_set slug_2) ->
  run db (slug_1 :: slug_2 :: more) options
  = (Raise (DoesNotExist "BoundarySet"), {| stdout := []; stderr := []; output := [] |})
  /\ run db [] options
     = (Ok tt, {| stdout := [Text "Specify two boundaryset slugs."];
                  stderr := []; output := [] |})
  /\ run db [slug_1] options
     = (Ok tt, {| stdout := [Text "Specify two boundaryset slugs."];
                  stderr := []; output := [] |}).
Proof.
  intros Hmissing. split; [|split; reflexivity].
  unfold run, handle. unfold bind at 1, lift at 1.
  destruct Hmissing as [Hno | [[bset_a Ha] Hno]].
  - rewrite (BoundarySet_get_missing slug_1 Hno). reflexivity.
  - rewrite Ha. unfold bind at 1, lift at 1.
    rewrite (BoundarySet_get_missing slug_2 Hno). reflexivity.
Qed.

End Report.

(** ** The report on a small database *)

Section Examples.
Import Flatland.

(** One ward, the unit square, and three districts: a sliver that
    covers exactly a thousandth of the ward, a rectangle that
    covers half of it, and a malformed geometry. *)
Definition city : Database Shape :=
  {| boundary_sets := [ {| bs_slug := "wards"; bs_name := "Wards" |};
                        {| bs_slug := "districts"; bs_name := "Districts" |} ];
     all_boundaries := [ boundary "wards" "w1" "Ward 1" (Rect 0 0 1 1);
                         boundary "districts" "d1" "District 1" (Rect 0 0 0.001 1);
                         boundary "districts" "d2" "District 2" (Rect 0.5 0 2 1);
                         boundary "districts" "d3" "District 3" Broken ];
     spatial_ref_sys := [4326; 3857; 4055]%Z |}.

(** Two wards that overlap, for a set compared with itself. *)
Definition town : Database Shape :=
  {| boundary_sets := [ {| bs_slug := "wards"; bs_name := "Wards" |} ];
     all_boundaries := [ boundary "wards" "w1" "Ward 1" (Rect 0 0 1 1);
                         boundary "wards" "w2" "Ward 2" (Rect 0.5 0 2 1) ];
     spatial_ref_sys := [4326; 3857; 4055]%Z |}.

Example city_csv :
  run city ["wards"; "districts"] (csv_options false)
  = (Ok tt,
     {| stdout := [ CsvHeader "wards" "districts";
                    CsvRow "w1" 1 "d1" 0.001 0.001 0.001 1;
                    CsvRow "w1" 1 "d2" 1.5 0.5 0.5 (0.5 / 1.5) ];
        stderr := [ "w1/d3: TopologyException: side location conflict" +:+ newline ];
        output := [] |}).
Proof. vm_compute. reflexivity. Qed.

(** The claim of C1 that both ratios of an emitted pair exceed
    0.001. *)
Definition ratios_exceed (l : Line) : Prop :=
  match l with
  | CsvRow _ _ _ _ _ pct_of_1 pct_of_2 =>
      (0.001 <? pct_of_1)%float = true /\ (0.001 <? pct_of_2)%float = true
  | _ => True
  end.

(** The sliver [d1] covers exactly 0.001 of [w1]: the quotient is
    not below 0.001, the pair is written, and its first ratio does
    not exceed 0.001. *)
Lemma ratio_equal_to_threshold_is_emitted :
  ~ Forall ratios_exceed
      (stdout (snd (run city ["wards"; "districts"] (csv_options false)))).
Proof.
  rewrite city_csv. simpl. intros Hall.
  apply List.Forall_inv_tail, List.Forall_inv in Hall.
  destruct Hall as [Hfirst _]. vm_compute in Hfirst. discriminate.
Qed.

(** In a set compared with itself the pair [(w1, w2)] is a CSV row,
    but no record of the JSON array reads as that pair. *)
Lemma same_set_pairs_differ :
  fst (run town ["wards"; "wards"] (csv_options false)) = Ok tt
  /\ fst (run town ["wards"; "wards"] (json_options false)) = Ok tt
  /\ In ("w1", "w2")
        (csv_pairs (stdout (snd (run town ["wards"; "wards"] (csv_options false)))))
  /\ ~ In ("w1", "w2")
         (json_pairs "wards" "wards"
            (stdout (snd (run town ["wards"; "wards"] (json_options false))))).
Proof.
  split; [vm_compute; reflexivity|]. split; [vm_compute; reflexivity|].
  split.
  - vm_compute. right. left. reflexivity.
  - assert (Hpairs :
             json_pairs "wards" "wards"
               (stdout (snd (run town ["wards"; "wards"] (json_options false))))
             = [("w1", "w1"); ("w2", "w2"); ("w1", "w1"); ("w2", "w2")]).
    { vm_compute. reflexivity. }
    rewrite Hpairs. simpl. intros [H|[H|[H|[H|[]]]]]; discriminate.
Qed.

(** The ward and the districts of [city]: the sliver and the half,
    in this order, in both formats. *)
Lemma same_pairs_in_both_formats_witness :
  "wards" <> "districts"
  /\ fst (run city ["wards"; "districts"] (csv_options false)) = Ok tt
  /\ (fst (run city ["wards"; "districts"] (json_options true)) = Ok tt
      /\ csv_pairs (stdout (snd (run city ["wards"; "districts"] (csv_options false))))
         = json_pairs "wards" "districts"
             (stdout (snd (run city ["wards"; "districts"] (json_options true))))).
Proof.
  assert (Hne : "wards" <> "districts") by discriminate.
  assert (Hdone : fst (run city ["wards"; "districts"] (csv_options false)) = Ok tt)
    by (vm_compute; reflexivity).
  split; [exact Hne|]. split; [exact Hdone|].
  exact (same_pairs_in_both_formats city "wards" "districts" [] false true Hne Hdone).
Defined.

(** The malformed district [d3] of [city] is reported on the error
    stream and the run goes on. *)
Lemma intersection_error_is_skipped_witness :
  intersection (shape (boundary "wards" "w1" "Ward 1" (Rect 0 0 1 1)))
               (shape (boundary "districts" "d3" "District 3" Broken))
  = inl "TopologyException: side location conflict"
  /\ In ("w1/d3: TopologyException: side location conflict" +:+ newline)
        (stderr (snd (run city ["wards"; "districts"] (csv_options false)))).
Proof.
  split; [reflexivity|].
  refine (proj2 (proj2 (intersection_error_is_skipped city (csv_options false)
                          (boundary "wards" "w1" "Ward 1" (Rect 0 0 1 1))
                          (boundary "districts" "d3" "District 3" Broken)
                          "TopologyException: side location conflict" eq_refl))
                "wards" "districts" [] _ _).
  - unfold candidates. simpl. intuition.
  - vm_compute. reflexivity.
Defined.

(** No boundary set is called ["parishes"]: the run ends with the
    exception and has printed nothing. *)
Lemma missing_set_is_fatal :
  run city ["wards"; "parishes"] (csv_options false)
  = (Raise (DoesNotExist "BoundarySet"),
     {| stdout := []; stderr := []; output := [] |}).
Proof. vm_compute. reflexivity. Qed.

(** [city] has wards but no parishes. *)
Lemma missing_set_is_not_caught_witness :
  (names_no_set city "wards"
   \/ ((exists bset_a, BoundarySet_get city "wards" = Ok bset_a)
       /\ names_no_set city "parishes"))
  /\ run city ["wards"; "parishes"] (csv_options false)
     = (Raise (DoesNotExist "BoundarySet"),
        {| stdout := []; stderr := []; output := [] |}).
Proof.
  assert (Hmissing : names_no_set city "wards"
                     \/ ((exists bset_a, BoundarySet_get city "wards" = Ok bset_a)
                         /\ names_no_set city "parishes")).
  { right. split.
    - eexists. reflexivity.
    - unfold names_no_set. simpl. repeat constructor; discriminate. }
  split; [exact Hmissing|].
  exact (proj1 (missing_set_is_not_caught city "wards" "parishes" []
                  (csv_options false) Hmissing)).
Defined.

(** With the same set on both sides every record is the second
    boundary's alone. *)
Example town_json :
  stdout (snd (run town ["wards"; "wards"] (json_options false)))
  = [ JsonDump
        [ <["wards" := JObject (side_of (boundary "wards" "w1" "Ward 1" (Rect 0 0 1 1))
                                  "w1" 1 1 false)]> (<["area" := JNumber 1]> ∅);
          <["wards" := JObject (side_of (boundary "wards" "w2" "Ward 2" (Rect 0.5 0 2 1))
                                  "w2" 1.5 (0.5 / 1.5) false)]>
            (<["area" := JNumber 0.5]> ∅);
          <["wards" := JObject (side_of (boundary "wards" "w1" "Ward 1" (Rect 0 0 1 1))
                                  "w1" 1 0.5 false)]> (<["area" := JNumber 0.5]> ∅);
          <["wards" := JObject (side_of (boundary "wards" "w2" "Ward 2" (Rect 0.5 0 2 1))
                                  "w2" 1.5 1 false)]> (<["area" := JNumber 1.5]> ∅) ] ].
Proof. vm_compute. reflexivity. Qed.

Example town_csv :
  stdout (snd (run town ["wards"; "wards"] (csv_options false)))
  = [ CsvHeader "wards" "wards";
      CsvRow "w1" 1 "w1" 1 1 1 1;
      CsvRow "w1" 1 "w2" 1.5 0.5 0.5 (0.5 / 1.5);
      CsvRow "w2" 1.5 "w1" 1 0.5 (0.5 / 1.5) 0.5;
      CsvRow "w2" 1.5 "w2" 1.5 1.5 1 1 ].
Proof. vm_compute. reflexivity. Qed.

(** The wards of [town] against themselves: the second row of the
    CSV report is the pair [(w1, w2)], and the second record of the
    JSON array has the data of [w2] and nothing of [w1]. *)
Lemma same_set_keeps_second_side_witness :
  fst (run town ["wards"; "wards"] (json_options false)) = Ok tt
  /\ exists rows recs,
       stdout (snd (run town ["wards"; "wards"] (csv_options false)))
       = CsvHeader "wards" "wards" :: rows
       /\ stdout (snd (run town ["wards"; "wards"] (json_options false)))
          = [JsonDump recs]
       /\ Forall2 (keeps_second_side town "wards" false) rows recs
       /\ nth_error rows 1 = Some (CsvRow "w1" 1 "w2" 1.5 0.5 0.5 (0.5 / 1.5))
       /\ nth_error recs 1
          = Some (<["wards" := JObject (side_of (boundary "wards" "w2" "Ward 2"
                                                  (Rect 0.5 0 2 1))
                                         "w2" 1.5 (0.5 / 1.5) false)]>
                    (<["area" := JNumber 0.5]> ∅)).
Proof.
  assert (Hdone : fst (run town ["wards"; "wards"] (json_options false)) = Ok tt)
    by (vm_compute; reflexivity).
  split; [exact Hdone|].
  destruct (same_set_keeps_second_side town "wards" [] false false Hdone)
    as (rows & recs & Hcsv & Hjson & Hall).
  exists rows, recs. split; [exact Hcsv|]. split; [exact Hjson|]. split; [exact Hall|].
  rewrite town_csv in Hcsv. injection Hcsv as <-.
  rewrite town_json in Hjson. injection Hjson as <-.
  split; reflexivity.
Defined.

End Examples.
End IntersectionsSpec.

(** * Properties of the map tile view *)

Module TilesSpec.
Import Tiles.

Section Spec.
Context {Geom : Type} {gis : Gis Geom} {cairo : Cairo} {builtins : Builtins}
        {evaluator : PyEval}.
Variable settings : Settings.
Variable db : Database Geom.

(** ** What a request that reaches the query has gone through *)

(** Peels one successful step off a hypothesis [... = Ok _]. *)
Ltac step H :=
  match type of H with
  | rbind ?r _ = Ok _ =>
      let E := fresh "E" in destruct r eqn:E; simpl in H; [|discriminate H]
  | (let '(_, _) := ?p in _) = Ok _ =>
      let E := fresh "E" in destruct p eqn:E; simpl in H
  end.

Lemma geos_ok {A} (r : string + A) (a : A) : geos r = Ok a -> r = inr a.
Proof. destruct r; simpl; congruence. Qed.

Lemma gdal_ok {A} (r : string + A) (a : A) : gdal r = Ok a -> r = inr a.
Proof. destruct r; simpl; congruence. Qed.

Lemma load_basic_parameters_ok (GET : gmap string string) (size srs : Z) :
  load_basic_parameters GET = Ok (size, srs) ->
  Py.int (GET_get GET "size" "256") = Some size
  /\ (size = 256 \/ size = 512 \/ size = 1024)%Z
  /\ Py.int (GET_get GET "srs" "3857") = Some srs.
Proof.
  unfold load_basic_parameters, int_or_404. intros Hok.
  destruct (Py.int (GET_get GET "size" "256")) as [n|]; simpl in Hok; [|discriminate].
  destruct (Z.eqb n 256 || Z.eqb n 512 || Z.eqb n 1024) eqn:Esize;
    simpl in Hok; [|discriminate].
  destruct (Py.int (GET_get GET "srs" "3857")) as [m|]; simpl in Hok; [|discriminate].
  injection Hok as -> ->. split; [reflexivity|]. split; [|reflexivity].
  apply orb_true_iff in Esize as [Esize|Esize];
    [apply orb_true_iff in Esize as [Esize|Esize]|];
    apply Z.eqb_eq in Esize; auto.
Qed.

(** The width of one pixel of the tile in the units of the database
    projection: the width of the projected bounding box over the
    number of pixels in a row. *)
Definition tile_pixel_width (t : @Tile Geom) : float :=
  let '(lon1, _, lon2, _) := geom_extent (db_bbox t) in
  ((lon2 - lon1) / fsize t)%float.

Lemma tile_of_request_ok (GET : gmap string string) (t : Tile) :
  tile_of_request settings db GET = Ok t ->
  has_imaging_library settings = true
  /\ Py.int (GET_get GET "size" "256") = Some (size t)
  /\ (size t = 256 \/ size t = 512 \/ size t = 1024)%Z
  /\ float_of_int (size t) = Ok (fsize t)
  /\ transform (db_srs t) (bbox t) = inr (db_bbox t)
  /\ pixel_width t = (tile_pixel_width t / 2)%float
  /\ shape_field t = choose_shape_field settings (pixel_width t).
Proof.
  unfold tile_of_request. intros Hok.
  destruct (has_imaging_library settings) eqn:Ecairo; simpl in Hok; [|discriminate].
  destruct (load_basic_parameters GET) as [[size srs]|e] eqn:Ebasic;
    simpl in Hok; [|discriminate].
  apply load_basic_parameters_ok in Ebasic as (Esize & Hsize & _).
  repeat step Hok.
  injection Hok as <-. simpl.
  match goal with
  | Htr : gdal (transform _ _) = Ok _ |- _ => apply gdal_ok in Htr
  end.
  repeat split; try assumption; try reflexivity.
  unfold tile_pixel_width. simpl.
  match goal with
  | Hext : geom_extent ?g = _ |- context [geom_extent ?g] => rewrite Hext
  end.
  reflexivity.
Qed.

(** The boundaries the query of lines 216 to 218 matches. *)
Definition on_tile (t : @Tile Geom) (set_slug boundary_slug : string)
  : list (Boundary Geom) :=
  List.filter
    (fun b => String.eqb (set_id b) set_slug
              && intersects (shape b) (db_bbox t)
              && (String.eqb boundary_slug "" || String.eqb (slug b) boundary_slug))
    (all_boundaries db).

Lemma on_tile_none (t : @Tile Geom) (set_slug boundary_slug : string) :
  (forall b, In b (all_boundaries db) -> set_id b = set_slug ->
             boundary_slug = "" \/ slug b = boundary_slug ->
             intersects (shape b) (db_bbox t) = false) ->
  on_tile t set_slug boundary_slug = [].
Proof.
  unfold on_tile. intros Hnone.
  induction (all_boundaries db) as [|b l IH]; [reflexivity|]. simpl.
  rewrite IH by (intros x Hx; apply Hnone; right; exact Hx).
  destruct (String.eqb (set_id b) set_slug) eqn:Eset; [|reflexivity].
  destruct (String.eqb boundary_slug "" || String.eqb (slug b) boundary_slug) eqn:Eslug;
    [|rewrite andb_false_r; reflexivity].
  rewrite (Hnone b); [reflexivity| | |].
  - left. reflexivity.
  - apply String.eqb_eq. exact Eset.
  - apply orb_true_iff in Eslug as [Eslug|Eslug];
      apply String.eqb_eq in Eslug; auto.
Qed.

Lemma empty_query_is_one_pixel (GET : gmap string string) (set_slug boundary_slug : string)
    (t : Tile) :
  tile_of_request settings db GET = Ok t ->
  on_tile t set_slug boundary_slug = [] ->
  boundaries_map_tiles settings db GET set_slug boundary_slug
  = Ok (png_response (ImageSurface 1 1)).
Proof.
  intros Hreq Hquery. unfold boundaries_map_tiles. rewrite Hreq. simpl.
  unfold tile_surface, query. fold (on_tile t set_slug boundary_slug).
  rewrite Hquery. reflexivity.
Qed.

(** ** C5 *)

(** C5.  A request that reaches the query (cairo is there, the
    parameters are valid, the bounding box could be built and
    projected) and whose bounding box intersects no boundary of the
    set, or not the one boundary asked for, is answered with status
    200 and content type [image/png]; the body is the PNG encoding of
    a fresh 1 by 1 surface on which nothing was drawn, a single
    transparent pixel. *)
Theorem empty_tile_is_one_transparent_pixel (GET : gmap string string)
    (set_slug boundary_slug : string) (t : Tile) :
  tile_of_request settings db GET = Ok t ->
  (forall b, In b (all_boundaries db) -> set_id b = set_slug ->
             boundary_slug = "" \/ slug b = boundary_slug ->
             intersects (shape b) (db_bbox t) = false) ->
  boundaries_map_tiles settings db GET set_slug boundary_slug
  = Ok {| status_code := 200; content_type := "image/png";
          content := write_to_png {| width := 1; height := 1; ops := [] |};
          content_length :=
            length (write_to_png {| width := 1; height := 1; ops := [] |}) |}
  /\ http_status (boundaries_map_tiles settings db GET set_slug boundary_slug) = 200%Z.
Proof.
  intros Hreq Hnone.
  rewrite (empty_query_is_one_pixel GET set_slug boundary_slug t Hreq
             (on_tile_none t set_slug boundary_slug Hnone)).
  split; reflexivity.
Qed.

(** ** The list the passes draw from *)

(** The extent of a row's shape as the view measures it. *)
Definition ext_dim_of (t : Tile) (bdry : Row Geom) : float :=
  max_extent (geom_extent (simplified t bdry)).

Definition too_small (t : Tile) (bdry : Row Geom) : bool :=
  (ext_dim_of t bdry <? pixel_width t)%float.


Lemma draw_shapes_one (t : Tile) (bdry : Row Geom) :
  draw_shapes t [bdry]
  = if too_small t bdry then Ok []
    else (shape' <- gdal (transform (out_srs t) (simplified t bdry)) ;;
          Ok [(bdry, shape', ext_dim_of t bdry)]).
Proof.
  unfold too_small, ext_dim_of. simpl.
  destruct (max_extent (geom_extent (simplified t bdry)) <? pixel_width t)%float;
    [reflexivity|].
  destruct (gdal (transform (out_srs t) (simplified t bdry))); reflexivity.
Qed.

Lemma in_draw_shapes (t : Tile) (rows : list (Row Geom))
    (entries : list (Row Geom * Geom * float)) (bdry : Row Geom)
    (shape : Geom) (ext_dim : float) :
  draw_shapes t rows = Ok entries ->
  In (bdry, shape, ext_dim) entries <->
  In bdry rows /\ too_small t bdry = false
  /\ transform (out_srs t) (simplified t bdry) = inr shape
  /\ ext_dim = ext_dim_of t bdry.
Proof.
  revert entries. induction rows as [|r rows IH]; simpl; intros entries Hdraw.
  - injection Hdraw as <-. simpl. tauto.
  - unfold too_small in *. unfold ext_dim_of in *.
    destruct (max_extent (geom_extent (simplified t r)) <? pixel_width t)%float eqn:E.
    + rewrite (IH entries Hdraw). split.
      * intros (Hin & Hrest). split; [right; exact Hin | exact Hrest].
      * intros ([->|Hin] & Hsmall & Hrest); [congruence|]. auto.
    + destruct (transform (out_srs t) (simplified t r)) as [msg|shape'] eqn:Etr;
        simpl in Hdraw; [discriminate|].
      destruct (draw_shapes t rows) as [later|e]; simpl in Hdraw; [|discriminate].
      injection Hdraw as <-. simpl. rewrite (IH later eq_refl). split.
      * intros [Heq|(Hin & Hrest)].
        -- injection Heq as -> <- <-. auto.
        -- split; [right; exact Hin | exact Hrest].
      * intros ([->|Hin] & Hsmall & Hshape & ->).
        -- left. congruence.
        -- right. auto.
Qed.

Lemma pass_app (f : Row Geom * Geom * float -> result (list DrawOp))
    (entries1 entries2 : list (Row Geom * Geom * float)) :
  pass f (entries1 ++ entries2)
  = (first <- pass f entries1 ;;
     second <- pass f entries2 ;;
     Ok (first ++ second)).
Proof.
  induction entries1 as [|e entries1 IH]; simpl.
  - destruct (pass f entries2); reflexivity.
  - destruct (f e) as [here|err]; simpl; [|reflexivity].
    rewrite IH. destruct (pass f entries1) as [first|err]; simpl; [|reflexivity].
    destruct (pass f entries2) as [second|err]; simpl; [|reflexivity].
    rewrite app_assoc. reflexivity.
Qed.


(** ** C7 *)

(** The geometry of a boundary that is loaded for a tile, and the row
    it comes in. *)
Definition loaded_geometry (t : @Tile Geom) (b : Boundary Geom) : Geom :=
  if (SIMPLE_SHAPE_TOLERANCE settings <? tile_pixel_width t / 2)%float
  then simple_shape b else shape b.

Definition loaded_row (t : @Tile Geom) (b : Boundary Geom) : Row Geom :=
  {| row_name := name b; row_label_point := label_point b; row_color := color b;
     row_shape := loaded_geometry t b |}.

Lemma query_loaded_rows (GET : gmap string string) (t : Tile)
    (set_slug boundary_slug : string) :
  tile_of_request settings db GET = Ok t ->
  query db t set_slug boundary_slug
  = List.map (loaded_row t) (on_tile t set_slug boundary_slug).
Proof.
  intros Hreq.
  destruct (tile_of_request_ok GET t Hreq) as (_ & _ & _ & _ & _ & Hpw & Hfield).
  unfold query. fold (on_tile t set_slug boundary_slug).
  apply map_ext. intros b. unfold values, loaded_row, loaded_geometry.
  rewrite Hfield, <- Hpw. unfold choose_shape_field.
  destruct (SIMPLE_SHAPE_TOLERANCE settings <? pixel_width t)%float; reflexivity.
Qed.

(** C7, as the code has it.  For a request that gets as far as the
    query, the number that is compared with [SIMPLE_SHAPE_TOLERANCE]
    is half the width of a pixel of the tile in the database
    projection (line 210 divides the width of the bounding box by the
    size and by two).  The column that is loaded is [simple_shape]
    exactly when that number exceeds the tolerance, and [shape]
    otherwise: the rows of the query are the boundaries that match,
    each with the geometry of that column; every shape on the list
    the passes draw from is that geometry, simplified and projected;
    and the response is the picture of these rows. *)
Theorem simplified_geometry_iff_half_pixel_exceeds_tolerance
    (GET : gmap string string) (t : Tile) (set_slug boundary_slug : string) :
  tile_of_request settings db GET = Ok t ->
  (shape_field t = "simple_shape"
   <-> (SIMPLE_SHAPE_TOLERANCE settings <? tile_pixel_width t / 2)%float = true)
  /\ (shape_field t = "shape"
      <-> (SIMPLE_SHAPE_TOLERANCE settings <? tile_pixel_width t / 2)%float = false)
  /\ query db t set_slug boundary_slug
     = List.map (loaded_row t) (on_tile t set_slug boundary_slug)
  /\ (forall entries,
         draw_shapes t (query db t set_slug boundary_slug) = Ok entries ->
         Forall (fun entry =>
                   exists b,
                     In b (on_tile t set_slug boundary_slug)
                     /\ fst (fst entry) = loaded_row t b
                     /\ transform (out_srs t)
                          (multipolygon (db_srs t)
                             (simplify (tile_pixel_width t / 2)%float (loaded_geometry t b)))
                        = inr (snd (fst entry)))
                entries)
  /\ boundaries_map_tiles settings db GET set_slug boundary_slug
     = (im <- (if Nat.eqb (length (on_tile t set_slug boundary_slug)) 0
               then Ok (ImageSurface 1 1)
               else render settings t
                      (List.map (loaded_row t) (on_tile t set_slug boundary_slug))) ;;
        Ok (png_response im)).
Proof.
  intros Hreq.
  pose proof (query_loaded_rows GET t set_slug boundary_slug Hreq) as Hquery.
  destruct (tile_of_request_ok GET t Hreq) as (_ & _ & _ & _ & _ & Hpw & Hfield).
  split; [|split; [|split; [exact Hquery|split]]].
  - rewrite Hfield, <- Hpw. unfold choose_shape_field.
    destruct (SIMPLE_SHAPE_TOLERANCE settings <? pixel_width t)%float;
      split; congruence.
  - rewrite Hfield, <- Hpw. unfold choose_shape_field.
    destruct (SIMPLE_SHAPE_TOLERANCE settings <? pixel_width t)%float;
      split; congruence.
  - intros entries Hdraw. apply List.Forall_forall.
    intros [[bdry shape'] ext_dim] Hentry.
    apply (in_draw_shapes t _ entries bdry shape' ext_dim Hdraw) in Hentry
      as (Hin & _ & Hshape & _).
    rewrite Hquery in Hin. apply in_map_iff in Hin as (b & <- & Hb).
    exists b. split; [exact Hb|]. split; [reflexivity|].
    rewrite <- Hpw. exact Hshape.
  - unfold boundaries_map_tiles. rewrite Hreq. simpl. unfold tile_surface.
    rewrite Hquery, length_map. reflexivity.
Qed.

(** ** C8 *)


(** ** Requests that are refused *)

(** X26.  Without cairo, with a [size] that is not a number or not one of
    256, 512 and 1024, or with an [srs] that is not a number, the
    view raises [Http404]. *)
Lemma invalid_basic_parameter_is_404 (GET : gmap string string)
    (set_slug boundary_slug : string) :
  has_imaging_library settings = false
  \/ Py.int (GET_get GET "size" "256") = None
  \/ (exists n, Py.int (GET_get GET "size" "256") = Some n
                /\ n <> 256 /\ n <> 512 /\ n <> 1024)%Z
  \/ Py.int (GET_get GET "srs" "3857") = None ->
  http_status (boundaries_map_tiles settings db GET set_slug boundary_slug) = 404%Z.
Proof.
  intros Hbad. unfold boundaries_map_tiles, tile_of_request.
  destruct (has_imaging_library settings); [|reflexivity].
  destruct Hbad as [Hbad|Hbad]; [discriminate|]. simpl.
  unfold load_basic_parameters, int_or_404.
  destruct (Py.int (GET_get GET "size" "256")) as [n|] eqn:Esize; [|reflexivity].
  simpl.
  destruct (Z.eqb n 256 || Z.eqb n 512 || Z.eqb n 1024) eqn:Eallowed; simpl;
    [|reflexivity].
  destruct Hbad as [Hbad|[(m & Hm & H256 & H512 & H1024)|Hbad]].
  - discriminate.
  - injection Hm as <-.
    apply Z.eqb_neq in H256, H512, H1024.
    rewrite H256, H512, H1024 in Eallowed. discriminate.
  - rewrite Hbad. reflexivity.
Qed.

(** X27.  Once [size] and [srs] are accepted and the reference systems
    have been found, a tile coordinate that is not a number makes
    the view raise [Http404] as well. *)
Lemma invalid_tile_parameter_is_404 (GET : gmap string string)
    (set_slug boundary_slug : string) (size srs out_srs db_srs : Z) :
  has_imaging_library settings = true ->
  load_basic_parameters GET = Ok (size, srs) ->
  SpatialRefSys_get db srs = Ok out_srs ->
  (if Z.eqb srs 3857 then SpatialRefSys_get db 4055
   else SpatialRefSys_get db (shape_srid settings)) = Ok db_srs ->
  Py.int (GET_get GET "tile_x" "0") = None
  \/ Py.int (GET_get GET "tile_y" "0") = None
  \/ Py.int (GET_get GET "tile_zoom" "0") = None ->
  http_status (boundaries_map_tiles settings db GET set_slug boundary_slug) = 404%Z.
Proof.
  intros Hcairo Hbasic Hout Hdb Hbad.
  unfold boundaries_map_tiles, tile_of_request.
  rewrite Hcairo, Hbasic. simpl. rewrite Hout. simpl. rewrite Hdb. simpl.
  unfold load_tile_parameters, int_or_404.
  destruct (Py.int (GET_get GET "tile_x" "0")); [|reflexivity]. simpl.
  destruct (Py.int (GET_get GET "tile_y" "0")); [|reflexivity]. simpl.
  destruct (Py.int (GET_get GET "tile_zoom" "0")); [|reflexivity].
  destruct Hbad as [Hbad|[Hbad|Hbad]]; discriminate.
Qed.

(** ** Labels *)

(** X17.  A label is all or nothing: its pass draws the plate, the shadow
    and the text of a boundary, in this order, or none of them, and
    it draws them only when the test of lines 368 and 369 holds. *)
Lemma label_is_all_or_nothing (t : Tile) (bdry : Row Geom) (shape : Geom)
    (ext_dim : float) (drawn : list DrawOp) :
  label settings t (bdry, shape, ext_dim) = Ok drawn ->
  drawn = []
  \/ exists pt font_size shown,
       py_div ext_dim (pixel_width t) = Ok shown
       /\ label_fits t (shown / 5)%float pt
            (text_extents (MAP_LABEL_FONT settings) font_size (row_name bdry)) = true
       /\ drawn = label_drawing font_size pt
                    (text_extents (MAP_LABEL_FONT settings) font_size (row_name bdry))
                    (row_name bdry).
Proof.
  unfold label.
  destruct (ext_dim <? pixel_width t * 20)%float; [intros [= <-]; auto|].
  destruct (label_anchor t bdry shape) as [[world_pt|]|e]; simpl;
    [|intros [= <-]; auto|discriminate].
  destruct (py_div ext_dim (pixel_width t)) as [shown|e]; simpl; [|discriminate].
  set (font_size := if (fsize t * pixel_width t <? ext_dim)%float
                    then 18%float else 12%float).
  destruct (label_fits t (shown / 5)%float (viewport t world_pt)
              (text_extents (MAP_LABEL_FONT settings) font_size (row_name bdry)))
    eqn:Efits; intros [= <-]; [|auto].
  right. exists (viewport t world_pt), font_size, shown. auto.
Qed.

(** When the test holds, the two corners of the plate and of the
    shadow that the test mentions are inside the tile. *)
Lemma label_fits_corners (t : @Tile Geom) (limit : float) (pt : Point)
    (x_off y_off tw th : float) :
  label_fits t limit pt (x_off, y_off, tw, th) = true ->
  (0 <? fst pt - x_off - tw / 2 - 4)%float = true
  /\ (0 <? snd pt - th - 4)%float = true
  /\ (fst pt - x_off + tw / 2 + 7 <? fsize t)%float = true
  /\ (snd pt + 6 <? fsize t)%float = true.
Proof.
  unfold label_fits. intros Hfits.
  repeat (apply andb_true_iff in Hfits as [Hfits ?]). auto.
Qed.

End Spec.

(** ** The view on a small database *)

Section Examples.
Import Flatland CPython.

Definition settings : Settings :=
  {| has_imaging_library := true;
     SIMPLE_SHAPE_TOLERANCE := 0.0002;
     MAP_LABEL_FONT := "Sans";
     shape_srid := 4326 |}.

Definition labelled (b : Boundary Shape) (p : Point) (c : string) : Boundary Shape :=
  {| set_id := set_id b; slug := slug b; external_id := external_id b;
     name := name b; metadata := metadata b; shape := shape b;
     simple_shape := simple_shape b; centroid := centroid b; extent := extent b;
     label_point := Some p; color := c |}.

(** A ward that fills most of the world, whose stored name starts
    with two blanks, and a ward smaller than a pixel of the world
    tile. *)
Definition atlas : Database Shape :=
  {| boundary_sets := [ {| bs_slug := "wards"; bs_name := "Wards" |} ];
     all_boundaries :=
       [ labelled (boundary "wards" "w1" "  Ward 1" (Rect (-170) (-170) 170 170))
                  (151.875, 0)%float "[255, 0, 0]";
         boundary "wards" "w2" "Ward 2" (Rect 0 0 0.5 0.5) ];
     spatial_ref_sys := [4326; 3857; 4055]%Z |}.

Definition request (params : list (string * string)) : gmap string string :=
  list_to_map params.

(** The tile of zoom level 0, which shows the whole world. *)
Definition world_tile : Tile :=
  {| size := 256; fsize := 256; out_srs := 3857; db_srs := 4055;
     bbox := Rect (-180) (-180) 180 180;
     blon1 := (-180)%float; blat1 := (-180)%float;
     bx := (256 / 360)%float; by_ := (256 / 360)%float;
     db_bbox := Rect (-180) (-180) 180 180;
     pixel_width := 0.703125%float;
     shape_field := "simple_shape" |}.

Example world_tile_of_request :
  tile_of_request settings atlas (request []) = Ok world_tile.
Proof. vm_compute. reflexivity. Qed.

(** A pixel of the world tile is 1.40625 units wide, twice the
    [pixel_width] of line 210. *)
Example world_tile_pixel :
  tile_pixel_width world_tile = 1.40625%float
  /\ pixel_width world_tile = 0.703125%float.
Proof. split; vm_compute; reflexivity. Qed.

(** Digits of another script are numbers to [int]; a zoom level so
    far below zero that the corners of the box are no numbers makes
    the constructor of line 189 raise, and a box at infinity cannot
    be projected. *)
Example requests_in_other_words :
  boundaries_map_tiles settings atlas (request [("size", "٢٥٦")]) "wards" ""
  = boundaries_map_tiles settings atlas (request [("size", "256")]) "wards" ""
  /\ http_status (boundaries_map_tiles settings atlas (request [("size", "٢٥٦")]) "wards" "")
     = 200%Z
  /\ boundaries_map_tiles settings atlas (request [("tile_zoom", "-1074")]) "parishes" ""
     = Raise (GEOSException "Points of LinearRing do not form a closed linestring")
  /\ boundaries_map_tiles settings atlas
       (request [("tile_zoom", "-1074"); ("tile_x", "1"); ("tile_y", "1")]) "parishes" ""
     = Raise (GDALException "OGR failure.").
Proof. repeat split; vm_compute; reflexivity. Qed.

(** The south-east corner tile of zoom level 6 touches no ward. *)
Lemma empty_tile_is_one_transparent_pixel_witness :
  exists t,
    tile_of_request settings atlas
      (request [("tile_zoom", "6"); ("tile_x", "63"); ("tile_y", "63")]) = Ok t
    /\ boundaries_map_tiles settings atlas
         (request [("tile_zoom", "6"); ("tile_x", "63"); ("tile_y", "63")]) "wards" ""
       = Ok {| status_code := 200; content_type := "image/png";
               content := write_to_png {| width := 1; height := 1; ops := [] |};
               content_length :=
                 length (write_to_png {| width := 1; height := 1; ops := [] |}) |}.
Proof.
  eexists. split; [vm_compute; reflexivity|].
  refine (proj1 (empty_tile_is_one_transparent_pixel settings atlas
                   (request [("tile_zoom", "6"); ("tile_x", "63"); ("tile_y", "63")])
                   "wards" "" _ _ _)).
  - vm_compute. reflexivity.
  - intros b [<-|[<-|[]]] _ _; vm_compute; reflexivity.
Defined.

(** *** The geometry column *)

(** A ward whose simplified geometry differs from its full one. *)
Definition surveyed_ward : Boundary Shape :=
  {| set_id := "wards"; slug := "w1"; external_id := "w1"; name := "Ward 1";
     metadata := "{}"; shape := Rect (-170) (-170) 170 170;
     simple_shape := Rect (-160) (-160) 160 160;
     centroid := (0, 0)%float; extent := (-170, -170, 170, 170)%float;
     label_point := None; color := "" |}.

Definition gazetteer : Database Shape :=
  {| boundary_sets := [ {| bs_slug := "wards"; bs_name := "Wards" |} ];
     all_boundaries := [ surveyed_ward ];
     spatial_ref_sys := [4326; 3857; 4055]%Z |}.

(** A tile of zoom level 12 south-east of the origin. *)
Definition street_request : gmap string string :=
  request [("tile_zoom", "12"); ("tile_x", "2048"); ("tile_y", "2048")].

Definition street_tile : Tile :=
  {| size := 256; fsize := 256; out_srs := 3857; db_srs := 4055;
     bbox := Rect 0 (-0.087890625) 0.087890625 0;
     blon1 := 0%float; blat1 := (-0.087890625)%float;
     bx := (256 / 0.087890625)%float; by_ := (256 / 0.087890625)%float;
     db_bbox := Rect 0 (-0.087890625) 0.087890625 0;
     pixel_width := 0.000171661376953125%float;
     shape_field := "shape" |}.

Example street_tile_of_request :
  tile_of_request settings gazetteer street_request = Ok street_tile.
Proof. vm_compute. reflexivity. Qed.

(** The claim of C7 at one request: the rows carry the simplified
    geometry exactly when the width of a pixel of the tile exceeds the
    tolerance. *)
Definition simplified_iff_pixel_exceeds (db : Database Shape)
    (GET : gmap string string) (set_slug boundary_slug : string) : Prop :=
  forall t,
    tile_of_request settings db GET = Ok t ->
    (List.map row_shape (query db t set_slug boundary_slug)
     = List.map simple_shape (on_tile db t set_slug boundary_slug)
     <-> (SIMPLE_SHAPE_TOLERANCE settings <? tile_pixel_width t)%float = true).

(** On the street tile a pixel is 0.00034 units wide, more than the
    tolerance of 0.0002, but half of it is less: the full geometry of
    the ward is loaded. *)
Lemma full_geometry_though_pixel_exceeds_tolerance :
  ~ simplified_iff_pixel_exceeds gazetteer street_request "wards" "".
Proof.
  intros Hclaim.
  destruct (Hclaim street_tile street_tile_of_request) as [_ Hloaded].
  assert (Hwide : (SIMPLE_SHAPE_TOLERANCE settings <? tile_pixel_width street_tile)%float
                  = true) by (vm_compute; reflexivity).
  specialize (Hloaded Hwide). vm_compute in Hloaded. discriminate.
Qed.

Lemma simplified_geometry_iff_half_pixel_exceeds_tolerance_witness :
  tile_of_request settings gazetteer street_request = Ok street_tile
  /\ (shape_field street_tile = "shape"
      <-> (SIMPLE_SHAPE_TOLERANCE settings <? tile_pixel_width street_tile / 2)%float
          = false)
  /\ query gazetteer street_tile "wards" ""
     = List.map (loaded_row settings street_tile) (on_tile gazetteer street_tile "wards" "")
  /\ List.map row_shape (query gazetteer street_tile "wards" "")
     = [Rect (-170) (-170) 170 170].
Proof.
  pose proof (simplified_geometry_iff_half_pixel_exceeds_tolerance settings gazetteer
                street_request street_tile "wards" "" street_tile_of_request)
    as (_ & Hfull & Hquery & _).
  split; [exact street_tile_of_request|]. split; [exact Hfull|].
  split; [exact Hquery|]. vm_compute. reflexivity.
Defined.

(** *** Shapes around the size of a pixel *)








(** *** A number that is no SRID *)

(** C6, at a request where the view departs from it.  The claim is
    that an invalid [srs] (like an invalid [size] or tile coordinate)
    is answered with a 404.  [srs=1] is a number, so it passes the
    parsing of lines 134 to 140, but the back end has no reference
    system 1: the lookup of line 146 raises [DoesNotExist], nothing
    catches it, and the client gets a server error.  The same happens
    before a bad [tile_x] is even looked at. *)
Theorem unknown_srid_is_a_server_error :
  boundaries_map_tiles settings atlas (request [("srs", "1")]) "wards" ""
  = Raise (DoesNotExist "SpatialRefSys")
  /\ http_status (boundaries_map_tiles settings atlas (request [("srs", "1")]) "wards" "")
     = 500%Z
  /\ http_status (boundaries_map_tiles settings atlas
                    (request [("srs", "1"); ("tile_x", "east")]) "wards" "")
     = 500%Z.
Proof. repeat split; vm_compute; reflexivity. Qed.

(** *** A label that leaves the tile *)

Example world_tile_surface :
  tile_surface settings atlas world_tile "wards" ""
  = Ok {| width := 256; height := 256;
          ops :=
            let outline_path :=
              List.map (viewport world_tile)
                [(-170, -170); (170, -170); (170, 170); (-170, 170); (-170, -170)]%float in
            [ Fill (Rgba 1 0 0 (60 / 255)) outline_path;
              Stroke (Rgba 0.3 0.3 0.3 0.75) 2.5 outline_path;
              Fill (Rgba 0 0 0 0.55) [(187, 109.5); (250, 109.5); (250, 131); (187, 131)]%float;
              Fill (Rgba 0 0 0 0.3) [(187, 109.5); (252, 109.5); (252, 133); (187, 133)]%float;
              ShowText (Rgba 1 1 1 1) 18 (191, 127)%float "  Ward 1" ] |}.
Proof. vm_compute. reflexivity. Qed.

(** C9, at a tile where the view departs from it.  The claim is that
    no label is drawn outside the pixel bounds of the tile.  On the
    world tile the label of the first ward passes the test of lines
    368 and 369 and is drawn, with the text shown at (191, 127).  Its
    two leading blanks put the first glyph 18 pixels to the right of
    that origin, and the 54 pixels of ink end at 263, beyond the 256
    pixels of the tile, while the plate and the shadow end at 250 and
    252. *)
Theorem label_text_leaves_the_tile :
  tile_of_request settings atlas (request []) = Ok world_tile
  /\ exists shading,
    tile_surface settings atlas world_tile "wards" ""
    = Ok {| width := 256; height := 256;
            ops := shading ++ label_drawing 18 (236, 127)%float
                                (text_extents "Sans" 18 "  Ward 1") "  Ward 1" |}
    /\ In (ShowText (Rgba 1 1 1 1) 18 (191, 127)%float "  Ward 1")
          (label_drawing 18 (236, 127)%float
             (text_extents "Sans" 18 "  Ward 1") "  Ward 1")
    /\ text_ink_box (191, 127)%float (text_extents "Sans" 18 "  Ward 1")
       = (209, 113.5, 263, 127)%float
    /\ (fsize world_tile <? 263)%float = true.
Proof.
  split; [vm_compute; reflexivity|].
  eexists. split; [|split; [|split]].
  - rewrite world_tile_surface. f_equal. f_equal.
    instantiate (1 := [ _; _ ]). vm_compute. reflexivity.
  - vm_compute. right. right. left. reflexivity.
  - vm_compute. reflexivity.
  - reflexivity.
Qed.

End Examples.
End TilesSpec.

(** * More about the overlap report *)

Module ReportProperties.
Import Intersections IntersectionsSpec.

Section Report.
Context {Geom : Type} `{Geos Geom}.
Variable db : Database Geom.

(** ** What does not depend on the format *)

Lemma run_without_first_set (options : Options) (slug_1 slug_2 : string)
    (more : list string) (e : exn) :
  BoundarySet_get db slug_1 = Raise e ->
  run db (slug_1 :: slug_2 :: more) options = (Raise e, initial).
Proof.
  intros Ha. unfold run, handle, bind at 1, lift at 1. rewrite Ha. reflexivity.
Qed.

Lemma run_without_second_set (options : Options) (slug_1 slug_2 : string)
    (more : list string) (bset_a : BoundarySet) (e : exn) :
  BoundarySet_get db slug_1 = Ok bset_a ->
  BoundarySet_get db slug_2 = Raise e ->
  run db (slug_1 :: slug_2 :: more) options = (Raise e, initial).
Proof.
  intros Ha Hb. unfold run, handle. unfold bind at 1, lift at 1. rewrite Ha.
  unfold bind at 1, lift at 1. rewrite Hb. reflexivity.
Qed.

(** X1.  How a run ends (normally, or with which exception) and what
    it writes to the error stream are the same in every format and
    with or without [--metadata]. *)
Theorem outcome_does_not_depend_on_format (args : list string) (o1 o2 : Options) :
  fst (run db args o1) = fst (run db args o2)
  /\ stderr (snd (run db args o1)) = stderr (snd (run db args o2)).
Proof.
  destruct args as [|slug_1 [|slug_2 more]]; [split; reflexivity | split; reflexivity |].
  destruct (BoundarySet_get db slug_1) as [bset_a|e] eqn:Ha.
  2:{ rewrite !(run_without_first_set _ slug_1 slug_2 more e Ha). split; reflexivity. }
  destruct (BoundarySet_get db slug_2) as [bset_b|e] eqn:Hb.
  2:{ rewrite !(run_without_second_set _ slug_1 slug_2 more bset_a e Ha Hb).
      split; reflexivity. }
  rewrite (run_events db o1 slug_1 slug_2 more bset_a bset_b Ha Hb).
  rewrite (run_events db o2 slug_1 slug_2 more bset_a bset_b Ha Hb).
  split; reflexivity.
Qed.

(** X2.  A JSON run that is given two set slugs prints nothing until
    its very end: when it ends normally standard output is the one
    JSON array, holding the records gathered in [output]; when an
    exception ends it, standard output is empty, whatever had been
    gathered.  A run that is given fewer than two slugs prints the one
    line that asks for them, and no array. *)
Theorem json_is_printed_at_the_end_or_never (args : list string) (with_md : bool) :
  let r := run db args (json_options with_md) in
  match args with
  | _ :: _ :: _ =>
      match fst r with
      | Ok _ => stdout (snd r) = [JsonDump (output (snd r))]
      | Raise _ => stdout (snd r) = []
      end
  | _ =>
      r = (Ok tt, {| stdout := [Text "Specify two boundaryset slugs."];
                     stderr := []; output := [] |})
  end.
Proof.
  cbv zeta. destruct args as [|slug_1 [|slug_2 more]]; [reflexivity|reflexivity|].
  destruct (BoundarySet_get db slug_1) as [bset_a|e] eqn:Ha.
  2:{ rewrite (run_without_first_set _ slug_1 slug_2 more e Ha). reflexivity. }
  destruct (BoundarySet_get db slug_2) as [bset_b|e] eqn:Hb.
  2:{ rewrite (run_without_second_set _ slug_1 slug_2 more bset_a e Ha Hb).
      reflexivity. }
  rewrite (run_events db (json_options with_md) slug_1 slug_2 more bset_a bset_b Ha Hb).
  simpl. destruct (snd (report_events db bset_a bset_b _)); reflexivity.
Qed.

(** X3.  A format that is neither [csv] nor [json] is not refused.
    With two set slugs the run goes through the pairs as a CSV run
    does: it ends the same way and writes the same lines to the error
    stream; but it writes nothing to standard output, not even a
    header, and gathers no record.  With fewer than two slugs it
    prints the line that asks for them, like any other run. *)
Theorem unknown_format_prints_nothing (options : Options) (args : list string) :
  format options <> "csv" -> format options <> "json" ->
  let r := run db args options in
  match args with
  | _ :: _ :: _ =>
      stdout (snd r) = [] /\ output (snd r) = []
      /\ fst r = fst (run db args (csv_options (include_metadata options)))
      /\ stderr (snd r)
         = stderr (snd (run db args (csv_options (include_metadata options))))
  | _ => stdout (snd r) = [Text "Specify two boundaryset slugs."]
  end.
Proof.
  intros Hcsv Hjson. apply String.eqb_neq in Hcsv, Hjson. cbv zeta.
  destruct args as [|slug_1 [|slug_2 more]]; [reflexivity|reflexivity|].
  destruct (BoundarySet_get db slug_1) as [bset_a|e] eqn:Ha.
  2:{ rewrite !(run_without_first_set _ slug_1 slug_2 more e Ha). repeat split. }
  destruct (BoundarySet_get db slug_2) as [bset_b|e] eqn:Hb.
  2:{ rewrite !(run_without_second_set _ slug_1 slug_2 more bset_a e Ha Hb).
      repeat split. }
  rewrite (run_events db options slug_1 slug_2 more bset_a bset_b Ha Hb).
  rewrite (run_events db (csv_options (include_metadata options)) slug_1 slug_2 more
             bset_a bset_b Ha Hb).
  simpl. rewrite Hcsv, Hjson. repeat split.
Qed.

(** ** Pairs that are reached *)

Lemma pair_events_verdict (a_slug : string) (a_bdry : Boundary Geom) (a_area : float)
    (bs : list (Boundary Geom)) (b_bdry : Boundary Geom) :
  snd (pair_events a_slug a_bdry a_area bs) = None ->
  In b_bdry bs ->
  match verdict a_slug a_bdry a_area b_bdry with
  | Emitted int_area pct_a pct_b =>
      In (Overlap a_slug a_bdry a_area b_bdry int_area pct_a pct_b)
         (fst (pair_events a_slug a_bdry a_area bs))
  | Logged msg => In (Failure msg) (fst (pair_events a_slug a_bdry a_area bs))
  | Failed _ => False
  | Skipped => True
  end.
Proof.
  intros Hdone Hin. induction bs as [|b bs IH]; [destruct Hin|].
  simpl in Hdone |- *. destruct Hin as [->|Hin].
  - destruct (verdict a_slug a_bdry a_area b_bdry); simpl in *;
      try discriminate; auto.
  - destruct (verdict a_slug a_bdry a_area b) eqn:Eb; simpl in *;
      try discriminate;
      specialize (IH Hdone Hin);
      destruct (verdict a_slug a_bdry a_area b_bdry); auto.
Qed.

(** In a run that ends normally the inner loop body has been run on
    every candidate pair. *)
Lemma candidate_is_reached (options : Options) (slug_1 slug_2 : string)
    (more : list string) (a_bdry b_bdry : Boundary Geom) :
  fst (run db (slug_1 :: slug_2 :: more) options) = Ok tt ->
  candidates db slug_1 slug_2 a_bdry b_bdry ->
  exists bset_a bset_b,
    BoundarySet_get db slug_1 = Ok bset_a
    /\ BoundarySet_get db slug_2 = Ok bset_b
    /\ snd (report_events db bset_a bset_b (slugs_in_order (boundaries db bset_a))) = None
    /\ snd (pair_events (slug a_bdry) a_bdry (area (shape a_bdry))
              (intersecting db bset_b a_bdry)) = None
    /\ In b_bdry (intersecting db bset_b a_bdry)
    /\ incl (fst (pair_events (slug a_bdry) a_bdry (area (shape a_bdry))
                    (intersecting db bset_b a_bdry)))
            (fst (report_events db bset_a bset_b (slugs_in_order (boundaries db bset_a)))).
Proof.
  intros Hdone (Ha_in & Ha_set & Hb_in & Hb_set & Hint).
  destruct (BoundarySet_get db slug_1) as [bset_a|e] eqn:Ha.
  2:{ rewrite (run_without_first_set _ slug_1 slug_2 more e Ha) in Hdone. discriminate. }
  destruct (BoundarySet_get db slug_2) as [bset_b|e] eqn:Hb.
  2:{ rewrite (run_without_second_set _ slug_1 slug_2 more bset_a e Ha Hb) in Hdone.
      discriminate. }
  exists bset_a, bset_b. split; [reflexivity|]. split; [reflexivity|].
  rewrite (run_events db options slug_1 slug_2 more bset_a bset_b Ha Hb) in Hdone.
  apply BoundarySet_get_ok in Ha, Hb.
  rewrite <- Ha in Ha_set. rewrite <- Hb in Hb_set.
  simpl in Hdone.
  set (slugs := slugs_in_order (boundaries db bset_a)) in *.
  assert (Hcrash : snd (report_events db bset_a bset_b slugs) = None).
  { destruct (snd (report_events db bset_a bset_b slugs)); [discriminate|reflexivity]. }
  split; [exact Hcrash|].
  assert (Ha_qs : In a_bdry (boundaries db bset_a)).
  { unfold boundaries. apply filter_In. split; [exact Ha_in|].
    apply String.eqb_eq. exact Ha_set. }
  assert (Hslug : In (slug a_bdry) slugs).
  { apply in_slugs_in_order, in_map, Ha_qs. }
  destruct (report_events_done db bset_a bset_b slugs (slug a_bdry) Hcrash Hslug)
    as [Hnone Hincl].
  unfold boundary_events in Hnone, Hincl.
  destruct (boundaries_get (boundaries db bset_a) (slug a_bdry)) as [a'|e] eqn:Hget;
    [|discriminate].
  assert (a' = a_bdry) as ->.
  { unfold boundaries_get in Hget. apply get_one_ok in Hget.
    assert (Hin : In a_bdry (List.filter (fun b => String.eqb (slug b) (slug a_bdry))
                                         (boundaries db bset_a))).
    { apply filter_In. split; [exact Ha_qs | apply String.eqb_refl]. }
    rewrite Hget in Hin. destruct Hin as [Heq|[]]. exact Heq. }
  split; [exact Hnone|]. split; [|exact Hincl].
  unfold intersecting, boundaries. apply filter_In. split; [|exact Hint].
  apply filter_In. split; [exact Hb_in|]. apply String.eqb_eq. exact Hb_set.
Qed.

Lemma passes_filter_verdict (a_bdry b_bdry : Boundary Geom) (int_area pct_a pct_b : float) :
  passes_filter a_bdry b_bdry int_area pct_a pct_b ->
  match verdict (slug a_bdry) a_bdry (area (shape a_bdry)) b_bdry with
  | Emitted i p q => i = int_area /\ p = pct_a /\ q = pct_b
  | Failed _ => True
  | _ => False
  end.
Proof.
  intros (g & Hg & Hempty & -> & -> & -> & Hpa & Hpb).
  unfold verdict. rewrite Hg, Hempty.
  destruct (py_div (area g) (area (shape a_bdry))) as [p|e] eqn:Ea; [|exact I].
  apply py_div_ok in Ea as ->. rewrite Hpa.
  destruct (py_div (area g) (area (shape b_bdry))) as [q|e] eqn:Eb; [|exact I].
  apply py_div_ok in Eb as ->. rewrite Hpb. auto.
Qed.

(** X4.  Nothing that passes the filter is lost.  In a run that ends
    normally, every candidate pair (a boundary of the first set and a
    boundary of the second that the database reports as intersecting
    it) whose intersection is not empty and whose two ratios are not
    below 0.001 has its CSV row, and its record in the JSON array. *)
Theorem passing_pair_is_written (slug_1 slug_2 : string) (more : list string)
    (with_md : bool) (a_bdry b_bdry : Boundary Geom) (int_area pct_a pct_b : float) :
  fst (run db (slug_1 :: slug_2 :: more) (csv_options with_md)) = Ok tt ->
  candidates db slug_1 slug_2 a_bdry b_bdry ->
  passes_filter a_bdry b_bdry int_area pct_a pct_b ->
  In (CsvRow (slug a_bdry) (area (shape a_bdry)) (slug b_bdry) (area (shape b_bdry))
             int_area pct_a pct_b)
     (stdout (snd (run db (slug_1 :: slug_2 :: more) (csv_options with_md))))
  /\ exists recs,
       stdout (snd (run db (slug_1 :: slug_2 :: more) (json_options with_md)))
       = [JsonDump recs]
       /\ In (json_record slug_1 slug_2 with_md (slug a_bdry) a_bdry (area (shape a_bdry))
                b_bdry int_area pct_a pct_b) recs.
Proof.
  intros Hdone Hcand Hpass.
  destruct (candidate_is_reached _ slug_1 slug_2 more a_bdry b_bdry Hdone Hcand)
    as (bset_a & bset_b & Ha & Hb & Hcrash & Hnone & Hin & Hincl).
  pose proof (pair_events_verdict (slug a_bdry) a_bdry (area (shape a_bdry))
                (intersecting db bset_b a_bdry) b_bdry Hnone Hin) as Hverdict.
  pose proof (passes_filter_verdict a_bdry b_bdry int_area pct_a pct_b Hpass) as Hemit.
  destruct (verdict (slug a_bdry) a_bdry (area (shape a_bdry)) b_bdry)
    as [msg| |e|i p q]; try contradiction.
  destruct Hemit as (-> & -> & ->). apply Hincl in Hverdict.
  rewrite (run_events db (csv_options with_md) slug_1 slug_2 more bset_a bset_b Ha Hb).
  rewrite (run_events db (json_options with_md) slug_1 slug_2 more bset_a bset_b Ha Hb).
  apply BoundarySet_get_ok in Ha, Hb. subst slug_1 slug_2.
  simpl. rewrite Hcrash. split.
  - right. unfold rows. apply in_flat_map. eexists. split; [exact Hverdict|].
    left. reflexivity.
  - eexists. split; [reflexivity|]. unfold records. apply in_flat_map.
    eexists. split; [exact Hverdict|]. left. reflexivity.
Qed.

(** X5.  A degenerate boundary stops the report.  If a boundary of the
    first set has area zero and its intersection with some candidate
    of the second set is not empty, the division of line 57 raises and
    no run over the two sets ends normally, in any format. *)
Theorem zero_area_boundary_aborts_the_run (options : Options) (slug_1 slug_2 : string)
    (more : list string) (a_bdry b_bdry : Boundary Geom) (geometry : Geom) :
  candidates db slug_1 slug_2 a_bdry b_bdry ->
  intersection (shape a_bdry) (shape b_bdry) = inr geometry ->
  empty geometry = false ->
  PrimFloat.eqb (area (shape a_bdry)) 0 = true ->
  exists e, fst (run db (slug_1 :: slug_2 :: more) options) = Raise e.
Proof.
  intros Hcand Hg Hempty Hzero.
  destruct (fst (run db (slug_1 :: slug_2 :: more) options)) as [[]|e] eqn:Hdone;
    [|eauto].
  exfalso.
  destruct (candidate_is_reached _ slug_1 slug_2 more a_bdry b_bdry Hdone Hcand)
    as (bset_a & bset_b & Ha & Hb & Hcrash & Hnone & Hin & Hincl).
  pose proof (pair_events_verdict (slug a_bdry) a_bdry (area (shape a_bdry))
                (intersecting db bset_b a_bdry) b_bdry Hnone Hin) as Hverdict.
  unfold verdict in Hverdict. rewrite Hg, Hempty in Hverdict.
  unfold py_div in Hverdict. rewrite Hzero in Hverdict. exact Hverdict.
Qed.

(** ** The order of the rows *)

Lemma insert_slug_sorted (s : string) (l : list string) :
  StronglySorted String.le l -> StronglySorted String.le (insert_slug s l).
Proof.
  induction 1 as [|t l Hl IH Ht]; simpl.
  - repeat constructor.
  - destruct (String.leb s t) eqn:Est.
    + constructor; [constructor; assumption|].
      assert (Hst : String.le s t) by (unfold String.le; rewrite Est; exact I).
      constructor; [exact Hst|].
      eapply List.Forall_impl; [|exact Ht]. intros x Hx. now transitivity t.
    + constructor; [exact IH|].
      assert (Hts : String.le t s).
      { destruct (String.le_total t s) as [Hts|Hst]; [exact Hts|].
        unfold String.le in Hst. rewrite Est in Hst. destruct Hst. }
      apply List.Forall_forall. intros x Hx.
      apply in_insert_slug in Hx as [->|Hx]; [exact Hts|].
      rewrite List.Forall_forall in Ht. now apply Ht.
Qed.

Lemma slugs_in_order_sorted (qs : list (Boundary Geom)) :
  StronglySorted String.le (slugs_in_order qs).
Proof.
  unfold slugs_in_order. induction qs as [|b qs IH]; simpl; [constructor|].
  now apply insert_slug_sorted.
Qed.

Lemma event_pairs_app (evs1 evs2 : list (@Event Geom)) :
  event_pairs (evs1 ++ evs2) = event_pairs evs1 ++ event_pairs evs2.
Proof. unfold event_pairs. apply flat_map_app. Qed.

Lemma pair_events_a_slug (a_slug : string) (a_bdry : Boundary Geom) (a_area : float)
    (bs : list (Boundary Geom)) :
  Forall (fun x => x = a_slug)
         (List.map fst (event_pairs (fst (pair_events a_slug a_bdry a_area bs)))).
Proof.
  induction bs as [|b bs IH]; simpl; [constructor|].
  destruct (verdict a_slug a_bdry a_area b); simpl; auto.
Qed.

Lemma boundary_events_a_slug (bset_a bset_b : BoundarySet) (a_slug : string) :
  Forall (fun x => x = a_slug)
         (List.map fst (event_pairs (fst (boundary_events db bset_a bset_b a_slug)))).
Proof.
  unfold boundary_events.
  destruct (boundaries_get (boundaries db bset_a) a_slug); [|constructor].
  apply pair_events_a_slug.
Qed.

Lemma constant_list_sorted (s : string) (l : list string) :
  Forall (fun x => x = s) l -> StronglySorted String.le l.
Proof.
  induction 1 as [|x l -> Hl IH]; constructor; [exact IH|].
  eapply List.Forall_impl; [|exact Hl]. intros y ->. reflexivity.
Qed.

Lemma report_events_sorted (bset_a bset_b : BoundarySet) (slugs : list string) :
  StronglySorted String.le slugs ->
  StronglySorted String.le
    (List.map fst (event_pairs (fst (report_events db bset_a bset_b slugs))))
  /\ Forall (fun x => In x slugs)
            (List.map fst (event_pairs (fst (report_events db bset_a bset_b slugs)))).
Proof.
  induction 1 as [|s slugs Hslugs IH Hs]; simpl; [split; constructor|].
  pose proof (boundary_events_a_slug bset_a bset_b s) as Hhere.
  destruct (boundary_events db bset_a bset_b s) as [evs [e|]]; simpl in *.
  - split; [now apply (constant_list_sorted s)|].
    eapply List.Forall_impl; [|exact Hhere]. intros x ->. left. reflexivity.
  - destruct IH as [IHsorted IHin].
    rewrite event_pairs_app, map_app. split.
    + apply StronglySorted_app. split; [|split].
      * intros x1 x2 Hx1 Hx2. apply list_elem_of_In in Hx1, Hx2.
        rewrite List.Forall_forall in Hhere, IHin, Hs.
        rewrite (Hhere x1 Hx1). apply Hs, IHin, Hx2.
      * now apply (constant_list_sorted s).
      * exact IHsorted.
    + apply Forall_app. split.
      * eapply List.Forall_impl; [|exact Hhere]. intros x ->. left. reflexivity.
      * eapply List.Forall_impl; [|exact IHin]. intros x Hx. right. exact Hx.
Qed.

(** X6.  The rows of a CSV report come in ascending order of the slug
    of the first boundary (the first column), whether the run ends
    normally or not. *)
Theorem csv_rows_are_in_slug_order (args : list string) (with_md : bool) :
  StronglySorted String.le
    (List.map fst (csv_pairs (stdout (snd (run db args (csv_options with_md)))))).
Proof.
  destruct args as [|slug_1 [|slug_2 more]]; try constructor.
  destruct (BoundarySet_get db slug_1) as [bset_a|e] eqn:Ha.
  2:{ rewrite (run_without_first_set _ slug_1 slug_2 more e Ha). constructor. }
  destruct (BoundarySet_get db slug_2) as [bset_b|e] eqn:Hb.
  2:{ rewrite (run_without_second_set _ slug_1 slug_2 more bset_a e Ha Hb). constructor. }
  rewrite (run_events db (csv_options with_md) slug_1 slug_2 more bset_a bset_b Ha Hb).
  simpl. rewrite csv_pairs_rows.
  apply report_events_sorted, slugs_in_order_sorted.
Qed.

(** ** The keys of a record *)

Definition every_record (P : gmap string JVal -> Prop) (l : Line) : Prop :=
  match l with
  | JsonDump recs => Forall P recs
  | _ => True
  end.

Lemma every_record_of_sound (P : gmap string JVal -> Prop) (args : list string)
    (options : Options) :
  (forall r, sound_record db (nth 0 args "") (nth 1 args "") (include_metadata options) r
             -> P r) ->
  Forall (every_record P) (stdout (snd (run db args options))).
Proof.
  intros HP.
  destruct (stdout_shape db args options) as (evs & Hgen & Hout).
  cbv zeta in Hout. destruct Hout as [-> | [-> | [-> | ->]]].
  - constructor.
  - repeat constructor.
  - constructor; [exact I|]. apply List.Forall_forall. intros l Hl.
    unfold rows in Hl. apply in_flat_map in Hl as (ev & _ & Hl).
    destruct ev; simpl in Hl; [destruct Hl as [<-|[]]; exact I | destruct Hl].
  - constructor; [|constructor]. simpl.
    eapply List.Forall_impl; [exact HP|]. now apply records_sound.
Qed.

(** A record with its three entries: the area of the intersection
    of a candidate pair that passed the filter and, under the slugs
    of the two sets, the dictionaries of the two boundaries. *)
Definition three_entries (set_a set_b : string) (with_md : bool)
    (r : gmap string JVal) : Prop :=
  exists a_bdry b_bdry int_area,
    candidates db set_a set_b a_bdry b_bdry
    /\ passes_filter a_bdry b_bdry int_area
         (int_area / area (shape a_bdry))%float (int_area / area (shape b_bdry))%float
    /\ r !! "area" = Some (JNumber int_area)
    /\ r !! set_a = Some (JObject (side_of a_bdry (slug a_bdry) (area (shape a_bdry))
                                     (int_area / area (shape a_bdry))%float with_md))
    /\ r !! set_b = Some (JObject (side_of b_bdry (slug b_bdry) (area (shape b_bdry))
                                     (int_area / area (shape b_bdry))%float with_md))
    /\ dom r = {[ "area"; set_a; set_b ]}.

(** X7.  When the slugs of the two sets differ from each other and
    from ["area"], every record of the JSON array has exactly three
    keys: ["area"] with the area of the intersection of two
    boundaries, one of each set, that passed the filter, and the two
    set slugs, each with the dictionary of its own boundary, which
    carries the boundary's metadata exactly when [--metadata] is
    given. *)
Theorem record_has_three_entries (slug_1 slug_2 : string) (more : list string)
    (with_md : bool) :
  slug_1 <> slug_2 -> slug_1 <> "area" -> slug_2 <> "area" ->
  Forall (every_record (three_entries slug_1 slug_2 with_md))
         (stdout (snd (run db (slug_1 :: slug_2 :: more) (json_options with_md)))).
Proof.
  intros Hne Ha Hb.
  apply (every_record_of_sound _ (slug_1 :: slug_2 :: more) (json_options with_md)).
  simpl. intros r (a_bdry & b_bdry & int_area & Hcand & Hpass & ->).
  exists a_bdry, b_bdry, int_area. split; [exact Hcand|]. split; [exact Hpass|].
  unfold json_record. split; [|split; [|split]].
  - rewrite !lookup_insert_ne by congruence. apply lookup_insert_eq.
  - rewrite lookup_insert_ne by congruence. apply lookup_insert_eq.
  - apply lookup_insert_eq.
  - rewrite !dom_insert_L, dom_empty_L. apply set_eq. intros key.
    rewrite !elem_of_union, !elem_of_singleton, elem_of_empty. tauto.
Qed.

(** X8.  A set whose slug is ["area"] takes the place of the number:
    in every record the key ["area"] then holds the dictionary of a
    boundary, and the area of the intersection is not in the record
    under any key. *)
Theorem set_called_area_hides_the_area (slug_1 slug_2 : string) (more : list string)
    (with_md : bool) :
  slug_1 = "area" \/ slug_2 = "area" ->
  Forall (every_record
            (fun r => (exists side, r !! "area" = Some (JObject side))
                      /\ forall key x, r !! key <> Some (JNumber x)))
         (stdout (snd (run db (slug_1 :: slug_2 :: more) (json_options with_md)))).
Proof.
  intros Harea.
  apply (every_record_of_sound _ (slug_1 :: slug_2 :: more) (json_options with_md)).
  simpl. intros r (a_bdry & b_bdry & int_area & _ & _ & ->).
  unfold json_record. split.
  - destruct (decide (slug_2 = "area")) as [->|Hb].
    + eexists. apply lookup_insert_eq.
    + destruct Harea as [->|]; [|contradiction].
      rewrite lookup_insert_ne by congruence. eexists. apply lookup_insert_eq.
  - intros key x.
    destruct (decide (slug_2 = key)) as [->|Hkb];
      [rewrite lookup_insert_eq; discriminate|].
    rewrite lookup_insert_ne by assumption.
    destruct (decide (slug_1 = key)) as [->|Hka];
      [rewrite lookup_insert_eq; discriminate|].
    rewrite lookup_insert_ne by assumption.
    destruct (decide ("area" = key)) as [<-|Hk].
    + destruct Harea; congruence.
    + rewrite lookup_insert_ne by assumption. rewrite lookup_empty. discriminate.
Qed.

(** ** The error stream *)

(** The line was written for a candidate pair whose intersection
    raised. *)
Definition reports_a_failure (set_a set_b : string) (msg : string) : Prop :=
  exists a_bdry b_bdry e,
    candidates db set_a set_b a_bdry b_bdry
    /\ intersection (shape a_bdry) (shape b_bdry) = inl e
    /\ msg = slug a_bdry +:+ "/" +:+ slug b_bdry +:+ ": " +:+ e +:+ newline.

Lemma pair_events_failures (set_a set_b : string) (a_bdry : Boundary Geom)
    (bs : list (Boundary Geom)) :
  Forall (fun b => candidates db set_a set_b a_bdry b) bs ->
  Forall (reports_a_failure set_a set_b)
         (failures (fst (pair_events (slug a_bdry) a_bdry (area (shape a_bdry)) bs))).
Proof.
  induction 1 as [|b bs Hb _ IH]; simpl; [constructor|].
  unfold verdict.
  destruct (intersection (shape a_bdry) (shape b)) as [e|g] eqn:Eint; simpl.
  - constructor; [|exact IH]. exists a_bdry, b, e. auto.
  - destruct (empty g); [exact IH|].
    destruct (py_div (area g) (area (shape a_bdry))) as [p|e]; [|constructor].
    destruct (p <? 0.001)%float; [exact IH|].
    destruct (py_div (area g) (area (shape b))) as [q|e]; [|constructor].
    destruct (q <? 0.001)%float; [exact IH|]. exact IH.
Qed.

Lemma failures_app (evs1 evs2 : list (@Event Geom)) :
  failures (evs1 ++ evs2) = failures evs1 ++ failures evs2.
Proof. unfold failures. apply flat_map_app. Qed.

Lemma report_events_failures (bset_a bset_b : BoundarySet) (slugs : list string) :
  Forall (reports_a_failure (bs_slug bset_a) (bs_slug bset_b))
         (failures (fst (report_events db bset_a bset_b slugs))).
Proof.
  induction slugs as [|a_slug slugs IH]; simpl; [constructor|].
  assert (Hhere : Forall (reports_a_failure (bs_slug bset_a) (bs_slug bset_b))
                    (failures (fst (boundary_events db bset_a bset_b a_slug)))).
  { unfold boundary_events.
    destruct (boundaries_get (boundaries db bset_a) a_slug) as [a_bdry|e] eqn:Hget;
      [|constructor].
    apply boundaries_get_ok in Hget as (Hin & Hset & <-).
    apply pair_events_failures.
    apply List.Forall_forall. intros b Hb. unfold intersecting, boundaries in Hb.
    apply filter_In in Hb as [Hb Hint]. apply filter_In in Hb as [Hb Hbset].
    apply String.eqb_eq in Hbset. unfold candidates. auto. }
  destruct (boundary_events db bset_a bset_b a_slug) as [evs [e|]]; simpl in *.
  - exact Hhere.
  - rewrite failures_app. apply Forall_app. split; assumption.
Qed.

(** X9.  The error stream holds nothing else: every line on it, in
    any run, names a boundary of the first set and a candidate of the
    second whose intersection raised, with the message of the
    exception. *)
Theorem error_stream_only_reports_failures (args : list string) (options : Options) :
  Forall (reports_a_failure (nth 0 args "") (nth 1 args ""))
         (stderr (snd (run db args options))).
Proof.
  destruct args as [|slug_1 [|slug_2 more]]; try constructor.
  destruct (BoundarySet_get db slug_1) as [bset_a|e] eqn:Ha.
  2:{ rewrite (run_without_first_set _ slug_1 slug_2 more e Ha). constructor. }
  destruct (BoundarySet_get db slug_2) as [bset_b|e] eqn:Hb.
  2:{ rewrite (run_without_second_set _ slug_1 slug_2 more bset_a e Ha Hb). constructor. }
  rewrite (run_events db options slug_1 slug_2 more bset_a bset_b Ha Hb).
  apply BoundarySet_get_ok in Ha, Hb. subst slug_1 slug_2. simpl.
  apply report_events_failures.
Qed.

End Report.

(** ** On small databases *)

Section Examples.
Import Flatland.

Definition xml_options : Options := {| format := "xml"; include_metadata := false |}.

(** The XML run over [city] meets the malformed district like the
    CSV run and prints nothing. *)
Lemma unknown_format_prints_nothing_witness :
  format xml_options <> "csv" /\ format xml_options <> "json"
  /\ stdout (snd (run city ["wards"; "districts"] xml_options)) = []
  /\ output (snd (run city ["wards"; "districts"] xml_options)) = []
  /\ fst (run city ["wards"; "districts"] xml_options) = Ok tt
  /\ stderr (snd (run city ["wards"; "districts"] xml_options))
     = [ "w1/d3: TopologyException: side location conflict" +:+ newline ].
Proof.
  assert (Hcsv : format xml_options <> "csv") by discriminate.
  assert (Hjson : format xml_options <> "json") by discriminate.
  split; [exact Hcsv|]. split; [exact Hjson|].
  destruct (unknown_format_prints_nothing city xml_options ["wards"; "districts"]
              Hcsv Hjson) as (Hout & Hrecs & Hend & Herr).
  split; [exact Hout|]. split; [exact Hrecs|].
  change (csv_options (include_metadata xml_options)) with (csv_options false)
    in Hend, Herr.
  rewrite city_csv in Hend, Herr. split; [exact Hend | exact Herr].
Defined.

Definition w1 : Boundary Shape := boundary "wards" "w1" "Ward 1" (Rect 0 0 1 1).
Definition d2 : Boundary Shape := boundary "districts" "d2" "District 2" (Rect 0.5 0 2 1).

Lemma passing_pair_is_written_witness :
  fst (run city ["wards"; "districts"] (csv_options false)) = Ok tt
  /\ candidates city "wards" "districts" w1 d2
  /\ passes_filter w1 d2 0.5 0.5 (0.5 / 1.5)
  /\ In (CsvRow "w1" 1 "d2" 1.5 0.5 0.5 (0.5 / 1.5))
        (stdout (snd (run city ["wards"; "districts"] (csv_options false)))).
Proof.
  assert (Hdone : fst (run city ["wards"; "districts"] (csv_options false)) = Ok tt)
    by (vm_compute; reflexivity).
  assert (Hcand : candidates city "wards" "districts" w1 d2).
  { unfold candidates. simpl. repeat split; try tauto; vm_compute; reflexivity. }
  assert (Hpass : passes_filter w1 d2 0.5 0.5 (0.5 / 1.5)).
  { exists (Rect 0.5 0 1 1). repeat split; vm_compute; reflexivity. }
  split; [exact Hdone|]. split; [exact Hcand|]. split; [exact Hpass|].
  exact (proj1 (passing_pair_is_written city "wards" "districts" [] false w1 d2
                  0.5 0.5 (0.5 / 1.5) Hdone Hcand Hpass)).
Defined.

(** A ward that has collapsed to a segment, on the edge of a district. *)
Definition collapsed : Database Shape :=
  {| boundary_sets := [ {| bs_slug := "wards"; bs_name := "Wards" |};
                        {| bs_slug := "districts"; bs_name := "Districts" |} ];
     all_boundaries := [ boundary "wards" "w0" "Ward 0" (Rect 0 0 0 1);
                         boundary "districts" "d1" "District 1" (Rect 0 0 1 1) ];
     spatial_ref_sys := [4326]%Z |}.

Lemma zero_area_boundary_aborts_the_run_witness :
  candidates collapsed "wards" "districts"
    (boundary "wards" "w0" "Ward 0" (Rect 0 0 0 1))
    (boundary "districts" "d1" "District 1" (Rect 0 0 1 1))
  /\ exists e, fst (run collapsed ["wards"; "districts"] (csv_options false)) = Raise e.
Proof.
  assert (Hcand : candidates collapsed "wards" "districts"
                    (boundary "wards" "w0" "Ward 0" (Rect 0 0 0 1))
                    (boundary "districts" "d1" "District 1" (Rect 0 0 1 1))).
  { unfold candidates. simpl. repeat split; try tauto; vm_compute; reflexivity. }
  split; [exact Hcand|].
  refine (zero_area_boundary_aborts_the_run collapsed (csv_options false)
            "wards" "districts" [] _ _ (Rect 0 0 0 1) Hcand _ _ _);
    vm_compute; reflexivity.
Defined.

Lemma record_has_three_entries_witness :
  "wards" <> "districts" /\ "wards" <> "area" /\ "districts" <> "area"
  /\ Forall (every_record (three_entries city "wards" "districts" true))
            (stdout (snd (run city ["wards"; "districts"] (json_options true)))).
Proof.
  assert (H1 : "wards" <> "districts") by discriminate.
  assert (H2 : "wards" <> "area") by discriminate.
  assert (H3 : "districts" <> "area") by discriminate.
  split; [exact H1|]. split; [exact H2|]. split; [exact H3|].
  exact (record_has_three_entries city "wards" "districts" [] true H1 H2 H3).
Defined.

(** A boundary set that someone has called ["area"]. *)
Definition surveyed : Database Shape :=
  {| boundary_sets := [ {| bs_slug := "area"; bs_name := "Areas" |};
                        {| bs_slug := "wards"; bs_name := "Wards" |} ];
     all_boundaries := [ boundary "area" "a1" "Area 1" (Rect 0 0 2 2);
                         boundary "wards" "w1" "Ward 1" (Rect 0 0 1 1) ];
     spatial_ref_sys := [4326]%Z |}.

Example surveyed_json :
  stdout (snd (run surveyed ["area"; "wards"] (json_options false)))
  = [ JsonDump
        [ <["wards" := JObject (side_of (boundary "wards" "w1" "Ward 1" (Rect 0 0 1 1))
                                  "w1" 1 1 false)]>
            (<["area" := JObject (side_of (boundary "area" "a1" "Area 1" (Rect 0 0 2 2))
                                    "a1" 4 0.25 false)]> ∅) ] ].
Proof. vm_compute. reflexivity. Qed.

Lemma set_called_area_hides_the_area_witness :
  ("area" = "area" \/ "wards" = "area")
  /\ Forall (every_record
               (fun r => (exists side, r !! "area" = Some (JObject side))
                         /\ forall key x, r !! key <> Some (JNumber x)))
            (stdout (snd (run surveyed ["area"; "wards"] (json_options false)))).
Proof.
  assert (Harea : "area" = "area" \/ "wards" = "area") by (left; reflexivity).
  split; [exact Harea|].
  exact (set_called_area_hides_the_area surveyed "area" "wards" [] false Harea).
Defined.

End Examples.
End ReportProperties.

(** * More about the map tile view *)

Module TileProperties.
Import Tiles TilesSpec.

Section View.
Context {Geom : Type} {gis : Gis Geom} {cairo : Cairo} {builtins : Builtins}
        {evaluator : PyEval}.
Variable settings : Settings.
Variable db : Database Geom.

(** ** Parameters that are left out *)

(** The five query parameters the view reads, each with the value it
    takes when the request does not have it. *)
Definition defaults : list (string * string) :=
  [("size", "256"); ("srs", "3857"); ("tile_x", "0"); ("tile_y", "0"); ("tile_zoom", "0")].

Lemma GET_get_insert_default (GET : gmap string string) (key default k d : string) :
  In (key, default) defaults -> In (k, d) defaults ->
  GET !! key = None ->
  GET_get (<[key := default]> GET) k d = GET_get GET k d.
Proof.
  intros Hkey Hk Hnone. unfold GET_get.
  destruct (decide (key = k)) as [<-|Hne].
  - rewrite lookup_insert_eq, Hnone.
    unfold defaults in Hkey, Hk. simpl in Hkey, Hk.
    repeat (destruct Hkey as [Hkey|Hkey]; [injection Hkey as <- <-|]);
      try destruct Hkey;
      repeat (destruct Hk as [Hk|Hk]; [try discriminate Hk; injection Hk as <-|]);
      try destruct Hk; reflexivity.
  - rewrite lookup_insert_ne by assumption. reflexivity.
Qed.

(** X10.  A parameter the request leaves out behaves exactly like the
    same parameter sent with its default value: 256 for [size], 3857
    for [srs], and 0 for [tile_x], [tile_y] and [tile_zoom]. *)
Theorem missing_parameter_takes_its_default (GET : gmap string string)
    (set_slug boundary_slug key default : string) :
  In (key, default) defaults ->
  GET !! key = None ->
  boundaries_map_tiles settings db (<[key := default]> GET) set_slug boundary_slug
  = boundaries_map_tiles settings db GET set_slug boundary_slug.
Proof.
  intros Hkey Hnone.
  assert (Hget : forall k d, In (k, d) defaults ->
                   GET_get (<[key := default]> GET) k d = GET_get GET k d).
  { intros k d Hk. now apply GET_get_insert_default. }
  unfold boundaries_map_tiles, tile_of_request,
    load_basic_parameters, load_tile_parameters.
  rewrite (Hget "size" "256"), (Hget "srs" "3857"), (Hget "tile_x" "0"),
    (Hget "tile_y" "0"), (Hget "tile_zoom" "0")
    by (unfold defaults; simpl; tauto).
  reflexivity.
Qed.

(** ** Where exceptions come from *)

Lemma get_one_raises {A} (model : string) (rows : list A) (e : exn) :
  get_one model rows = Raise e ->
  e = DoesNotExist model \/ e = MultipleObjectsReturned model.
Proof. destruct rows as [|x [|y rows]]; simpl; intros [= <-]; auto. Qed.

Lemma float_of_int_raises (n : Z) (e : exn) :
  float_of_int n = Raise e -> e = OverflowError.
Proof.
  unfold float_of_int.
  destruct (PrimFloat.eqb (PrimFloat.abs (nearest_float n)) infinity); congruence.
Qed.

Lemma math_pow_2_raises (n : Z) (e : exn) :
  math_pow_2 n = Raise e -> e = OverflowError.
Proof.
  unfold math_pow_2. destruct (float_of_int n) as [f|e'] eqn:E; simpl.
  - destruct (1024 <=? n)%Z; congruence.
  - intros [= <-]. now apply float_of_int_raises in E.
Qed.

Lemma py_div_raises (x y : float) (e : exn) :
  py_div x y = Raise e -> e = ZeroDivisionError.
Proof. unfold py_div. destruct (PrimFloat.eqb y 0); congruence. Qed.

Lemma geos_raises {A} (r : string + A) (e : exn) :
  geos r = Raise e -> exists msg, e = GEOSException msg.
Proof. destruct r as [msg|a]; simpl; intros [= <-]. eauto. Qed.

Lemma gdal_raises {A} (r : string + A) (e : exn) :
  gdal r = Raise e -> exists msg, e = GDALException msg.
Proof. destruct r as [msg|a]; simpl; intros [= <-]. eauto. Qed.

Lemma int_or_404_raises (s : string) (e : exn) :
  int_or_404 s = Raise e -> Py.int s = None /\ e = Http404 "Invalid parameter.".
Proof. unfold int_or_404. destruct (Py.int s); [discriminate|]. intros [= <-]. auto. Qed.

(** One of the five parameters is not acceptable. *)
Definition bad_parameter (GET : gmap string string) : Prop :=
  Py.int (GET_get GET "size" "256") = None
  \/ (exists n, Py.int (GET_get GET "size" "256") = Some n
                /\ n <> 256 /\ n <> 512 /\ n <> 1024)%Z
  \/ Py.int (GET_get GET "srs" "3857") = None
  \/ Py.int (GET_get GET "tile_x" "0") = None
  \/ Py.int (GET_get GET "tile_y" "0") = None
  \/ Py.int (GET_get GET "tile_zoom" "0") = None.

Lemma load_basic_parameters_raises (GET : gmap string string) (e : exn) :
  load_basic_parameters GET = Raise e ->
  e = Http404 "Invalid parameter." /\ bad_parameter GET.
Proof.
  unfold load_basic_parameters, bad_parameter.
  destruct (int_or_404 (GET_get GET "size" "256")) as [n|e'] eqn:Esize; simpl.
  2:{ intros [= <-]. apply int_or_404_raises in Esize as [Hnone ->]. auto. }
  unfold int_or_404 in Esize.
  destruct (Py.int (GET_get GET "size" "256")) as [n'|] eqn:En; [|discriminate].
  injection Esize as ->.
  destruct (Z.eqb n 256 || Z.eqb n 512 || Z.eqb n 1024) eqn:Eallowed; simpl.
  - destruct (int_or_404 (GET_get GET "srs" "3857")) as [m|e'] eqn:Esrs; simpl;
      [discriminate|].
    intros [= <-]. apply int_or_404_raises in Esrs as [Hnone ->]. auto.
  - intros [= <-]. split; [reflexivity|]. right. left. exists n.
    apply orb_false_iff in Eallowed as [Eallowed E1024].
    apply orb_false_iff in Eallowed as [E256 E512].
    apply Z.eqb_neq in E256, E512, E1024. auto.
Qed.

Lemma load_tile_parameters_raises (GET : gmap string string) (e : exn) :
  load_tile_parameters GET = Raise e ->
  e = Http404 "Invalid parameter." /\ bad_parameter GET.
Proof.
  unfold load_tile_parameters, bad_parameter.
  destruct (int_or_404 (GET_get GET "tile_x" "0")) as [x|e'] eqn:Ex; simpl.
  2:{ intros [= <-]. apply int_or_404_raises in Ex as [Hnone ->]. auto 10. }
  destruct (int_or_404 (GET_get GET "tile_y" "0")) as [y|e'] eqn:Ey; simpl.
  2:{ intros [= <-]. apply int_or_404_raises in Ey as [Hnone ->]. auto 10. }
  destruct (int_or_404 (GET_get GET "tile_zoom" "0")) as [z|e'] eqn:Ez; simpl;
    [discriminate|].
  intros [= <-]. apply int_or_404_raises in Ez as [Hnone ->]. auto 10.
Qed.

(** An exception that is no [Http404]. *)
Definition other_error (e : exn) : Prop :=
  match e with
  | Http404 _ => False
  | _ => True
  end.

Ltac other_error_step Hraise lemma :=
  match type of Hraise with
  | rbind ?r _ = Raise _ =>
      let E := fresh "E" in
      destruct r eqn:E; simpl in Hraise;
      [| injection Hraise as <-; apply lemma in E;
         repeat match goal with
                | Hor : _ \/ _ |- _ => destruct Hor
                | Hex : exists _, _ |- _ => destruct Hex
                end; subst; solve [auto | exact I] ]
  end.

Lemma tile_of_request_raises (GET : gmap string string) (e : exn) :
  tile_of_request settings db GET = Raise e ->
  (has_imaging_library settings = false /\ e = Http404 "Cairo is not available.")
  \/ (e = Http404 "Invalid parameter." /\ bad_parameter GET)
  \/ other_error e.
Proof.
  unfold tile_of_request. intros Hraise.
  destruct (has_imaging_library settings); simpl in Hraise;
    [|injection Hraise as <-; auto].
  destruct (load_basic_parameters GET) as [[size srs]|e'] eqn:Ebasic; simpl in Hraise.
  2:{ injection Hraise as <-. apply load_basic_parameters_raises in Ebasic. auto. }
  right.
  destruct (SpatialRefSys_get db srs) as [out_srs|e'] eqn:Eout; simpl in Hraise.
  2:{ injection Hraise as <-. apply get_one_raises in Eout as [->| ->]; right; exact I. }
  destruct (if Z.eqb srs 3857 then SpatialRefSys_get db 4055
            else SpatialRefSys_get db (shape_srid settings)) as [db_srs|e'] eqn:Edb;
    simpl in Hraise.
  2:{ injection Hraise as <-. right.
      destruct (Z.eqb srs 3857); apply get_one_raises in Edb as [->| ->]; exact I. }
  destruct (load_tile_parameters GET) as [[[tile_x tile_y] tile_zoom]|e'] eqn:Etile;
    simpl in Hraise.
  2:{ injection Hraise as <-. apply load_tile_parameters_raises in Etile. auto. }
  right.
  other_error_step Hraise (@gdal_raises Point).
  other_error_step Hraise math_pow_2_raises.
  other_error_step Hraise py_div_raises.
  other_error_step Hraise float_of_int_raises.
  other_error_step Hraise float_of_int_raises.
  other_error_step Hraise float_of_int_raises.
  other_error_step Hraise float_of_int_raises.
  other_error_step Hraise (@geos_raises Geom).
  destruct (geom_extent _) as [[[blon1 blat1] blon2] blat2] in Hraise.
  other_error_step Hraise float_of_int_raises.
  other_error_step Hraise py_div_raises.
  other_error_step Hraise py_div_raises.
  other_error_step Hraise (@gdal_raises Geom).
  destruct (geom_extent _) as [[[dlon1 dlat1] dlon2] dlat2] in Hraise.
  discriminate.
Qed.

Lemma draw_shapes_raises (t : Tile) (rows : list (Row Geom)) (e : exn) :
  draw_shapes t rows = Raise e -> exists msg, e = GDALException msg.
Proof.
  induction rows as [|bdry rows IH]; simpl; [discriminate|].
  destruct (max_extent (geom_extent (simplified t bdry)) <? pixel_width t)%float;
    [exact IH|].
  destruct (gdal (transform (out_srs t) (simplified t bdry))) as [shape'|e'] eqn:Etr;
    simpl.
  - destruct (draw_shapes t rows) as [later|e'']; simpl; [discriminate|].
    intros [= <-]. now apply IH.
  - intros [= <-]. now apply gdal_raises in Etr.
Qed.

Lemma pass_raises (f : Row Geom * Geom * float -> result (list DrawOp))
    (entries : list (Row Geom * Geom * float)) (e : exn) :
  pass f entries = Raise e -> exists entry, In entry entries /\ f entry = Raise e.
Proof.
  induction entries as [|x entries IH]; simpl; [discriminate|].
  destruct (f x) as [here|e'] eqn:Ex; simpl.
  - destruct (pass f entries) as [later|e'']; simpl; [discriminate|].
    intros [= <-]. destruct (IH eq_refl) as (entry & Hin & Hf). eauto.
  - intros [= <-]. eauto.
Qed.

(** What can go wrong with a colour once it has been evaluated. *)
Definition colour_error (e : exn) : Prop :=
  e = TypeError \/ e = OverflowError \/ exists key, e = KeyError key.

Lemma div_255_raises (v : Value) (e : exn) :
  div_255 v = Raise e -> colour_error e.
Proof.
  unfold colour_error. destruct v; simpl; try (intros [= <-]; auto).
  destruct (float_of_int n) as [f|e'] eqn:Ef; simpl; [discriminate|].
  intros [= <-]. apply float_of_int_raises in Ef. auto.
Qed.

Lemma channels_raises (items : list Value) (e : exn) :
  channels items = Raise e -> colour_error e.
Proof.
  induction items as [|v items IH]; simpl; [discriminate|].
  destruct (div_255 v) as [c|e'] eqn:Ev; simpl.
  - destruct (channels items) as [cs|e'']; simpl; [discriminate|].
    intros [= <-]. now apply IH.
  - intros [= <-]. now apply div_255_raises in Ev.
Qed.

Lemma iterate_raises (v : Value) (e : exn) :
  iterate v = Raise e -> colour_error e.
Proof.
  unfold colour_error. destruct v as [| | | | | | | |[items|]]; simpl;
    try discriminate; intros [= <-]; auto.
Qed.

Lemma subscript_raises (items : list (Value * Value)) (key : string) (e : exn) :
  subscript items key = Raise e -> e = KeyError key.
Proof.
  induction items as [|[k v] items IH]; simpl; [congruence|].
  destruct k; try exact IH.
  destruct (String.eqb s key); [discriminate|exact IH].
Qed.

Lemma color_channels_raises (color : list (Value * Value)) (key : string) (e : exn) :
  color_channels color key = Raise e -> colour_error e.
Proof.
  unfold color_channels.
  destruct (subscript color key) as [c|e'] eqn:Ec; simpl.
  2:{ intros [= <-]. apply subscript_raises in Ec. unfold colour_error. eauto. }
  destruct (iterate c) as [items|e'] eqn:Ei; simpl.
  2:{ intros [= <-]. now apply iterate_raises in Ei. }
  apply channels_raises.
Qed.

Lemma color_stop_raises (color : list (Value * Value)) (key : string)
    (offset alpha : float) (e : exn) :
  color_stop color key offset alpha = Raise e -> colour_error e.
Proof.
  unfold color_stop.
  destruct (color_channels color key) as [cs|e'] eqn:Ec; simpl.
  2:{ intros [= <-]. now apply color_channels_raises in Ec. }
  destruct cs as [|? [|? [|? [|? ?]]]]; try discriminate;
    intros [= <-]; left; reflexivity.
Qed.

Lemma stripe_stops_raises (t : @Tile Geom) (color : list (Value * Value)) (x : Z)
    (e : exn) :
  stripe_stops t color x = Raise e -> colour_error e.
Proof.
  unfold stripe_stops. intros Hraise.
  repeat match type of Hraise with
         | rbind ?r _ = Raise _ =>
             let E := fresh "E" in
             destruct r eqn:E; simpl in Hraise;
             [| injection Hraise as <-; now apply color_stop_raises in E ]
         end.
  discriminate.
Qed.

Lemma gradient_stops_raises (t : @Tile Geom) (color : list (Value * Value))
    (xs : list Z) (e : exn) :
  gradient_stops t color xs = Raise e -> colour_error e.
Proof.
  induction xs as [|x xs IH]; simpl; [discriminate|].
  destruct (stripe_stops t color x) as [here|e'] eqn:Ex; simpl.
  - destruct (gradient_stops t color xs) as [later|e'']; simpl; [discriminate|].
    intros [= <-]. now apply IH.
  - intros [= <-]. now apply stripe_stops_raises in Ex.
Qed.

Lemma solid_raises (items : list Value) (e : exn) :
  solid items = Raise e -> colour_error e.
Proof.
  unfold solid. destruct (channels items) as [cs|e'] eqn:Ec; simpl.
  2:{ intros [= <-]. now apply channels_raises in Ec. }
  destruct cs as [|? [|? [|? [|? [|? ?]]]]]; try discriminate;
    intros [= <-]; left; reflexivity.
Qed.

Lemma fill_source_raises (t : @Tile Geom) (color : Value) (e : exn) :
  fill_source t color = Raise e -> colour_error e.
Proof.
  destruct color; simpl; try discriminate.
  - destruct (Nat.eqb (length items) 3); [apply solid_raises|].
    destruct (Nat.eqb (length items) 4); [apply solid_raises|discriminate].
  - destruct (Nat.eqb (length items) 3); [intros [= <-]; left; reflexivity|].
    destruct (Nat.eqb (length items) 4); [apply solid_raises|discriminate].
  - destruct (gradient_stops t items (xrange (size t) 32)) as [stops|e'] eqn:Es;
      simpl; [discriminate|].
    intros [= <-]. now apply gradient_stops_raises in Es.
Qed.

Lemma colour_error_is_other (e : exn) : colour_error e -> other_error e.
Proof. intros [->|[->|[key ->]]]; exact I. Qed.

(** Shading fails with the exception of [eval], or with what the
    evaluated colour leads to. *)
Lemma fill_rings_raises (t : @Tile Geom) (c : string) (rings : list (list Point))
    (e : exn) :
  fill_rings t c rings = Raise e -> eval c = Raise e \/ colour_error e.
Proof.
  induction rings as [|ring rings IH]; simpl; [discriminate|].
  destruct (eval c) as [color|e'] eqn:Ec; simpl; [|intros [= <-]; auto].
  destruct (fill_source t color) as [src|e'] eqn:Esrc; simpl.
  - destruct (fill_rings t c rings) as [later|e'']; simpl.
    + destruct src; discriminate.
    + intros [= <-]. destruct (IH eq_refl) as [Heval|Hcolour]; [discriminate|auto].
  - intros [= <-]. right. now apply fill_source_raises in Esrc.
Qed.

Lemma shade_raises (t : @Tile Geom) (entry : Row Geom * Geom * float) (e : exn) :
  shade t entry = Raise e ->
  eval (row_color (fst (fst entry))) = Raise e \/ colour_error e.
Proof.
  destruct entry as [[bdry shape] ext_dim]. unfold shade. simpl.
  destruct (String.eqb (row_color bdry) ""); [discriminate|].
  apply fill_rings_raises.
Qed.

Lemma label_raises (t : @Tile Geom) (entry : Row Geom * Geom * float) (e : exn) :
  label settings t entry = Raise e ->
  e = ZeroDivisionError \/ exists msg, e = GDALException msg.
Proof.
  destruct entry as [[bdry shape] ext_dim]. unfold label.
  destruct (ext_dim <? pixel_width t * 20)%float; [discriminate|].
  destruct (label_anchor t bdry shape) as [anchor|e'] eqn:Eanchor; simpl.
  - destruct anchor as [world_pt|]; [|discriminate].
    destruct (py_div ext_dim (pixel_width t)) as [shown|e'] eqn:Ediv; simpl.
    + destruct (label_fits _ _ _ _); discriminate.
    + intros [= <-]. left. now apply py_div_raises in Ediv.
  - intros [= <-]. right. unfold label_anchor in Eanchor.
    destruct (first_anchor t bdry shape) as [first_choice|e1] eqn:Efirst;
      simpl in Eanchor.
    + destruct first_choice as [pt|]; [|discriminate].
      destruct (contains (bbox t) pt); [discriminate|].
      destruct (intersection (bbox t) shape) as [msg|inters]; [discriminate|].
      destruct (area inters <? area (bbox t) / 3)%float; [discriminate|].
      destruct (point_on_surface inters); discriminate.
    + injection Eanchor as <-. unfold first_anchor in Efirst.
      destruct (row_label_point bdry) as [lp|].
      * destruct (gdal (transform_point (db_srs t) (out_srs t) lp)) as [pt|e2] eqn:Etr;
          simpl in Efirst; [discriminate|].
        injection Efirst as <-. now apply gdal_raises in Etr.
      * destruct (intersection (bbox t) shape) as [msg|inters].
        -- destruct (contains shape (geom_centroid (bbox t))); discriminate.
        -- destruct (point_on_surface inters);
             [destruct (contains shape (geom_centroid (bbox t)))|]; discriminate.
Qed.

(** An exception that leaves the drawing is the one [eval] raised on
    the colour of a row, or it is no [Http404]. *)
Lemma render_raises (t : @Tile Geom) (rows : list (Row Geom)) (e : exn) :
  render settings t rows = Raise e ->
  (exists bdry, In bdry rows /\ eval (row_color bdry) = Raise e) \/ other_error e.
Proof.
  unfold render.
  destruct (draw_shapes t rows) as [entries|e'] eqn:Edraw; simpl.
  2:{ intros [= <-]. right. apply draw_shapes_raises in Edraw as (msg & ->). exact I. }
  destruct (pass (shade t) entries) as [shading|e'] eqn:Eshade; simpl.
  2:{ intros [= <-]. apply pass_raises in Eshade as ([[bdry shape] ext_dim] & Hin & Hentry).
      apply shade_raises in Hentry as [Heval|Hcolour].
      - left. exists bdry. split; [|exact Heval].
        now apply (in_draw_shapes t rows entries bdry shape ext_dim Edraw) in Hin.
      - right. now apply colour_error_is_other. }
  destruct (pass (fun e0 => Ok (outline t e0)) entries)
    as [outlines|e'] eqn:Eoutline; simpl.
  2:{ intros [= <-]. apply pass_raises in Eoutline as (entry & _ & Hentry).
      discriminate. }
  destruct (pass (label settings t) entries) as [labels|e'] eqn:Elabel;
    simpl; [discriminate|].
  intros [= <-]. apply pass_raises in Elabel as (entry & _ & Hentry).
  right. apply label_raises in Hentry as [->|(msg & ->)]; exact I.
Qed.

(** ** When the answer is a 404 *)

Lemma query_colours (t : Tile) (set_slug boundary_slug : string) (bdry : Row Geom) :
  In bdry (query db t set_slug boundary_slug) ->
  exists b, In b (all_boundaries db) /\ set_id b = set_slug /\ row_color bdry = color b.
Proof.
  unfold query. intros Hin. apply in_map_iff in Hin as (b & <- & Hb).
  apply filter_In in Hb as [Hb Hmatch].
  apply andb_true_iff in Hmatch as [Hmatch _].
  apply andb_true_iff in Hmatch as [Hset _]. apply String.eqb_eq in Hset.
  exists b. auto.
Qed.

(** X11.  [eval] runs the text of a colour in the scope of the module,
    where [Http404] and [get_object_or_404] are at hand, so a colour
    can be written that raises [Http404].  When no colour of the set
    does that, the view answers 404 for two reasons only: cairo could
    not be imported, or one of [size], [srs], [tile_x], [tile_y] and
    [tile_zoom] is not a number, or [size] is a number other than 256,
    512 and 1024.  Nothing else about the boundary set, the boundary
    or the geometry leads to a 404. *)
Theorem not_found_only_for_bad_parameters (GET : gmap string string)
    (set_slug boundary_slug msg : string) :
  (forall b m, In b (all_boundaries db) -> set_id b = set_slug ->
               eval (color b) <> Raise (Http404 m)) ->
  boundaries_map_tiles settings db GET set_slug boundary_slug = Raise (Http404 msg) ->
  (has_imaging_library settings = false /\ msg = "Cairo is not available.")
  \/ (msg = "Invalid parameter." /\ bad_parameter GET).
Proof.
  unfold boundaries_map_tiles. intros Hcolours Hraise.
  destruct (tile_of_request settings db GET) as [t|e] eqn:Et; simpl in Hraise.
  - exfalso. unfold tile_surface in Hraise.
    destruct (Nat.eqb (length (query db t set_slug boundary_slug)) 0);
      simpl in Hraise; [discriminate|].
    destruct (render settings t (query db t set_slug boundary_slug)) as [im|e] eqn:Er;
      simpl in Hraise; [discriminate|].
    injection Hraise as ->.
    apply render_raises in Er as [(bdry & Hin & Heval)|Hother]; [|exact Hother].
    apply query_colours in Hin as (b & Hb & Hset & Hcolor).
    rewrite Hcolor in Heval. exact (Hcolours b msg Hb Hset Heval).
  - injection Hraise as ->.
    apply tile_of_request_raises in Et as [[Hcairo Hmsg]|[[Hmsg Hbad]|Hother]].
    + injection Hmsg as ->. auto.
    + injection Hmsg as ->. auto.
    + destruct Hother.
Qed.

(** ** Slugs that match nothing *)

(** X12.  A set slug that no boundary carries is no error for the tile
    view: every request that reaches the query (acceptable
    parameters, a bounding box that could be built and projected)
    gets the single transparent pixel, with status 200. *)
Theorem unknown_set_is_an_empty_tile (GET : gmap string string)
    (set_slug boundary_slug : string) (t : Tile) :
  tile_of_request settings db GET = Ok t ->
  (forall b, In b (all_boundaries db) -> set_id b <> set_slug) ->
  boundaries_map_tiles settings db GET set_slug boundary_slug
  = Ok (png_response {| width := 1; height := 1; ops := [] |})
  /\ http_status (boundaries_map_tiles settings db GET set_slug boundary_slug) = 200%Z.
Proof.
  intros Hreq Hnone.
  assert (Hview : boundaries_map_tiles settings db GET set_slug boundary_slug
                  = Ok (png_response (ImageSurface 1 1))).
  { apply (empty_query_is_one_pixel settings db GET set_slug boundary_slug t Hreq).
    unfold on_tile.
    induction (all_boundaries db) as [|b l IH]; [reflexivity|]. simpl.
    assert (Hset : String.eqb (set_id b) set_slug = false).
    { apply String.eqb_neq. apply Hnone. left. reflexivity. }
    rewrite Hset. simpl. apply IH. intros x Hx. apply Hnone. right. exact Hx. }
  rewrite Hview. split; reflexivity.
Qed.

(** ** Answers *)

(** X13.  Every answer the view returns has status 200, content type
    [image/png] and a [Content-Length] equal to the length of its
    body, and the body is the encoding of a square surface: the blank
    one of side 1, or one with the side the request asked for. *)
Theorem answer_is_a_square_png (GET : gmap string string)
    (set_slug boundary_slug : string) (resp : HttpResponse) :
  boundaries_map_tiles settings db GET set_slug boundary_slug = Ok resp ->
  status_code resp = 200%Z
  /\ content_type resp = "image/png"
  /\ content_length resp = length (content resp)
  /\ exists im,
       content resp = write_to_png im
       /\ (im = {| width := 1; height := 1; ops := [] |}
           \/ exists size,
                Py.int (GET_get GET "size" "256") = Some size
                /\ (size = 256 \/ size = 512 \/ size = 1024)%Z
                /\ width im = size /\ height im = size).
Proof.
  unfold boundaries_map_tiles. intros Hview.
  destruct (tile_of_request settings db GET) as [t|e] eqn:Et; simpl in Hview;
    [|discriminate].
  destruct (tile_surface settings db t set_slug boundary_slug) as [im|e] eqn:Eim;
    simpl in Hview; [|discriminate].
  injection Hview as <-. simpl. repeat split. exists im. split; [reflexivity|].
  unfold tile_surface in Eim.
  destruct (Nat.eqb (length (query db t set_slug boundary_slug)) 0).
  - injection Eim as <-. left. reflexivity.
  - right. exists (size t).
    destruct (tile_of_request_ok settings db GET t Et) as (_ & Hsize & Hallowed & _).
    split; [exact Hsize|]. split; [exact Hallowed|].
    unfold render in Eim.
    destruct (draw_shapes t _) as [entries|]; simpl in Eim; [|discriminate].
    destruct (pass (shade t) _); simpl in Eim; [|discriminate].
    destruct (pass (fun e0 => Ok (outline t e0)) _); simpl in Eim; [|discriminate].
    destruct (pass (label settings t) _); simpl in Eim; [|discriminate].
    injection Eim as <-. split; reflexivity.
Qed.

(** ** A zoom level out of range *)

(** X14.  A [tile_zoom] of 1024 or more is a number, so it is not
    refused with a 404; once the corner of the world has been
    projected (line 181), [math.pow] overflows and the exception
    leaves the view. *)
Theorem huge_zoom_overflows (GET : gmap string string) (set_slug boundary_slug : string)
    (size srs out_srs db_srs tile_x tile_y tile_zoom : Z) (p : Point) :
  has_imaging_library settings = true ->
  load_basic_parameters GET = Ok (size, srs) ->
  SpatialRefSys_get db srs = Ok out_srs ->
  (if Z.eqb srs 3857 then SpatialRefSys_get db 4055
   else SpatialRefSys_get db (shape_srid settings)) = Ok db_srs ->
  load_tile_parameters GET = Ok (tile_x, tile_y, tile_zoom) ->
  transform_point db_srs out_srs (180, 0)%float = inr p ->
  (1024 <= tile_zoom)%Z ->
  boundaries_map_tiles settings db GET set_slug boundary_slug = Raise OverflowError.
Proof.
  intros Hcairo Hbasic Hout Hdb Htile Hcorner Hzoom.
  unfold boundaries_map_tiles, tile_of_request.
  rewrite Hcairo, Hbasic. simpl. rewrite Hout. simpl. rewrite Hdb. simpl.
  rewrite Htile. simpl. rewrite Hcorner. simpl.
  unfold math_pow_2.
  destruct (float_of_int tile_zoom) as [f|e] eqn:Ef; simpl.
  - apply Z.leb_le in Hzoom. rewrite Hzoom. reflexivity.
  - apply float_of_int_raises in Ef as ->. reflexivity.
Qed.

(** ** Colours *)

Lemma pass_raises_somewhere (f : Row Geom * Geom * float -> result (list DrawOp))
    (entries : list (Row Geom * Geom * float)) (entry : Row Geom * Geom * float)
    (e : exn) :
  In entry entries -> f entry = Raise e -> exists e', pass f entries = Raise e'.
Proof.
  intros Hin Hentry. induction entries as [|x entries IH]; [destruct Hin|].
  simpl. destruct (f x) as [here|e'] eqn:Ex; simpl; [|eauto].
  destruct Hin as [->|Hin]; [congruence|].
  destruct (IH Hin) as (e' & ->). simpl. eauto.
Qed.

Lemma pass_raises_first (f : Row Geom * Geom * float -> result (list DrawOp))
    (earlier later : list (Row Geom * Geom * float)) (entry : Row Geom * Geom * float)
    (drawn : list DrawOp) (e : exn) :
  pass f earlier = Ok drawn -> f entry = Raise e ->
  pass f (earlier ++ entry :: later) = Raise e.
Proof.
  intros Hearlier Hentry. rewrite pass_app, Hearlier. simpl. rewrite Hentry. reflexivity.
Qed.

(** X15.  A colour that is a tuple of three items cannot be shaded:
    the default alpha is added to it as a list (line 284), which
    raises [TypeError].  A request for a tile on which a boundary
    with such a colour is large enough to be drawn, and has a ring,
    gets no answer; the exception that ends it is this [TypeError]
    when everything before went well: all the shapes could be
    projected and the boundaries drawn earlier could be shaded. *)
Theorem three_tuple_colour_is_a_type_error (GET : gmap string string)
    (set_slug boundary_slug : string) (t : Tile) (bdry : Row Geom) (shape' : Geom)
    (a b c : Value) :
  tile_of_request settings db GET = Ok t ->
  In bdry (query db t set_slug boundary_slug) ->
  (max_extent (geom_extent (simplified t bdry)) <? pixel_width t)%float = false ->
  transform (out_srs t) (simplified t bdry) = inr shape' ->
  ring_coords shape' <> [] ->
  row_color bdry <> "" ->
  eval (row_color bdry) = Ok (VTuple [a; b; c]) ->
  shade t (bdry, shape', max_extent (geom_extent (simplified t bdry))) = Raise TypeError
  /\ (exists e, boundaries_map_tiles settings db GET set_slug boundary_slug = Raise e)
  /\ (forall earlier later drawn,
         draw_shapes t (query db t set_slug boundary_slug)
         = Ok (earlier
               ++ (bdry, shape', max_extent (geom_extent (simplified t bdry))) :: later) ->
         pass (shade t) earlier = Ok drawn ->
         boundaries_map_tiles settings db GET set_slug boundary_slug = Raise TypeError).
Proof.
  intros Hreq Hin Hbig Hshape Hrings Hcolor Heval.
  assert (Hshade : shade t (bdry, shape', max_extent (geom_extent (simplified t bdry)))
                   = Raise TypeError).
  { unfold shade. apply String.eqb_neq in Hcolor. rewrite Hcolor.
    destruct (ring_coords shape') as [|ring rings]; [contradiction|].
    simpl. rewrite Heval. reflexivity. }
  assert (Hview : boundaries_map_tiles settings db GET set_slug boundary_slug
                  = (im <- render settings t (query db t set_slug boundary_slug) ;;
                     Ok (png_response im))).
  { unfold boundaries_map_tiles. rewrite Hreq. simpl. unfold tile_surface.
    destruct (query db t set_slug boundary_slug) as [|row rows]; [destruct Hin|].
    reflexivity. }
  split; [exact Hshade|]. rewrite Hview. unfold render. split.
  - destruct (draw_shapes t (query db t set_slug boundary_slug)) as [entries|e] eqn:Edraw;
      simpl; [|eauto].
    assert (Hentry : In (bdry, shape', max_extent (geom_extent (simplified t bdry)))
                        entries).
    { apply (in_draw_shapes t _ entries _ _ _ Edraw). unfold too_small, ext_dim_of. auto. }
    destruct (pass_raises_somewhere (shade t) entries _ TypeError Hentry Hshade)
      as (e & ->).
    simpl. eauto.
  - intros earlier later drawn Hdraw Hearlier. rewrite Hdraw. simpl.
    rewrite (pass_raises_first (shade t) earlier later _ drawn TypeError Hearlier Hshade).
    reflexivity.
Qed.

(** The four stops of every stripe, for a dictionary whose two colours
    have three channels each. *)
Definition stripe (fsize : float) (c1 c2 : float * float * float) (x : Z)
  : list (float * float * float * float * float) :=
  let '(r1, g1, b1) := c1 in
  let '(r2, g2, b2) := c2 in
  [ ((nearest_float x / fsize)%float, r1, g1, b1, 0.3%float);
    ((nearest_float (x + 28) / fsize)%float, r1, g1, b1, 0.3%float);
    ((nearest_float (x + 28) / fsize)%float, r2, g2, b2, 0.4%float);
    ((nearest_float (x + 32) / fsize)%float, r2, g2, b2, 0.4%float) ].

Lemma gradient_stops_stripes (t : @Tile Geom) (color : list (Value * Value))
    (r1 g1 b1 r2 g2 b2 : float) (xs : list Z) :
  color_channels color "color1" = Ok [r1; g1; b1] ->
  color_channels color "color2" = Ok [r2; g2; b2] ->
  gradient_stops t color xs
  = Ok (flat_map (stripe (fsize t) (r1, g1, b1) (r2, g2, b2)) xs).
Proof.
  intros H1 H2. induction xs as [|x xs IH]; [reflexivity|].
  simpl. unfold stripe_stops, color_stop. rewrite H1, H2. simpl.
  rewrite IH. reflexivity.
Qed.

(** X16.  The stripes fit the tile.  For a request that reaches the
    drawing, a dictionary whose two colours have three channels each
    gives a gradient along the diagonal of the tile with one stop for
    every 8 pixels of the tile size; the first stop is at offset 0 in
    the first colour and the last one at offset 1 in the second. *)
Theorem stripes_end_at_the_end (GET : gmap string string) (t : Tile)
    (color : list (Value * Value)) (r1 g1 b1 r2 g2 b2 : float) :
  tile_of_request settings db GET = Ok t ->
  color_channels color "color1" = Ok [r1; g1; b1] ->
  color_channels color "color2" = Ok [r2; g2; b2] ->
  exists stops,
    fill_source t (VDict color)
    = Ok (Some (LinearGradient 0 0 (fsize t) (fsize t) stops))
    /\ length stops = Z.to_nat (size t / 8)
    /\ (exists later, stops = (0, r1, g1, b1, 0.3)%float :: later)
    /\ (exists earlier, stops = earlier ++ [(1, r2, g2, b2, 0.4)%float]).
Proof.
  intros Hreq H1 H2.
  destruct (tile_of_request_ok settings db GET t Hreq)
    as (_ & _ & Hallowed & Hfloat & _).
  unfold fill_source.
  rewrite (gradient_stops_stripes t color r1 g1 b1 r2 g2 b2 _ H1 H2). simpl.
  eexists. split; [reflexivity|].
  destruct Hallowed as [Hsize|[Hsize|Hsize]]; rewrite Hsize in Hfloat |- *;
    match type of Hfloat with
    | float_of_int ?n = _ =>
        let f := eval vm_compute in (nearest_float n) in
        assert (Hc : float_of_int n = Ok f) by (vm_compute; reflexivity);
        rewrite Hc in Hfloat; injection Hfloat as Hfsize
    end;
    rewrite <- Hfsize;
    match goal with
    | |- context [xrange ?n 32] =>
        let xs := eval vm_compute in (xrange n 32) in change (xrange n 32) with xs
    end;
    (split; [reflexivity|]); split.
  all: try (eexists; vm_compute; reflexivity).
  all: match goal with
       | |- exists earlier, ?l = earlier ++ [_] =>
           exists (removelast l); vm_compute; reflexivity
       end.
Qed.

End View.

(** ** On the atlas *)

Section Examples.
Import Flatland CPython.

Lemma missing_parameter_takes_its_default_witness :
  In ("size", "256") defaults
  /\ request [("tile_zoom", "1")] !! "size" = None
  /\ boundaries_map_tiles settings atlas
       (<["size" := "256"]> (request [("tile_zoom", "1")])) "wards" ""
     = boundaries_map_tiles settings atlas (request [("tile_zoom", "1")]) "wards" "".
Proof.
  assert (Hkey : In ("size", "256") defaults) by (left; reflexivity).
  assert (Hnone : request [("tile_zoom", "1")] !! "size" = None)
    by (vm_compute; reflexivity).
  split; [exact Hkey|]. split; [exact Hnone|].
  exact (missing_parameter_takes_its_default settings atlas
           (request [("tile_zoom", "1")]) "wards" "" "size" "256" Hkey Hnone).
Defined.

Lemma not_found_only_for_bad_parameters_witness :
  (forall b m, In b (all_boundaries atlas) -> set_id b = "wards" ->
               eval (color b) <> Raise (Http404 m))
  /\ boundaries_map_tiles settings atlas (request [("size", "300")]) "wards" ""
     = Raise (Http404 "Invalid parameter.")
  /\ ((has_imaging_library settings = false
       /\ "Invalid parameter." = "Cairo is not available.")
      \/ ("Invalid parameter." = "Invalid parameter."
          /\ bad_parameter (request [("size", "300")]))).
Proof.
  assert (Hcolours : forall b m, In b (all_boundaries atlas) -> set_id b = "wards" ->
                       eval (color b) <> Raise (Http404 m)).
  { intros b m [<-|[<-|[]]] _; vm_compute; discriminate. }
  assert (Hview : boundaries_map_tiles settings atlas (request [("size", "300")]) "wards" ""
                  = Raise (Http404 "Invalid parameter."))
    by (vm_compute; reflexivity).
  split; [exact Hcolours|]. split; [exact Hview|].
  exact (not_found_only_for_bad_parameters settings atlas (request [("size", "300")])
           "wards" "" "Invalid parameter." Hcolours Hview).
Defined.

(** A set with a colour that raises [Http404] when it is evaluated,
    and one with a dictionary that lacks its second colour. *)
Definition haunted : Database Shape :=
  {| boundary_sets := [ {| bs_slug := "wards"; bs_name := "Wards" |};
                        {| bs_slug := "districts"; bs_name := "Districts" |} ];
     all_boundaries :=
       [ labelled (boundary "wards" "w1" "Ward 1" (Rect (-170) (-170) 170 170))
                  (0, 0)%float "get_object_or_404(BoundarySet, slug='nowhere')";
         labelled (boundary "districts" "d1" "District 1" (Rect (-170) (-170) 170 170))
                  (0, 0)%float "{'color1': (255, 255, 0)}" ];
     spatial_ref_sys := [4326; 3857; 4055]%Z |}.

(** With acceptable parameters the first set is answered 404 all the
    same, and the second one ends in a [KeyError]. *)
Example colours_that_raise :
  boundaries_map_tiles settings haunted (request []) "wards" ""
  = Raise (Http404 "No BoundarySet matches the given query.")
  /\ tile_of_request settings haunted (request []) = Ok world_tile
  /\ boundaries_map_tiles settings haunted (request []) "districts" ""
     = Raise (KeyError "color2").
Proof. repeat split; vm_compute; reflexivity. Qed.

Lemma unknown_set_is_an_empty_tile_witness :
  tile_of_request settings atlas (request []) = Ok world_tile
  /\ (forall b, In b (all_boundaries atlas) -> set_id b <> "parishes")
  /\ http_status (boundaries_map_tiles settings atlas (request []) "parishes" "") = 200%Z.
Proof.
  assert (Hreq : tile_of_request settings atlas (request []) = Ok world_tile)
    by (vm_compute; reflexivity).
  assert (Hnone : forall b, In b (all_boundaries atlas) -> set_id b <> "parishes").
  { intros b [<-|[<-|[]]]; discriminate. }
  split; [exact Hreq|]. split; [exact Hnone|].
  exact (proj2 (unknown_set_is_an_empty_tile settings atlas (request []) "parishes" ""
                  world_tile Hreq Hnone)).
Defined.

Lemma answer_is_a_square_png_witness :
  exists resp,
    boundaries_map_tiles settings atlas (request [("size", "٥١٢")]) "wards" "" = Ok resp
    /\ status_code resp = 200%Z
    /\ content_type resp = "image/png"
    /\ content_length resp = length (content resp)
    /\ exists im, content resp = write_to_png im /\ width im = 512%Z.
Proof.
  eexists.
  assert (Hview : boundaries_map_tiles settings atlas (request [("size", "٥١٢")]) "wards" ""
                  = Ok _)
    by (vm_compute; reflexivity).
  split; [exact Hview|].
  destruct (answer_is_a_square_png settings atlas (request [("size", "٥١٢")]) "wards" ""
              _ Hview)
    as (Hstatus & Htype & Hlength & im & Hcontent & Hside).
  split; [exact Hstatus|]. split; [exact Htype|]. split; [exact Hlength|].
  exists im. split; [exact Hcontent|].
  destruct Hside as [->|(size & Hsize & _ & Hwidth & _)].
  - vm_compute in Hcontent. discriminate.
  - vm_compute in Hsize. injection Hsize as <-. exact Hwidth.
Defined.

Lemma huge_zoom_overflows_witness :
  has_imaging_library settings = true
  /\ load_basic_parameters (request [("tile_zoom", "1024")]) = Ok (256, 3857)%Z
  /\ SpatialRefSys_get atlas 3857 = Ok 3857%Z
  /\ SpatialRefSys_get atlas 4055 = Ok 4055%Z
  /\ load_tile_parameters (request [("tile_zoom", "1024")]) = Ok (0, 0, 1024)%Z
  /\ transform_point 4055 3857 (180, 0)%float = inr (180, 0)%float
  /\ boundaries_map_tiles settings atlas (request [("tile_zoom", "1024")]) "wards" ""
     = Raise OverflowError.
Proof.
  assert (Hbasic : load_basic_parameters (request [("tile_zoom", "1024")])
                   = Ok (256, 3857)%Z) by (vm_compute; reflexivity).
  assert (Hout : SpatialRefSys_get atlas 3857 = Ok 3857%Z) by reflexivity.
  assert (Hdb : SpatialRefSys_get atlas 4055 = Ok 4055%Z) by reflexivity.
  assert (Htile : load_tile_parameters (request [("tile_zoom", "1024")])
                  = Ok (0, 0, 1024)%Z) by (vm_compute; reflexivity).
  repeat (split; [first [reflexivity | assumption]|]).
  refine (huge_zoom_overflows settings atlas (request [("tile_zoom", "1024")]) "wards" ""
            256 3857 3857 4055 0 0 1024 (180, 0)%float eq_refl Hbasic Hout Hdb Htile
            eq_refl _).
  discriminate.
Defined.

(** A back end in which colours were stored as the text of tuples. *)
Definition painted : Database Shape :=
  {| boundary_sets := [ {| bs_slug := "wards"; bs_name := "Wards" |} ];
     all_boundaries :=
       [ labelled (boundary "wards" "w1" "Ward 1" (Rect (-170) (-170) 170 170))
                  (0, 0)%float "(255, 0, 0)" ];
     spatial_ref_sys := [4326; 3857; 4055]%Z |}.

Lemma three_tuple_colour_is_a_type_error_witness :
  tile_of_request settings painted (request []) = Ok world_tile
  /\ eval "(255, 0, 0)" = Ok (VTuple [VInt 255; VInt 0; VInt 0])
  /\ boundaries_map_tiles settings painted (request []) "wards" "" = Raise TypeError.
Proof.
  assert (Hreq : tile_of_request settings painted (request []) = Ok world_tile)
    by (vm_compute; reflexivity).
  split; [exact Hreq|]. split; [reflexivity|].
  destruct (three_tuple_colour_is_a_type_error settings painted
              (request []) "wards" "" world_tile
              (values "simple_shape"
                 (labelled (boundary "wards" "w1" "Ward 1" (Rect (-170) (-170) 170 170))
                           (0, 0)%float "(255, 0, 0)"))
              (Rect (-170) (-170) 170 170)
              (VInt 255) (VInt 0) (VInt 0) Hreq)
    as (_ & _ & Hfirst).
  - left. reflexivity.
  - vm_compute. reflexivity.
  - reflexivity.
  - discriminate.
  - discriminate.
  - reflexivity.
  - apply (Hfirst [] [] []); [vm_compute; reflexivity | reflexivity].
Defined.

Lemma stripes_end_at_the_end_witness :
  let color := [ (VStr "color1", VTuple [VInt 255; VInt 255; VInt 0]);
                 (VStr "color2", VTuple [VInt 0; VInt 0; VInt 255]) ] in
  tile_of_request settings atlas (request []) = Ok world_tile
  /\ eval "{'color1': (255, 255, 0), 'color2': (0, 0, 255)}" = Ok (VDict color)
  /\ color_channels color "color1" = Ok [1; 1; 0]%float
  /\ color_channels color "color2" = Ok [0; 0; 1]%float
  /\ exists stops,
       fill_source world_tile (VDict color)
       = Ok (Some (LinearGradient 0 0 256 256 stops))
       /\ length stops = 32%nat.
Proof.
  intros color.
  assert (Hreq : tile_of_request settings atlas (request []) = Ok world_tile)
    by (vm_compute; reflexivity).
  assert (H1 : color_channels color "color1" = Ok [1; 1; 0]%float)
    by (vm_compute; reflexivity).
  assert (H2 : color_channels color "color2" = Ok [0; 0; 1]%float)
    by (vm_compute; reflexivity).
  split; [exact Hreq|]. split; [reflexivity|]. split; [exact H1|]. split; [exact H2|].
  destruct (stripes_end_at_the_end settings atlas (request []) world_tile color
              1 1 0 0 0 1 Hreq H1 H2) as (stops & Hsource & Hlength & _).
  exists stops. split; [exact Hsource | exact Hlength].
Defined.

(** The label of the first ward on the world tile is drawn in full. *)
Lemma label_is_all_or_nothing_witness :
  let w1 := values "simple_shape"
              (labelled (boundary "wards" "w1" "  Ward 1" (Rect (-170) (-170) 170 170))
                        (151.875, 0)%float "[255, 0, 0]") in
  let te := text_extents (MAP_LABEL_FONT settings) 18 (row_name w1) in
  label settings world_tile (w1, Rect (-170) (-170) 170 170, 340%float)
  = Ok (label_drawing 18 (236, 127)%float te (row_name w1))
  /\ (label_drawing 18 (236, 127)%float te (row_name w1) = []
      \/ exists pt font_size shown,
           py_div 340 (pixel_width world_tile) = Ok shown
           /\ label_fits world_tile (shown / 5)%float pt
                (text_extents (MAP_LABEL_FONT settings) font_size (row_name w1)) = true
           /\ label_drawing 18 (236, 127)%float te (row_name w1)
              = label_drawing font_size pt
                  (text_extents (MAP_LABEL_FONT settings) font_size (row_name w1))
                  (row_name w1)).
Proof.
  intros w1 te.
  assert (Hlabel : label settings world_tile (w1, Rect (-170) (-170) 170 170, 340%float)
                   = Ok (label_drawing 18 (236, 127)%float te (row_name w1)))
    by (vm_compute; reflexivity).
  split; [exact Hlabel|].
  exact (label_is_all_or_nothing settings world_tile w1 (Rect (-170) (-170) 170 170)
           340%float _ Hlabel).
Defined.

(** [int] has no number for the word, nor for a digit string with a
    doubled underscore. *)
Lemma invalid_basic_parameter_is_404_witness :
  (has_imaging_library settings = false
   \/ Py.int (GET_get (request [("size", "big")]) "size" "256") = None
   \/ (exists n, Py.int (GET_get (request [("size", "big")]) "size" "256") = Some n
                 /\ n <> 256 /\ n <> 512 /\ n <> 1024)%Z
   \/ Py.int (GET_get (request [("size", "big")]) "srs" "3857") = None)
  /\ http_status (boundaries_map_tiles settings atlas (request [("size", "big")]) "wards" "")
     = 404%Z.
Proof.
  assert (Hbad : has_imaging_library settings = false
                 \/ Py.int (GET_get (request [("size", "big")]) "size" "256") = None
                 \/ (exists n, Py.int (GET_get (request [("size", "big")]) "size" "256")
                               = Some n /\ n <> 256 /\ n <> 512 /\ n <> 1024)%Z
                 \/ Py.int (GET_get (request [("size", "big")]) "srs" "3857") = None).
  { right. left. vm_compute. reflexivity. }
  split; [exact Hbad|].
  exact (invalid_basic_parameter_is_404 settings atlas (request [("size", "big")])
           "wards" "" Hbad).
Defined.

Lemma invalid_tile_parameter_is_404_witness :
  load_basic_parameters (request [("tile_y", "north")]) = Ok (256, 3857)%Z
  /\ Py.int (GET_get (request [("tile_y", "north")]) "tile_y" "0") = None
  /\ http_status (boundaries_map_tiles settings atlas (request [("tile_y", "north")])
                    "wards" "") = 404%Z.
Proof.
  assert (Hbasic : load_basic_parameters (request [("tile_y", "north")])
                   = Ok (256, 3857)%Z) by (vm_compute; reflexivity).
  assert (Hy : Py.int (GET_get (request [("tile_y", "north")]) "tile_y" "0") = None)
    by (vm_compute; reflexivity).
  split; [exact Hbasic|]. split; [exact Hy|].
  refine (invalid_tile_parameter_is_404 settings atlas (request [("tile_y", "north")])
            "wards" "" 256 3857 3857 4055 eq_refl Hbasic eq_refl eq_refl _).
  right. left. exact Hy.
Defined.

End Examples.
End TileProperties.

(** * [views.py]: the list and detail views *)

Module Views.

(** Beyond the exceptions of [Py.exn], the list view can end with the
    [ValueError] of a failed unpacking or of an incomplete format. *)
Inductive outcome (A : Type) : Type :=
| Returns (a : A)
| Raises (e : exn)
| RaisesValueError
  (** a construct of Python that is not modelled here *)
| NotModelled.
Arguments Returns {A} a.
Arguments Raises {A} e.
Arguments RaisesValueError {A}.
Arguments NotModelled {A}.

Definition obind {A B} (o : outcome A) (k : A -> outcome B) : outcome B :=
  match o with
  | Returns a => k a
  | Raises e => Raises e
  | RaisesValueError => RaisesValueError
  | NotModelled => NotModelled
  end.

(** [s.split(sep)] for a separator of one character. *)
Fixpoint split (sep : ascii) (s : string) : list string :=
  match s with
  | EmptyString => [EmptyString]
  | String c s' =>
      if Ascii.eqb c sep then EmptyString :: split sep s'
      else match split sep s' with
           | w :: ws => String c w :: ws
           | [] => [String c EmptyString]
           end
  end.

(** [s.replace('%', '%%')] *)
Fixpoint escape_percent (s : string) : string :=
  match s with
  | EmptyString => EmptyString
  | String c s' =>
      if Ascii.eqb c "%" then String "%" (String "%" (escape_percent s'))
      else String c (escape_percent s')
  end.

Definition prepend (prefix : string) (o : outcome string) : outcome string :=
  obind o (fun s => Returns (prefix +:+ s)).

(** [fmt % arg] for one string argument, reading [fmt] from the left:
    [%%] gives a percent sign and [%s] the argument; a second [%s]
    finds no argument left and a format without [%s] leaves the
    argument unconverted (both [TypeError]); a [%] at the very end is
    an incomplete format ([ValueError]).  Other conversions are not
    modelled. *)
Fixpoint format_with (arg : string) (converted : bool) (fmt : string) : outcome string :=
  match fmt with
  | EmptyString => if converted then Returns EmptyString else Raises TypeError
  | String c rest =>
      if Ascii.eqb c "%" then
        match rest with
        | EmptyString => RaisesValueError
        | String d rest' =>
            if Ascii.eqb d "%" then prepend "%" (format_with arg converted rest')
            else if Ascii.eqb d "s" then
                   if converted then Raises TypeError
                   else prepend arg (format_with arg true rest')
                 else NotModelled
        end
      else prepend (String c EmptyString) (format_with arg converted rest)
  end.

Definition format (fmt arg : string) : outcome string := format_with arg false fmt.

(** The spatial lookups of the list view's filters. *)
Class SpatialLookups (Geom : Type) : Type := {
  covers : Geom -> Geom -> bool;
  overlaps : Geom -> Geom -> bool;
  touches : Geom -> Geom -> bool;
}.

Section Views.
Context {Geom : Type} `{SpatialLookups Geom}.
Variable db : Database Geom.

(** [BoundarySetDetailView.get_object(request, qs, slug)] *)
Definition BoundarySetDetailView_get_object (qs : list BoundarySet) (slug_ : string)
  : result BoundarySet :=
  match get_one "BoundarySet"
          (List.filter (fun bs => String.eqb (bs_slug bs) slug_) qs) with
  | Raise (DoesNotExist _) => Raise (Http404 "")
  | r => r
  end.

(** [BoundaryObjectGetterMixin.get_object(request, qs, set_slug, slug)] *)
Definition BoundaryObjectGetterMixin_get_object (qs : list (Boundary Geom))
    (set_slug slug_ : string) : result (Boundary Geom) :=
  match get_one "Boundary"
          (List.filter (fun b => String.eqb (slug b) slug_ && String.eqb (set_id b) set_slug)
                       qs) with
  | Raise (DoesNotExist _) => Raise (Http404 "")
  | r => r
  end.

(** [get_object_or_404(Model, ...)] over the rows that match. *)
Definition get_object_or_404 {A} (model : string) (rows : list A) : result A :=
  match get_one model rows with
  | Raise (DoesNotExist _) => Raise (Http404 ("No " +:+ model +:+ " matches the given query."))
  | r => r
  end.

(** [boundaries_map(request, set_slug, boundary_slug)]: the context
    handed to the template [boundaries/map_test.html]. *)
Definition boundaries_map (set_slug boundary_slug : string)
  : result (BoundarySet * option (Boundary Geom)) :=
  rbind (get_object_or_404 "BoundarySet"
           (List.filter (fun bs => String.eqb (bs_slug bs) set_slug) (boundary_sets db)))
    (fun bs =>
       if String.eqb boundary_slug "" then Ok (bs, None)
       else
         rbind (get_object_or_404 "Boundary"
                  (List.filter (fun b => String.eqb (set_id b) (bs_slug bs)
                                         && String.eqb (slug b) boundary_slug)
                               (all_boundaries db)))
           (fun bb => Ok (bs, Some bb))).

(** [BoundaryListView.get_qs(request, set_slug)], over the queryset of
    the parent class. *)
Definition get_qs (super_qs : list (Boundary Geom)) (set_slug : string)
  : result (list (Boundary Geom)) :=
  if String.eqb set_slug "" then Ok super_qs
  else if Nat.eqb (length (List.filter (fun bs => String.eqb (bs_slug bs) set_slug)
                                       (boundary_sets db))) 0
       then Raise (Http404 "")
       else Ok (List.filter (fun b => String.eqb (set_id b) set_slug) super_qs).

(** Lines 54 to 58 and 62 to 66: the shape of the boundary a
    [set/slug] parameter names. *)
Definition reference_shape (param : string) : outcome Geom :=
  match split "/" param with
  | [set_slug; slug_] =>
      match List.filter (fun b => String.eqb (slug b) slug_ && String.eqb (set_id b) set_slug)
                        (all_boundaries db) with
      | b :: _ => Returns (shape b)
      | [] => Raises (Http404 "")
      end
  | _ => RaisesValueError
  end.

(** [BoundaryListView.filter(request, qs)], after the filter of the
    parent class. *)
Definition filter (GET : gmap string string) (super_filtered : list (Boundary Geom))
  : outcome (list (Boundary Geom)) :=
  obind (match GET !! "intersects" with
         | Some param =>
             obind (reference_shape param) (fun ref =>
             Returns (List.filter (fun b => covers (shape b) ref || overlaps (shape b) ref)
                                  super_filtered))
         | None => Returns super_filtered
         end) (fun qs =>
  obind (match GET !! "touches" with
         | Some param =>
             obind (reference_shape param) (fun ref =>
             Returns (List.filter (fun b => touches (shape b) ref) qs))
         | None => Returns qs
         end) (fun qs =>
  match GET !! "sets" with
  | Some param =>
      let set_slugs := split "," param in
      Returns (List.filter
                 (fun b => existsb (String.eqb (set_id b)) set_slugs) qs)
  | None => Returns qs
  end)).

(** [BoundaryListView.get_related_resources(request, qs, meta)]: the
    dictionary of the parent class, with the three geometry URLs when
    the list is neither empty nor too long. *)
Definition get_related_resources (MAX_GEO_LIST_RESULTS : Z)
    (path QUERY_STRING : string) (r : gmap string string) (total_count : Z)
  : outcome (gmap string string) :=
  if (Z.eqb total_count 0 || Z.ltb MAX_GEO_LIST_RESULTS total_count)%bool then Returns r
  else
    let geo_url :=
      if String.eqb QUERY_STRING "" then path +:+ "%s"
      else (path +:+ "%s") +:+ ("?" +:+ escape_percent QUERY_STRING) in
    obind (format geo_url "shape") (fun shapes_url =>
    obind (format geo_url "simple_shape") (fun simple_shapes_url =>
    obind (format geo_url "centroid") (fun centroids_url =>
    Returns (<["centroids_url" := centroids_url]>
               (<["simple_shapes_url" := simple_shapes_url]>
                  (<["shapes_url" := shapes_url]> r)))))).

End Views.
End Views.

(** * Properties of the list and detail views *)

Module ViewsSpec.
Import Views.

Section Spec.
Context {Geom : Type} `{SpatialLookups Geom}.
Variable db : Database Geom.

(** ** Detail views *)

Lemma get_one_cases {A} (model : string) (rows : list A) :
  match get_one model rows with
  | Ok x => rows = [x]
  | Raise e =>
      (e = DoesNotExist model /\ rows = [])
      \/ (e = MultipleObjectsReturned model /\ exists x y rest, rows = x :: y :: rest)
  end.
Proof. destruct rows as [|x [|y rest]]; simpl; eauto 10. Qed.

(** X18.  The detail view of a boundary returns a boundary of the
    queryset that has the slug and the set asked for; it raises
    [Http404] exactly when the queryset has no such boundary, and lets
    [MultipleObjectsReturned] through when it has several. *)
Theorem boundary_detail_is_found_or_404 (qs : list (Boundary Geom))
    (set_slug slug_ : string) :
  match BoundaryObjectGetterMixin_get_object qs set_slug slug_ with
  | Ok b => In b qs /\ slug b = slug_ /\ set_id b = set_slug
  | Raise e =>
      (e = Http404 ""
       /\ forall b, In b qs -> ~ (slug b = slug_ /\ set_id b = set_slug))
      \/ (e = MultipleObjectsReturned "Boundary"
          /\ exists b1 b2, In b1 qs /\ In b2 qs
                           /\ slug b1 = slug_ /\ set_id b1 = set_slug
                           /\ slug b2 = slug_ /\ set_id b2 = set_slug)
  end.
Proof.
  unfold BoundaryObjectGetterMixin_get_object.
  set (matching := List.filter
                     (fun b => String.eqb (slug b) slug_ && String.eqb (set_id b) set_slug) qs).
  assert (Hmatch : forall b, In b matching <->
                     In b qs /\ slug b = slug_ /\ set_id b = set_slug).
  { intros b. unfold matching. rewrite filter_In, andb_true_iff, !String.eqb_eq.
    reflexivity. }
  pose proof (get_one_cases "Boundary" matching) as Hcases.
  destruct (get_one "Boundary" matching) as [b|e].
  - apply Hmatch. rewrite Hcases. left. reflexivity.
  - destruct Hcases as [[-> Hnil]|[-> (x & y & rest & Hrows)]].
    + left. split; [reflexivity|]. intros b Hin Hb.
      assert (Hb' : In b matching) by (apply Hmatch; tauto).
      rewrite Hnil in Hb'. destruct Hb'.
    + right. split; [reflexivity|]. exists x, y.
      assert (Hx : In x matching) by (rewrite Hrows; left; reflexivity).
      assert (Hy : In y matching) by (rewrite Hrows; right; left; reflexivity).
      apply Hmatch in Hx, Hy. tauto.
Qed.

(** X25.  The detail view of a boundary set returns a set of the
    queryset with the slug asked for, raises [Http404] exactly when
    the queryset has none, and lets [MultipleObjectsReturned] through
    when it has several. *)
Theorem boundary_set_detail_is_found_or_404 (qs : list BoundarySet) (slug_ : string) :
  match BoundarySetDetailView_get_object qs slug_ with
  | Ok bs => In bs qs /\ bs_slug bs = slug_
  | Raise e =>
      (e = Http404 "" /\ forall bs, In bs qs -> bs_slug bs <> slug_)
      \/ (e = MultipleObjectsReturned "BoundarySet"
          /\ exists bs1 bs2 rest,
               List.filter (fun bs => String.eqb (bs_slug bs) slug_) qs
               = bs1 :: bs2 :: rest)
  end.
Proof.
  unfold BoundarySetDetailView_get_object.
  set (matching := List.filter (fun bs => String.eqb (bs_slug bs) slug_) qs).
  assert (Hmatch : forall bs, In bs matching <-> In bs qs /\ bs_slug bs = slug_).
  { intros bs. unfold matching. rewrite filter_In, String.eqb_eq. reflexivity. }
  pose proof (get_one_cases "BoundarySet" matching) as Hcases.
  destruct (get_one "BoundarySet" matching) as [bs|e].
  - apply Hmatch. rewrite Hcases. left. reflexivity.
  - destruct Hcases as [[-> Hnil]|[-> Hrows]].
    + left. split; [reflexivity|]. intros bs Hin Hbs.
      assert (Hbs' : In bs matching) by (apply Hmatch; tauto).
      rewrite Hnil in Hbs'. destruct Hbs'.
    + right. split; [reflexivity | exact Hrows].
Qed.

(** ** The map page *)

(** X19.  The context of the map page is consistent: the boundary set
    is the one with the slug of the URL; without a boundary slug there
    is no boundary, and with one the boundary has that slug and
    belongs to that set.  A 404 means that the set does not exist, or
    that it has no boundary with the slug asked for; a boundary with
    the same slug in another set does not count. *)
Theorem map_context_is_consistent (set_slug boundary_slug : string) :
  match boundaries_map db set_slug boundary_slug with
  | Ok (bs, bb) =>
      In bs (boundary_sets db) /\ bs_slug bs = set_slug
      /\ match bb with
         | None => boundary_slug = ""
         | Some b => boundary_slug <> "" /\ In b (all_boundaries db)
                     /\ set_id b = set_slug /\ slug b = boundary_slug
         end
  | Raise (Http404 _) =>
      (forall bs, In bs (boundary_sets db) -> bs_slug bs <> set_slug)
      \/ (boundary_slug <> ""
          /\ forall b, In b (all_boundaries db) ->
                       ~ (set_id b = set_slug /\ slug b = boundary_slug))
  | Raise _ => True
  end.
Proof.
  unfold boundaries_map, get_object_or_404.
  set (sets := List.filter (fun bs => String.eqb (bs_slug bs) set_slug) (boundary_sets db)).
  assert (Hsets : forall bs, In bs sets <-> In bs (boundary_sets db) /\ bs_slug bs = set_slug).
  { intros bs. unfold sets. rewrite filter_In, String.eqb_eq. reflexivity. }
  pose proof (get_one_cases "BoundarySet" sets) as Hcases.
  destruct (get_one "BoundarySet" sets) as [bs|e]; simpl.
  - assert (Hbs : In bs (boundary_sets db) /\ bs_slug bs = set_slug).
    { apply Hsets. rewrite Hcases. left. reflexivity. }
    destruct Hbs as [Hin Hslug].
    destruct (String.eqb boundary_slug "") eqn:Eempty.
    { apply String.eqb_eq in Eempty. auto. }
    apply String.eqb_neq in Eempty.
    set (rows := List.filter (fun b => String.eqb (set_id b) (bs_slug bs)
                                        && String.eqb (slug b) boundary_slug)
                             (all_boundaries db)).
    assert (Hrows : forall b, In b rows <->
                      In b (all_boundaries db) /\ set_id b = set_slug
                      /\ slug b = boundary_slug).
    { intros b. unfold rows. rewrite filter_In, andb_true_iff, !String.eqb_eq, Hslug.
      reflexivity. }
    pose proof (get_one_cases "Boundary" rows) as Hboundary.
    destruct (get_one "Boundary" rows) as [b|e]; simpl.
    + assert (Hb : In b rows) by (rewrite Hboundary; left; reflexivity).
      apply Hrows in Hb. tauto.
    + destruct Hboundary as [[-> Hnil]|[-> _]]; simpl; [|exact I].
      right. split; [exact Eempty|]. intros b Hb Hmatch.
      assert (Hb' : In b rows) by (apply Hrows; tauto).
      rewrite Hnil in Hb'. destruct Hb'.
  - destruct Hcases as [[-> Hnil]|[-> _]]; simpl; [|exact I].
    left. intros bs Hbs Hslug.
    assert (Hbs' : In bs sets) by (apply Hsets; tauto).
    rewrite Hnil in Hbs'. destruct Hbs'.
Qed.

(** ** The list view *)

(** X20.  [get_qs] without a set slug passes the queryset on
    unchanged; with the slug of an existing set it keeps exactly the
    boundaries of that set, in their order; and with a slug that no
    boundary set has it raises [Http404], whatever the queryset
    holds. *)
Theorem get_qs_selects_the_set (super_qs : list (Boundary Geom)) (set_slug : string) :
  match get_qs db super_qs set_slug with
  | Ok qs =>
      (set_slug = "" /\ qs = super_qs)
      \/ (set_slug <> ""
          /\ (exists bs, In bs (boundary_sets db) /\ bs_slug bs = set_slug)
          /\ qs = List.filter (fun b => String.eqb (set_id b) set_slug) super_qs
          /\ forall b, In b qs <-> In b super_qs /\ set_id b = set_slug)
  | Raise e =>
      e = Http404 "" /\ set_slug <> ""
      /\ forall bs, In bs (boundary_sets db) -> bs_slug bs <> set_slug
  end.
Proof.
  unfold get_qs.
  destruct (String.eqb set_slug "") eqn:Eempty.
  { apply String.eqb_eq in Eempty. auto. }
  apply String.eqb_neq in Eempty.
  destruct (List.filter (fun bs => String.eqb (bs_slug bs) set_slug) (boundary_sets db))
    as [|bs sets] eqn:Esets; simpl.
  - split; [reflexivity|]. split; [exact Eempty|]. intros bs Hbs Hslug.
    assert (Hin : In bs (List.filter (fun bs => String.eqb (bs_slug bs) set_slug)
                                     (boundary_sets db))).
    { apply filter_In. split; [exact Hbs|]. now apply String.eqb_eq. }
    rewrite Esets in Hin. destruct Hin.
  - right. split; [exact Eempty|]. split; [|split; [reflexivity|]].
    + exists bs.
      assert (Hin : In bs (List.filter (fun bs => String.eqb (bs_slug bs) set_slug)
                                       (boundary_sets db))).
      { rewrite Esets. left. reflexivity. }
      apply filter_In in Hin as [Hin Hslug]. apply String.eqb_eq in Hslug. auto.
    + intros b. rewrite filter_In, String.eqb_eq. reflexivity.
Qed.

(** ** The filters of the list view *)

Fixpoint occurrences (c : ascii) (s : string) : nat :=
  match s with
  | EmptyString => 0
  | String d s' => (if Ascii.eqb d c then 1 else 0) + occurrences c s'
  end.

Lemma split_length (sep : ascii) (s : string) :
  length (split sep s) = S (occurrences sep s).
Proof.
  induction s as [|c s IH]; [reflexivity|]. simpl.
  destruct (Ascii.eqb c sep); simpl; [now rewrite IH|].
  destruct (split sep s) as [|w ws]; simpl in *; [discriminate|exact IH].
Qed.

Lemma split_without_separator (sep : ascii) (s : string) :
  occurrences sep s = 0 -> split sep s = [s].
Proof.
  induction s as [|c s IH]; [reflexivity|]. simpl.
  destruct (Ascii.eqb c sep); [discriminate|]. simpl. intros Hs.
  rewrite (IH Hs). reflexivity.
Qed.

Lemma split_pair (sep : ascii) (s1 s2 : string) :
  occurrences sep s1 = 0 -> occurrences sep s2 = 0 ->
  split sep (s1 +:+ String sep s2) = [s1; s2].
Proof.
  intros H1 H2. induction s1 as [|c s1 IH].
  - change (EmptyString +:+ String sep s2) with (String sep s2). simpl.
    rewrite Ascii.eqb_refl, (split_without_separator sep s2 H2). reflexivity.
  - change (String c s1 +:+ String sep s2) with (String c (s1 +:+ String sep s2)).
    simpl in H1 |- *. destruct (Ascii.eqb c sep); [discriminate|].
    rewrite (IH H1). reflexivity.
Qed.

(** X21.  An [intersects] parameter must have exactly one slash.
    With none, or with more than one, the unpacking of line 54 raises
    [ValueError], which the view does not catch; [touches] is unpacked
    in the same way on line 62. *)
Theorem reference_without_one_slash_is_a_value_error (GET : gmap string string)
    (param : string) (qs : list (Boundary Geom)) :
  GET !! "intersects" = Some param ->
  occurrences "/" param <> 1 ->
  reference_shape db param = RaisesValueError
  /\ filter db GET qs = RaisesValueError.
Proof.
  intros Hget Hslash.
  assert (Href : reference_shape db param = RaisesValueError).
  { unfold reference_shape. pose proof (split_length "/" param) as Hlen.
    destruct (split "/" param) as [|a [|b [|c l]]]; try reflexivity.
    simpl in Hlen. congruence. }
  split; [exact Href|]. unfold filter. rewrite Hget, Href. reflexivity.
Qed.

(** X22.  An [intersects] parameter of the form [set/slug] that names
    no boundary makes the list view raise [Http404]; when it names
    one, the queryset is narrowed to the boundaries whose shape covers
    or overlaps the shape of the first such boundary. *)
Theorem reference_to_a_missing_boundary_is_404 (GET : gmap string string)
    (set_slug slug_ : string) (qs : list (Boundary Geom)) :
  GET !! "intersects" = Some (set_slug +:+ String "/" slug_) ->
  occurrences "/" set_slug = 0 -> occurrences "/" slug_ = 0 ->
  match List.filter (fun b => String.eqb (slug b) slug_ && String.eqb (set_id b) set_slug)
                    (all_boundaries db) with
  | [] => filter db GET qs = Raises (Http404 "")
  | b :: _ =>
      filter db (delete "intersects" GET)
        (List.filter (fun x => covers (shape x) (shape b) || overlaps (shape x) (shape b)) qs)
      = filter db GET qs
  end.
Proof.
  intros Hget Hset Hslug.
  assert (Href : reference_shape db (set_slug +:+ String "/" slug_)
                 = match List.filter (fun b => String.eqb (slug b) slug_
                                              && String.eqb (set_id b) set_slug)
                                     (all_boundaries db) with
                   | b :: _ => Returns (shape b)
                   | [] => Raises (Http404 "")
                   end).
  { unfold reference_shape. rewrite (split_pair "/" set_slug slug_ Hset Hslug).
    reflexivity. }
  unfold filter. rewrite Hget, Href.
  destruct (List.filter _ (all_boundaries db)) as [|b rest]; [reflexivity|].
  rewrite lookup_delete_eq. simpl.
  rewrite !lookup_delete_ne by discriminate. reflexivity.
Qed.

(** X23.  The three filters of the list view work together: when
    [filter] returns, a boundary is in the result exactly when it was
    in the queryset, covers or overlaps the boundary named by
    [intersects] (if given), touches the one named by [touches] (if
    given), and belongs to one of the comma-separated [sets] (if
    given). *)
Theorem filter_keeps_what_matches (GET : gmap string string)
    (qs result : list (Boundary Geom)) :
  filter db GET qs = Returns result ->
  forall b,
    In b result <->
    In b qs
    /\ (forall param, GET !! "intersects" = Some param ->
          exists ref, reference_shape db param = Returns ref
                      /\ (covers (shape b) ref || overlaps (shape b) ref) = true)
    /\ (forall param, GET !! "touches" = Some param ->
          exists ref, reference_shape db param = Returns ref
                      /\ touches (shape b) ref = true)
    /\ (forall param, GET !! "sets" = Some param -> In (set_id b) (split "," param)).
Proof.
  unfold filter. intros Hfilter b.
  destruct (GET !! "intersects") as [pi|] eqn:Ei.
  - destruct (reference_shape db pi) as [ri| | |] eqn:Eri; simpl in Hfilter;
      try discriminate.
    destruct (GET !! "touches") as [pt|] eqn:Et.
    + destruct (reference_shape db pt) as [rt| | |] eqn:Ert; simpl in Hfilter;
        try discriminate.
      destruct (GET !! "sets") as [ps|] eqn:Es; injection Hfilter as <-;
        rewrite ?filter_In, ?existsb_exists.
      * split.
        -- intros [[[Hin Hi] Ht] (x & Hx & Hs)]. apply String.eqb_eq in Hs as <-.
           repeat split; try assumption.
           ++ intros ? [= <-]. eauto.
           ++ intros ? [= <-]. eauto.
           ++ intros ? [= <-]. exact Hx.
        -- intros (Hin & Hi & Ht & Hs).
           destruct (Hi _ eq_refl) as (r1 & Hr1 & Hc). rewrite Eri in Hr1.
           injection Hr1 as <-.
           destruct (Ht _ eq_refl) as (r2 & Hr2 & Hc2). rewrite Ert in Hr2.
           injection Hr2 as <-.
           repeat split; try assumption.
           exists (set_id b). split; [exact (Hs _ eq_refl) | apply String.eqb_refl].
      * split.
        -- intros [[Hin Hi] Ht]. repeat split; try assumption.
           ++ intros ? [= <-]. eauto.
           ++ intros ? [= <-]. eauto.
           ++ discriminate.
        -- intros (Hin & Hi & Ht & _).
           destruct (Hi _ eq_refl) as (r1 & Hr1 & Hc). rewrite Eri in Hr1.
           injection Hr1 as <-.
           destruct (Ht _ eq_refl) as (r2 & Hr2 & Hc2). rewrite Ert in Hr2.
           injection Hr2 as <-. auto.
    + destruct (GET !! "sets") as [ps|] eqn:Es; injection Hfilter as <-;
        rewrite ?filter_In, ?existsb_exists.
      * split.
        -- intros [[Hin Hi] (x & Hx & Hs)]. apply String.eqb_eq in Hs as <-.
           repeat split; try assumption.
           ++ intros ? [= <-]. eauto.
           ++ discriminate.
           ++ intros ? [= <-]. exact Hx.
        -- intros (Hin & Hi & _ & Hs).
           destruct (Hi _ eq_refl) as (r1 & Hr1 & Hc). rewrite Eri in Hr1.
           injection Hr1 as <-.
           repeat split; try assumption.
           exists (set_id b). split; [exact (Hs _ eq_refl) | apply String.eqb_refl].
      * split.
        -- intros [Hin Hi]. repeat split; try assumption.
           ++ intros ? [= <-]. eauto.
           ++ discriminate.
           ++ discriminate.
        -- intros (Hin & Hi & _ & _).
           destruct (Hi _ eq_refl) as (r1 & Hr1 & Hc). rewrite Eri in Hr1.
           injection Hr1 as <-. auto.
  - simpl in Hfilter.
    destruct (GET !! "touches") as [pt|] eqn:Et.
    + destruct (reference_shape db pt) as [rt| | |] eqn:Ert; simpl in Hfilter;
        try discriminate.
      destruct (GET !! "sets") as [ps|] eqn:Es; injection Hfilter as <-;
        rewrite ?filter_In, ?existsb_exists.
      * split.
        -- intros [[Hin Ht] (x & Hx & Hs)]. apply String.eqb_eq in Hs as <-.
           repeat split; try assumption.
           ++ discriminate.
           ++ intros ? [= <-]. eauto.
           ++ intros ? [= <-]. exact Hx.
        -- intros (Hin & _ & Ht & Hs).
           destruct (Ht _ eq_refl) as (r2 & Hr2 & Hc2). rewrite Ert in Hr2.
           injection Hr2 as <-.
           repeat split; try assumption.
           exists (set_id b). split; [exact (Hs _ eq_refl) | apply String.eqb_refl].
      * split.
        -- intros [Hin Ht]. repeat split; try assumption.
           ++ discriminate.
           ++ intros ? [= <-]. eauto.
           ++ discriminate.
        -- intros (Hin & _ & Ht & _).
           destruct (Ht _ eq_refl) as (r2 & Hr2 & Hc2). rewrite Ert in Hr2.
           injection Hr2 as <-. auto.
    + destruct (GET !! "sets") as [ps|] eqn:Es; injection Hfilter as <-;
        rewrite ?filter_In, ?existsb_exists.
      * split.
        -- intros [Hin (x & Hx & Hs)]. apply String.eqb_eq in Hs as <-.
           repeat split; try assumption; try discriminate.
           intros ? [= <-]. exact Hx.
        -- intros (Hin & _ & _ & Hs). split; [exact Hin|].
           exists (set_id b). split; [exact (Hs _ eq_refl) | apply String.eqb_refl].
      * split.
        -- intros Hin. repeat split; try assumption; discriminate.
        -- intros (Hin & _). exact Hin.
Qed.

(** ** The geometry URLs *)

Lemma append_cons (c : ascii) (s t : string) :
  String c s +:+ t = String c (s +:+ t).
Proof. reflexivity. Qed.

Lemma append_assoc (s t u : string) : (s +:+ t) +:+ u = s +:+ (t +:+ u).
Proof.
  induction s as [|c s IH]; [reflexivity|].
  rewrite !append_cons, IH. reflexivity.
Qed.

Lemma append_nil_r (s : string) : s +:+ EmptyString = s.
Proof.
  induction s as [|c s IH]; [reflexivity|]. rewrite append_cons, IH. reflexivity.
Qed.

Lemma format_with_escaped (arg q : string) :
  format_with arg true (escape_percent q) = Returns q.
Proof.
  induction q as [|c q IH]; [reflexivity|]. simpl.
  destruct (Ascii.eqb c "%") eqn:Ec.
  - apply Ascii.eqb_eq in Ec as ->. simpl. rewrite IH. reflexivity.
  - simpl. rewrite Ec, IH. reflexivity.
Qed.

Lemma format_with_plain (arg : string) (converted : bool) (plain rest : string) :
  occurrences "%" plain = 0 ->
  format_with arg converted (plain +:+ rest)
  = prepend plain (format_with arg converted rest).
Proof.
  induction plain as [|c plain IH]; intros Hplain.
  - change (EmptyString +:+ rest) with rest.
    destruct (format_with arg converted rest); reflexivity.
  - rewrite append_cons. simpl in Hplain |- *.
    destruct (Ascii.eqb c "%"); [discriminate|].
    rewrite (IH Hplain).
    destruct (format_with arg converted rest); reflexivity.
Qed.

(** The URL of one geometry field: the path, the field, and the query
    string after a question mark when there is one. *)
Definition geo_url (path QUERY_STRING field : string) : string :=
  if String.eqb QUERY_STRING "" then path +:+ field
  else path +:+ field +:+ "?" +:+ QUERY_STRING.

Lemma format_geo_url (path QUERY_STRING field : string) :
  occurrences "%" path = 0 ->
  format (if String.eqb QUERY_STRING "" then path +:+ "%s"
          else (path +:+ "%s") +:+ ("?" +:+ escape_percent QUERY_STRING)) field
  = Returns (geo_url path QUERY_STRING field).
Proof.
  intros Hpath. unfold format, geo_url.
  destruct (String.eqb QUERY_STRING "").
  - rewrite (format_with_plain field false path "%s" Hpath). simpl.
    rewrite append_nil_r. reflexivity.
  - rewrite append_assoc.
    rewrite (format_with_plain field false path _ Hpath).
    change ("%s" +:+ "?" +:+ escape_percent QUERY_STRING)
      with (String "%" (String "s" (String "?" (escape_percent QUERY_STRING)))).
    simpl. rewrite format_with_escaped. reflexivity.
Qed.

(** X24.  The query string of the request comes back unchanged in the
    three geometry URLs, percent signs included: doubling them before
    the [%] formatting and the formatting itself cancel out.  For a
    list that is neither empty nor longer than [MAX_GEO_LIST_RESULTS],
    and a path without a percent sign, each URL is the path, the name
    of the field and, if there is a query string, a question mark and
    the query string; the other entries of the dictionary are kept.
    For an empty or too long list the dictionary is returned as it
    is. *)
Theorem geometry_urls_keep_the_query_string (MAX_GEO_LIST_RESULTS : Z)
    (path QUERY_STRING : string) (r : gmap string string) (total_count : Z) :
  occurrences "%" path = 0 ->
  get_related_resources MAX_GEO_LIST_RESULTS path QUERY_STRING r total_count
  = Returns
      (if (Z.eqb total_count 0 || Z.ltb MAX_GEO_LIST_RESULTS total_count)%bool then r
       else <["centroids_url" := geo_url path QUERY_STRING "centroid"]>
              (<["simple_shapes_url" := geo_url path QUERY_STRING "simple_shape"]>
                 (<["shapes_url" := geo_url path QUERY_STRING "shape"]> r))).
Proof.
  intros Hpath. unfold get_related_resources.
  destruct (Z.eqb total_count 0 || Z.ltb MAX_GEO_LIST_RESULTS total_count)%bool;
    [reflexivity|].
  rewrite !(format_geo_url path QUERY_STRING _ Hpath). reflexivity.
Qed.

End Spec.

(** ** On the rectangles *)

Section Examples.
Import Flatland IntersectionsSpec.

(** Covering, overlapping and touching for rectangles; a malformed
    geometry is in none of these relations. *)
Definition rect_covers (g h : Shape) : bool :=
  match g, h with
  | Rect a b c d, Rect a' b' c' d' =>
      ((a <=? a') && (b <=? b') && (c' <=? c) && (d' <=? d))%float
  | _, _ => false
  end.

Definition rect_interiors_meet (g h : Shape) : bool :=
  match g, h with
  | Rect a b c d, Rect a' b' c' d' =>
      ((fmax a a' <? fmin c c') && (fmax b b' <? fmin d d'))%float
  | _, _ => false
  end.

#[export] Instance flat_lookups : SpatialLookups Shape := {
  covers := rect_covers;
  overlaps g h := rect_interiors_meet g h && negb (rect_covers g h) && negb (rect_covers h g);
  touches g h := rect_intersects g h && negb (rect_interiors_meet g h);
}.

Definition query_string (params : list (string * string)) : gmap string string :=
  list_to_map params.

Lemma reference_without_one_slash_is_a_value_error_witness :
  query_string [("intersects", "wards")] !! "intersects" = Some "wards"
  /\ occurrences "/" "wards" <> 1
  /\ filter city (query_string [("intersects", "wards")]) (all_boundaries city)
     = RaisesValueError.
Proof.
  assert (Hget : query_string [("intersects", "wards")] !! "intersects" = Some "wards")
    by (vm_compute; reflexivity).
  assert (Hslash : occurrences "/" "wards" <> 1) by (vm_compute; discriminate).
  split; [exact Hget|]. split; [exact Hslash|].
  exact (proj2 (reference_without_one_slash_is_a_value_error city
                  (query_string [("intersects", "wards")]) "wards"
                  (all_boundaries city) Hget Hslash)).
Defined.

Lemma reference_to_a_missing_boundary_is_404_witness :
  query_string [("intersects", "wards/w9")] !! "intersects" = Some ("wards" +:+ String "/" "w9")
  /\ filter city (query_string [("intersects", "wards/w9")]) (all_boundaries city)
     = Raises (Http404 "").
Proof.
  assert (Hget : query_string [("intersects", "wards/w9")] !! "intersects"
                 = Some ("wards" +:+ String "/" "w9")) by (vm_compute; reflexivity).
  split; [exact Hget|].
  exact (reference_to_a_missing_boundary_is_404 city
           (query_string [("intersects", "wards/w9")]) "wards" "w9"
           (all_boundaries city) Hget eq_refl eq_refl).
Defined.

Lemma filter_keeps_what_matches_witness :
  let GET := query_string [("intersects", "wards/w1"); ("sets", "districts,parishes")] in
  let d2 := boundary "districts" "d2" "District 2" (Rect 0.5 0 2 1) in
  filter city GET (all_boundaries city) = Returns [d2]
  /\ (In d2 [d2] <->
      In d2 (all_boundaries city)
      /\ (forall param, GET !! "intersects" = Some param ->
            exists ref, reference_shape city param = Returns ref
                        /\ (covers (shape d2) ref || overlaps (shape d2) ref) = true)
      /\ (forall param, GET !! "touches" = Some param ->
            exists ref, reference_shape city param = Returns ref
                        /\ touches (shape d2) ref = true)
      /\ (forall param, GET !! "sets" = Some param -> In (set_id d2) (split "," param))).
Proof.
  intros GET d2.
  assert (Hfilter : filter city GET (all_boundaries city) = Returns [d2])
    by (vm_compute; reflexivity).
  split; [exact Hfilter|].
  exact (filter_keeps_what_matches city GET (all_boundaries city) [d2] Hfilter d2).
Defined.

Lemma geometry_urls_keep_the_query_string_witness :
  occurrences "%" "/boundaries/wards/" = 0
  /\ get_related_resources 80 "/boundaries/wards/" "name=St%20Paul&limit=5" ∅ 12
     = Returns
         (<["centroids_url" := "/boundaries/wards/centroid?name=St%20Paul&limit=5"]>
            (<["simple_shapes_url" := "/boundaries/wards/simple_shape?name=St%20Paul&limit=5"]>
               (<["shapes_url" := "/boundaries/wards/shape?name=St%20Paul&limit=5"]> ∅))).
Proof.
  split; [reflexivity|].
  exact (geometry_urls_keep_the_query_string 80 "/boundaries/wards/"
           "name=St%20Paul&limit=5" ∅ 12 eq_refl).
Defined.

End Examples.
End ViewsSpec.
